(** * Inscription envelope parser, witness scanner, transaction cache and
      content formatter of mcp-inscription: a shallow embedding.

    The embedding follows [ordinals_client.ts] (class [OrdinalsClient]) and
    [utils/cache.ts] (class [SimpleCache]).  Everything the TypeScript code
    obtains from Node or from a library (bitcoinjs-lib's script decompiler,
    the Buffer encodings, [JSON], [fs], [path]) is gathered in the record
    [Runtime]; the clock and the HTTP endpoint are gathered in [Env].  The
    theorems hold for every runtime and every environment. *)

From Stdlib Require Import ZArith NArith List String Ascii Lia.
From Stdlib.Strings Require Import Byte.
From Stdlib Require Import DecimalString.
From stdpp Require Import base option list gmap sorting.

Local Open Scope nat_scope.

(** ** JavaScript values *)

(** A JavaScript string is a sequence of UTF-16 code units. *)
Definition jsstring := list N.

(** A string literal of the source (ASCII only). *)
Definition js (s : string) : jsstring :=
  map N_of_ascii (list_ascii_of_string s).

(** [a.startsWith(p)] *)
Fixpoint startsWith (a p : jsstring) : bool :=
  match p, a with
  | [], _ => true
  | _ :: _, [] => false
  | c :: p', d :: a' => N.eqb c d && startsWith a' p'
  end.

(** [a === b] on strings *)
Definition str_eqb (a b : jsstring) : bool := bool_decide (a = b).

(** [`${n}`] for a non-negative integer [n] *)
Definition Number_toString (n : nat) : jsstring :=
  js (NilEmpty.string_of_uint (Nat.to_uint n)).

(** A Node [Buffer]: a sequence of bytes. *)
Definition Buffer := list Byte.byte.

(** [Buffer.concat(chunks)] *)
Definition Buffer_concat (chunks : list Buffer) : Buffer := concat chunks.

(** *** Exceptions *)

Inductive BitcoinErrorCode :=
| KEY_GENERATION_ERROR
| DECODE_ERROR
| BLOCKCHAIN_ERROR
| VALIDATION_ERROR
| EXTERNAL_SERVICE_ERROR
| FILE_SYSTEM_ERROR.

(** What a [throw] carries: an [Error] with its message, a [BitcoinError]
    (a subclass of [Error]) with its message and code, or a value that is
    not an [Error], with its [String(...)] rendering. *)
Inductive JsError :=
| PlainError (message : jsstring)
| BitcoinError (message : jsstring) (code : BitcoinErrorCode)
| NotAnError (rendering : jsstring).

(** [error instanceof Error ? error.message : String(error)] *)
Definition error_message (e : JsError) : jsstring :=
  match e with
  | PlainError m => m
  | BitcoinError m _ => m
  | NotAnError r => r
  end.

Inductive Outcome (A : Type) :=
| Returned (a : A)
| Thrown (e : JsError).
Arguments Returned {A} a.
Arguments Thrown {A} e.

(** ** Script tokens *)

(** An element of the array [bitcoin.script.decompile] returns: an opcode
    (a number) or a data push (a [Buffer]). *)
Inductive Chunk :=
| Op (code : N)
| Data (bytes : Buffer).

(** The members of [bitcoin.opcodes] the parser names. *)
Definition OP_FALSE : N := 0.
Definition OP_0 : N := 0.
Definition OP_1 : N := 81.
Definition OP_IF : N := 99.
Definition OP_ENDIF : N := 104.

(** [v === code], for [v] an array element ([None] is [undefined]). *)
Definition is_opcode (v : option Chunk) (code : N) : bool :=
  match v with
  | Some (Op n) => N.eqb n code
  | _ => false
  end.

(** [isBuffer(v)] *)
Definition isBuffer (v : option Chunk) : bool :=
  match v with
  | Some (Data _) => true
  | _ => false
  end.

(** [Array.prototype.findIndex]: the callback receives the element and its
    index; [None] stands for the result [-1]. *)
Fixpoint findIndex_from {A : Type} (f : A -> nat -> bool) (l : list A)
    (i : nat) : option nat :=
  match l with
  | [] => None
  | x :: l' => if f x i then Some i else findIndex_from f l' (S i)
  end.

Definition findIndex {A : Type} (f : A -> nat -> bool) (l : list A) :
    option nat :=
  findIndex_from f l 0.

(** ** The runtime the client runs on *)

Record Runtime := {
  (** [bitcoin.script.decompile]: [null] for a malformed script; the model
      also lets it throw. *)
  script_decompile : Buffer -> Outcome (option (list Chunk));
  (** [Buffer.from(s, 'hex')] *)
  Buffer_from_hex : jsstring -> Outcome Buffer;
  (** [buf.toString('utf8')], [buf.toString('hex')],
      [buf.toString('base64')] *)
  toString_utf8 : Buffer -> jsstring;
  toString_hex : Buffer -> jsstring;
  toString_base64 : Buffer -> jsstring;
  (** [JSON.parse] and [JSON.stringify(v, null, 2)] *)
  JsonValue : Type;
  JSON_parse : jsstring -> Outcome JsonValue;
  JSON_stringify_pretty : JsonValue -> jsstring;
  (** [fs] and [path] *)
  FileSystem : Type;
  fs_existsSync : FileSystem -> jsstring -> bool;
  fs_mkdirSync : FileSystem -> jsstring -> Outcome unit * FileSystem;
  fs_writeFileSync :
    FileSystem -> jsstring -> Buffer -> Outcome unit * FileSystem;
  path_join : jsstring -> jsstring -> jsstring;
  path_resolve : jsstring -> jsstring;
}.

(** ** The logger *)

Inductive Level := debug | info | warn | error.

(** One constructor per message of the modelled methods, with the values
    the message interpolates. *)
Inductive Message :=
| Unexpected_opcode (op : option Chunk) (index : nat)
| Successfully_extracted (contentType : jsstring) (size : nat)
| Error_during_extraction (message : jsstring) (bufferHex : jsstring)
| Unknown_error_during_extraction (message : jsstring) (bufferHex : jsstring)
| Scanning_for_inscriptions (txid : jsstring)
| Found_ordinal (txid : jsstring) (inputIndex witnessIndex : nat)
| Error_extracting_from_witness (message : jsstring)
| Extracted_inscriptions (count : nat) (txid : jsstring)
| No_inscriptions_found (txid : jsstring)
| Fetching_transaction (txid : jsstring) (includeRaw : bool)
| Transaction_found_in_cache (txid : jsstring)
| Failed_to_fetch_details (txid : jsstring) (status : N) (text : jsstring)
| Failed_to_fetch_raw (txid : jsstring) (status : N) (text : jsstring)
| Could_not_fetch_raw (message : jsstring)
| Failed_to_fetch_or_process (message : jsstring) (txid : jsstring)
| Blockchain_API_error (context : jsstring) (message : jsstring)
| Decoding_witness (txid : jsstring)
| Using_cached_ordinals (txid : jsstring)
| Not_in_cache_after_getTransaction (txid : jsstring)
| No_inscriptions_in_transaction (txid : jsstring)
| Successfully_decoded (count : nat) (txid : jsstring)
| Failed_to_decode_witness (message : jsstring) (txid : jsstring)
| Created_image_directory (dir : jsstring)
| Failed_to_create_image_directory (dir : jsstring)
| Saved_image (path : jsstring)
| Image_exists (path : jsstring)
| Using_image_path (originalPath formattedPath : jsstring)
| Failed_to_parse_JSON (message : jsstring)
| Error_formatting (message : jsstring) (contentType : jsstring).

Definition LogEntry : Type := Level * Message.

(** A computation that only writes to the log. *)
Definition Logged (A : Type) : Type := A * list LogEntry.

(** ** [OrdinalsClient.extractOrdinalContent] *)

Module Extracted.
(** [{ contentType: string; content: Buffer }] *)
Record t := make { contentType : jsstring; content : Buffer }.
End Extracted.

Module Frame.
(** The local variables of [extractOrdinalContent] when it reaches its
    [return { contentType, content: fullContent }]. *)
Record t := make {
  ifIndex : nat;
  endifIndex : nat;
  ordPushIndex : nat;
  contentTypeIndex : nat;
  contentType : jsstring;
  separatorIndex : nat;
  dataChunks : list Buffer;
  fullContent : Buffer;
}.
End Frame.

Section Parser.
Variable rt : Runtime.

(** Lines 123-124: the first [OP_IF], which must not be the first token
    and must follow an [OP_FALSE]. *)
Definition locateMarker (decompiled : list Chunk) : option nat :=
  match findIndex (fun op _ => is_opcode (Some op) OP_IF) decompiled with
  | None => None
  | Some ifIndex =>
      if Nat.eqb ifIndex 0
         || negb (is_opcode (decompiled !! (ifIndex - 1)) OP_FALSE)
      then None
      else Some ifIndex
  end.

(** Line 125 *)
Definition locateEndif (decompiled : list Chunk) (ifIndex : nat) :
    option nat :=
  findIndex
    (fun op idx => Nat.ltb ifIndex idx && is_opcode (Some op) OP_ENDIF)
    decompiled.

(** Line 127: [op.toString()] decodes as UTF-8. *)
Definition locateOrdPush (decompiled : list Chunk)
    (ifIndex endifIndex : nat) : option nat :=
  findIndex
    (fun op idx =>
       Nat.ltb ifIndex idx && Nat.ltb idx endifIndex
       && match op with
          | Data b => str_eqb (toString_utf8 rt b) (js "ord")
          | Op _ => false
          end)
    decompiled.

(** [(decompiled[k] as Buffer).toString('utf8')] *)
Definition chunk_toString (v : option Chunk) : jsstring :=
  match v with
  | Some (Data b) => toString_utf8 rt b
  | _ => []
  end.

(** Lines 129-136: [contentTypeIndex] and [contentType]; [None] when the
    method returns [null] at line 136. *)
Definition readContentType (decompiled : list Chunk)
    (ordPushIndex endifIndex : nat) : option (nat * jsstring) :=
  let found :=
    if Nat.ltb (ordPushIndex + 1) endifIndex
       && (is_opcode (decompiled !! (ordPushIndex + 1)) OP_1
           || is_opcode (decompiled !! (ordPushIndex + 1)) 1)
    then
      if Nat.ltb (ordPushIndex + 2) endifIndex
         && isBuffer (decompiled !! (ordPushIndex + 2))
      then Some (ordPushIndex + 2,
                 chunk_toString (decompiled !! (ordPushIndex + 2)))
      else None
    else
      if Nat.ltb (ordPushIndex + 1) endifIndex
         && isBuffer (decompiled !! (ordPushIndex + 1))
      then Some (ordPushIndex + 1,
                 chunk_toString (decompiled !! (ordPushIndex + 1)))
      else None
  in
  match found with
  | Some (contentTypeIndex, contentType) =>
      (* [!contentType]: the empty string is falsy *)
      if bool_decide (contentType = []) then None
      else Some (contentTypeIndex, contentType)
  | None => None
  end.

(** [nextOp === OP_0], or a one-byte buffer holding zero (lines 140-141) *)
Definition isSeparator (nextOp : option Chunk) : bool :=
  is_opcode nextOp OP_0
  || match nextOp with
     | Some (Data [b]) => N.eqb (Byte.to_N b) 0
     | _ => false
     end.

(** Lines 137-143 *)
Definition locateSeparator (decompiled : list Chunk)
    (contentTypeIndex endifIndex : nat) : option nat :=
  if Nat.ltb (contentTypeIndex + 1) endifIndex
     && isSeparator (decompiled !! (contentTypeIndex + 1))
  then Some (contentTypeIndex + 1)
  else None.

(** Lines 145-149: [count] iterations of the [for] loop from index [i],
    threading [dataChunks] and the warnings written so far. *)
Fixpoint collectChunks (decompiled : list Chunk) (count i : nat)
    (dataChunks : list Buffer) (log : list LogEntry) :
    list Buffer * list LogEntry :=
  match count with
  | O => (dataChunks, log)
  | S count' =>
      match decompiled !! i with
      | Some (Data b) =>
          collectChunks decompiled count' (S i) (dataChunks ++ [b]) log
      | op =>
          collectChunks decompiled count' (S i) dataChunks
            (log ++ [(warn, Unexpected_opcode op i)])
      end
  end.

(** Lines 123-152, on the decompiled script. *)
Definition parseDecompiled (decompiled : list Chunk) :
    Logged (option Frame.t) :=
  match locateMarker decompiled with
  | None => (None, [])
  | Some ifIndex =>
  match locateEndif decompiled ifIndex with
  | None => (None, [])
  | Some endifIndex =>
  match locateOrdPush decompiled ifIndex endifIndex with
  | None => (None, [])
  | Some ordPushIndex =>
  match readContentType decompiled ordPushIndex endifIndex with
  | None => (None, [])
  | Some (contentTypeIndex, contentType) =>
  match locateSeparator decompiled contentTypeIndex endifIndex with
  | None => (None, [])
  | Some separatorIndex =>
      let '(dataChunks, warnings) :=
        collectChunks decompiled (endifIndex - (separatorIndex + 1))
          (separatorIndex + 1) [] [] in
      let fullContent := Buffer_concat dataChunks in
      (Some (Frame.make ifIndex endifIndex ordPushIndex contentTypeIndex
               contentType separatorIndex dataChunks fullContent),
       warnings
       ++ [(info, Successfully_extracted contentType (length fullContent))])
  end end end end end.

Definition extracted_of (f : Frame.t) : Extracted.t :=
  Extracted.make (Frame.contentType f) (Frame.fullContent f).

(** The [try] block (lines 121-152). *)
Definition extractOrdinalContent_try (scriptBuffer : Buffer) :
    Logged (Outcome (option Extracted.t)) :=
  match script_decompile rt scriptBuffer with
  | Thrown e => (Thrown e, [])
  | Returned None => (Returned None, [])
  | Returned (Some decompiled) =>
      let '(r, log) := parseDecompiled decompiled in
      (Returned (extracted_of <$> r), log)
  end.

(** The [catch] block (lines 153-167). *)
Definition extractOrdinalContent_catch (scriptBuffer : Buffer)
    (e : JsError) : Logged (Outcome (option Extracted.t)) :=
  match e with
  | NotAnError r =>
      (Returned None,
       [(error, Unknown_error_during_extraction r
                  (toString_hex rt scriptBuffer))])
  | _ =>
      (Returned None,
       [(error, Error_during_extraction (error_message e)
                  (toString_hex rt scriptBuffer))])
  end.

Definition extractOrdinalContent (scriptBuffer : Buffer) :
    Logged (Outcome (option Extracted.t)) :=
  match extractOrdinalContent_try scriptBuffer with
  | (Thrown e, log) =>
      let '(r, log') := extractOrdinalContent_catch scriptBuffer e in
      (r, log ++ log')
  | done => done
  end.

End Parser.


(** ** Transactions as the Blockstream API returns them
    ([blockstream/types.ts]) *)

Module BlockstreamTxPrevout.
Record t := make {
  value : Z;
  scriptpubkey : jsstring;
  scriptpubkey_asm : jsstring;
  scriptpubkey_type : jsstring;
  scriptpubkey_address : jsstring;
}.
End BlockstreamTxPrevout.

Module BlockstreamTxVin.
Record t := make {
  txid : jsstring;
  vout : Z;
  prevout : option BlockstreamTxPrevout.t;
  scriptsig : jsstring;
  scriptsig_asm : jsstring;
  witness : option (list jsstring);
  is_coinbase : bool;
  sequence : Z;
}.
End BlockstreamTxVin.

Module BlockstreamTxVout.
Record t := make {
  value : Z;
  scriptpubkey : jsstring;
  scriptpubkey_asm : jsstring;
  scriptpubkey_type : jsstring;
  scriptpubkey_address : option jsstring;
}.
End BlockstreamTxVout.

Module BlockstreamTxStatus.
Record t := make {
  confirmed : bool;
  block_height : option Z;
  block_hash : option jsstring;
  block_time : option Z;
}.
End BlockstreamTxStatus.

Module BlockstreamTx.
Record t := make {
  txid : jsstring;
  version : Z;
  locktime : Z;
  vin : list BlockstreamTxVin.t;
  vout : list BlockstreamTxVout.t;
  size : Z;
  weight : Z;
  fee : Z;
  status : BlockstreamTxStatus.t;
}.
End BlockstreamTx.

(** ** [OrdinalsClient.extractAllOrdinals] *)

Module SourceInfo.
Record t := make {
  inputIndex : nat;
  witnessIndex : nat;
  txid : option jsstring;
  vout : option Z;
}.
End SourceInfo.

Module ExtractedOrdinal.
Record t := make {
  contentType : jsstring;
  content : Buffer;
  sourceInfo : SourceInfo.t;
}.
End ExtractedOrdinal.

(** [l.forEach((x, index) => ...)], the callback updating a state [St];
    [i] is the index of the head of [l]. *)
Fixpoint forEach_from {A St : Type} (f : St -> A -> nat -> St) (l : list A)
    (i : nat) (s : St) : St :=
  match l with
  | [] => s
  | x :: l' => forEach_from f l' (S i) (f s x i)
  end.

Definition forEach {A St : Type} (f : St -> A -> nat -> St) (l : list A)
    (s : St) : St :=
  forEach_from f l 0 s.

Section Scanner.
Variable rt : Runtime.

(** The callback of the inner [forEach] (lines 184-207); the state is the
    array [extractedOrdinals] with the log. *)
Definition scanWitness (tx : BlockstreamTx.t) (input : BlockstreamTxVin.t)
    (inputIndex : nat) (acc : Logged (list ExtractedOrdinal.t))
    (witnessHex : jsstring) (witnessIndex : nat) :
    Logged (list ExtractedOrdinal.t) :=
  let '(extractedOrdinals, log) := acc in
  match Buffer_from_hex rt witnessHex with
  | Thrown e =>
      (extractedOrdinals,
       log ++ [(debug, Error_extracting_from_witness (error_message e))])
  | Returned witnessBuffer =>
      match extractOrdinalContent rt witnessBuffer with
      | (Thrown e, plog) =>
          (extractedOrdinals,
           log ++ plog
           ++ [(debug, Error_extracting_from_witness (error_message e))])
      | (Returned None, plog) => (extractedOrdinals, log ++ plog)
      | (Returned (Some extracted), plog) =>
          (extractedOrdinals
           ++ [ExtractedOrdinal.make
                 (Extracted.contentType extracted)
                 (Extracted.content extracted)
                 (SourceInfo.make inputIndex witnessIndex
                    (Some (BlockstreamTxVin.txid input))
                    (Some (BlockstreamTxVin.vout input)))],
           log ++ plog
           ++ [(debug, Found_ordinal (BlockstreamTx.txid tx)
                         inputIndex witnessIndex)])
      end
  end.

(** The callback of the outer [forEach] (lines 182-209). *)
Definition scanInput (tx : BlockstreamTx.t)
    (acc : Logged (list ExtractedOrdinal.t)) (input : BlockstreamTxVin.t)
    (inputIndex : nat) : Logged (list ExtractedOrdinal.t) :=
  match BlockstreamTxVin.witness input with
  | Some (w :: ws) => forEach (scanWitness tx input inputIndex) (w :: ws) acc
  | _ => acc
  end.

Definition extractAllOrdinals (txParsed : BlockstreamTx.t) :
    Logged (list ExtractedOrdinal.t) :=
  let '(extractedOrdinals, log) :=
    forEach (scanInput txParsed) (BlockstreamTx.vin txParsed)
      ([], [(debug, Scanning_for_inscriptions (BlockstreamTx.txid txParsed))])
  in
  (extractedOrdinals,
   log
   ++ [if Nat.ltb 0 (length extractedOrdinals)
       then (info, Extracted_inscriptions (length extractedOrdinals)
                     (BlockstreamTx.txid txParsed))
       else (debug, No_inscriptions_found (BlockstreamTx.txid txParsed))]).

End Scanner.


(** ** [SimpleCache] ([utils/cache.ts]) *)

Module SimpleCache.

(** [CacheEntry<T>] *)
Record CacheEntry (T : Type) := Entry { data : T; timestamp : Z }.
Arguments Entry {T} data timestamp.
Arguments data {T} c.
Arguments timestamp {T} c.

(** The fields of a [SimpleCache<T>] object. *)
Record t (T : Type) := make {
  cache : gmap jsstring (CacheEntry T);
  ttlMs : Z;
}.
Arguments make {T} cache ttlMs.
Arguments cache {T} t.
Arguments ttlMs {T} t.

Section Methods.
Context {T : Type}.
(** [clock k] is what the [k]-th call of [Date.now()] returns; every method
    that reads the clock takes the number of reads made so far and returns
    the new number. *)
Variable clock : nat -> Z.

(** [new SimpleCache(ttlSeconds)] *)
Definition new (ttlSeconds : Z) : t T := make ∅ (ttlSeconds * 1000)%Z.

Definition get (key : jsstring) (c : t T) (reads : nat) :
    option T * t T * nat :=
  match cache c !! key with
  | None => (None, c, reads)
  | Some entry =>
      let now := clock reads in
      if (ttlMs c <? now - timestamp entry)%Z
      then (None, make (delete key (cache c)) (ttlMs c), S reads)
      else (Some (data entry), c, S reads)
  end.

Definition set (key : jsstring) (d : T) (c : t T) (reads : nat) :
    t T * nat :=
  (make (<[key := Entry d (clock reads)]> (cache c)) (ttlMs c), S reads).

Definition clear (c : t T) : t T := make ∅ (ttlMs c).

Definition delete (key : jsstring) (c : t T) : bool * t T :=
  (bool_decide (is_Some (cache c !! key)),
   make (base.delete key (cache c)) (ttlMs c)).

Definition has (key : jsstring) (c : t T) : bool :=
  bool_decide (is_Some (cache c !! key)).

Definition size (c : t T) : nat := base.size (cache c).

Definition purgeExpired (c : t T) (reads : nat) : t T * nat :=
  let now := clock reads in
  (make (filter (fun kv => ¬ (ttlMs c < now - timestamp kv.2)%Z) (cache c))
     (ttlMs c),
   S reads).

(** [getOrLoad(key, loader)]; [loaded] is what awaiting [loader()] gives,
    which is asked for only when the lookup misses. *)
Definition getOrLoad (key : jsstring) (loaded : Outcome T) (c : t T)
    (reads : nat) : Outcome T * t T * nat :=
  match get key c reads with
  | (Some cachedValue, c', reads') => (Returned cachedValue, c', reads')
  | (None, c', reads') =>
      match loaded with
      | Returned newValue =>
          let '(c'', reads'') := set key newValue c' reads' in
          (Returned newValue, c'', reads'')
      | Thrown e => (Thrown e, c', reads')
      end
  end.

End Methods.
End SimpleCache.

(** ** The result types of the client ([mcp_inscription_types.ts]) *)

Module TxStatus.
Record t := make {
  confirmed : bool;
  blockHeight : option Z;
  blockHash : option jsstring;
  blockTime : option Z;
}.
End TxStatus.

Module TxPrevout.
Record t := make {
  value : Z;
  scriptPubKey : jsstring;
  scriptPubKeyAsm : jsstring;
  scriptPubKeyType : jsstring;
  scriptPubKeyAddress : option jsstring;
}.
End TxPrevout.

Module TxInput.
Record t := make {
  txid : option jsstring;
  vout : option Z;
  sequence : Z;
  prevout : option TxPrevout.t;
  scriptSig : option jsstring;
  scriptSigAsm : option jsstring;
  witness : option (list jsstring);
  isCoinbase : bool;
}.
End TxInput.

Module TxOutput.
Record t := make {
  value : Z;
  scriptPubKey : jsstring;
  scriptPubKeyAsm : jsstring;
  scriptPubKeyType : jsstring;
  scriptPubKeyAddress : option jsstring;
}.
End TxOutput.

Module OrdinalInfo.
(** [content] is [{ type, data }] *)
Record t := make {
  isOrdinal : bool;
  content : option (jsstring * jsstring);
}.
End OrdinalInfo.

Module TransactionWithOrdinal.
Record t := make {
  txid : jsstring;
  version : Z;
  locktime : Z;
  size : Z;
  weight : Z;
  fee : Z;
  status : TxStatus.t;
  inputs : list TxInput.t;
  outputs : list TxOutput.t;
  ordinal : option OrdinalInfo.t;
}.
End TransactionWithOrdinal.

Module TransactionCache.
Record t := make {
  basicTransaction : TransactionWithOrdinal.t;
  extractedOrdinals : list ExtractedOrdinal.t;
  rawHex : option jsstring;
}.
End TransactionCache.

Inductive FormatImageOption := base64 | file.

(** ** The outside world of one client *)

(** What [await fetch(url)] gives: a rejection, or a response with its
    [ok], [status], [await res.text()] and [await res.json()]. *)
Module Response.
Record t := make {
  ok : bool;
  status : N;
  text : Outcome jsstring;
  json : Outcome BlockstreamTx.t;
}.
End Response.

Inductive FetchResult :=
| Rejected (e : JsError)
| Responded (res : Response.t).

(** The configuration of the client and the behaviour of its collaborators:
    [clock k] is the value of the [k]-th [Date.now()], [http k url] the
    result of the [k]-th [fetch], made to [url]. *)
Record Env := {
  apiBase : jsstring;
  imageTempDir : jsstring;
  clock : nat -> Z;
  http : nat -> jsstring -> FetchResult;
}.

(** ** The client: its state and its methods *)

Section Client.
Variable rt : Runtime.
Variable env : Env.

(** The mutable fields of an [OrdinalsClient] together with what its
    methods have done to the world: the number of clock reads, the URLs
    fetched (oldest first), the file system and the log. *)
Record State := mkState {
  transactionCache : SimpleCache.t TransactionCache.t;
  requestCache : gset jsstring;
  clock_reads : nat;
  requests : list jsstring;
  disk : FileSystem rt;
  log : list LogEntry;
}.

(** The state the constructor leaves (line 82: a TTL of 300 seconds); [fs]
    and [l] are the file system and the log once it has looked for
    [imageTempDir]. *)
Definition new_client (fs : FileSystem rt) (l : list LogEntry) : State :=
  mkState (SimpleCache.new 300) ∅ 0 [] fs l.

(** A method: it runs from a state and returns or throws. *)
Definition M (A : Type) : Type := State -> Outcome A * State.

Definition ret {A : Type} (a : A) : M A := fun s => (Returned a, s).

Definition throw {A : Type} (e : JsError) : M A := fun s => (Thrown e, s).

Definition bind {A B : Type} (m : M A) (k : A -> M B) : M B :=
  fun s =>
    match m s with
    | (Returned a, s') => k a s'
    | (Thrown e, s') => (Thrown e, s')
    end.

Notation "'let*' x ':=' c1 'in' c2" := (bind c1 (fun x => c2))
  (at level 10, x pattern, c1 at level 100, c2 at level 200).
Notation "c1 ';;' c2" := (bind c1 (fun _ => c2))
  (at level 100, c2 at level 200, right associativity).

(** [try { m } catch (e) { h e }] *)
Definition try_catch {A : Type} (m : M A) (h : JsError -> M A) : M A :=
  fun s =>
    match m s with
    | (Thrown e, s') => h e s'
    | (Returned a, s') => (Returned a, s')
    end.

(** [try { m } finally { f }] *)
Definition try_finally {A : Type} (m : M A) (f : M unit) : M A :=
  fun s =>
    let '(r, s') := m s in
    match f s' with
    | (Returned _, s'') => (r, s'')
    | (Thrown e, s'') => (Thrown e, s'')
    end.

(** [logger.debug / info / warn / error] *)
Definition logger (lvl : Level) (msg : Message) : M unit :=
  fun s =>
    (Returned tt,
     mkState (transactionCache s) (requestCache s) (clock_reads s)
       (requests s) (disk s) (log s ++ [(lvl, msg)])).

(** The log of a pure computation goes to the logger. *)
Definition logged {A : Type} (c : Logged A) : M A :=
  fun s =>
    (Returned (fst c),
     mkState (transactionCache s) (requestCache s) (clock_reads s)
       (requests s) (disk s) (log s ++ snd c)).

(** [this.transactionCache.get(txid)] *)
Definition transactionCache_get (txid : jsstring) :
    M (option TransactionCache.t) :=
  fun s =>
    let '(r, c, reads) :=
      SimpleCache.get (clock env) txid (transactionCache s) (clock_reads s)
    in
    (Returned r,
     mkState c (requestCache s) reads (requests s) (disk s) (log s)).

(** [this.transactionCache.set(txid, d)] *)
Definition transactionCache_set (txid : jsstring) (d : TransactionCache.t) :
    M unit :=
  fun s =>
    let '(c, reads) :=
      SimpleCache.set (clock env) txid d (transactionCache s) (clock_reads s)
    in
    (Returned tt,
     mkState c (requestCache s) reads (requests s) (disk s) (log s)).

Definition requestCache_add (txid : jsstring) : M unit :=
  fun s =>
    (Returned tt,
     mkState (transactionCache s) ({[txid]} ∪ requestCache s) (clock_reads s)
       (requests s) (disk s) (log s)).

Definition requestCache_delete (txid : jsstring) : M unit :=
  fun s =>
    (Returned tt,
     mkState (transactionCache s) (requestCache s ∖ {[txid]}) (clock_reads s)
       (requests s) (disk s) (log s)).

(** [await fetch(url)] *)
Definition fetch (url : jsstring) : M Response.t :=
  fun s =>
    let s' :=
      mkState (transactionCache s) (requestCache s) (clock_reads s)
        (requests s ++ [url]) (disk s) (log s) in
    match http env (length (requests s)) url with
    | Rejected e => (Thrown e, s')
    | Responded res => (Returned res, s')
    end.

(** [await p] for a promise that is already settled as [o] *)
Definition await {A : Type} (o : Outcome A) : M A :=
  fun s => (o, s).

(** [handleBlockchainError] ([utils/error_handlers.ts]); it returns the
    error to throw. *)
Definition handleBlockchainError (e : JsError) (context resourceId : jsstring)
    : M JsError :=
  match e with
  | BitcoinError _ _ => ret e
  | _ =>
      logger error (Blockchain_API_error context (error_message e));;
      ret (BitcoinError (js "Blockchain API error: " ++ error_message e)
             BLOCKCHAIN_ERROR)
  end.

(** [if (error instanceof BitcoinError) throw error;
     throw handleBlockchainError(error, context, txid);] *)
Definition rethrow_as_BitcoinError {A : Type} (e : JsError)
    (context txid : jsstring) : M A :=
  match e with
  | BitcoinError _ _ => throw e
  | _ => let* e' := handleBlockchainError e context txid in throw e'
  end.

(** The URL of a transaction, [`${this.apiBase}/tx/${txid}`]. *)
Definition tx_url (txid : jsstring) : jsstring :=
  apiBase env ++ js "/tx/" ++ txid.

(** [`${this.apiBase}/tx/${txid}/hex`] *)
Definition hex_url (txid : jsstring) : jsstring :=
  apiBase env ++ js "/tx/" ++ txid ++ js "/hex".

(** [BigInt]-free rendering of a status code, [`${res.status}`]. *)
Definition status_text (status : N) : jsstring :=
  Number_toString (N.to_nat status).

Definition getRawTransaction (txid : jsstring) : M jsstring :=
  try_catch
    (let* res := fetch (hex_url txid) in
     if negb (Response.ok res) then
       let* errorText := await (Response.text res) in
       logger error
         (Failed_to_fetch_raw txid (Response.status res) errorText);;
       throw (PlainError (js "Raw transaction not found: "
                          ++ status_text (Response.status res)))
     else
       let* rawHex := await (Response.text res) in
       if bool_decide (rawHex = []) then
         throw (PlainError (js "Received empty or invalid raw hex for "
                            ++ txid))
       else ret rawHex)
    (fun e => rethrow_as_BitcoinError e (js "Raw Transaction Fetch") txid).

Definition build_prevout (p : BlockstreamTxPrevout.t) : TxPrevout.t :=
  TxPrevout.make
    (BlockstreamTxPrevout.value p)
    (BlockstreamTxPrevout.scriptpubkey p)
    (BlockstreamTxPrevout.scriptpubkey_asm p)
    (BlockstreamTxPrevout.scriptpubkey_type p)
    (Some (BlockstreamTxPrevout.scriptpubkey_address p)).

Definition build_input (input : BlockstreamTxVin.t) : TxInput.t :=
  TxInput.make
    (Some (BlockstreamTxVin.txid input))
    (Some (BlockstreamTxVin.vout input))
    (BlockstreamTxVin.sequence input)
    (build_prevout <$> BlockstreamTxVin.prevout input)
    (Some (BlockstreamTxVin.scriptsig input))
    (Some (BlockstreamTxVin.scriptsig_asm input))
    (BlockstreamTxVin.witness input)
    (BlockstreamTxVin.is_coinbase input).

Definition build_output (output : BlockstreamTxVout.t) : TxOutput.t :=
  TxOutput.make
    (BlockstreamTxVout.value output)
    (BlockstreamTxVout.scriptpubkey output)
    (BlockstreamTxVout.scriptpubkey_asm output)
    (BlockstreamTxVout.scriptpubkey_type output)
    (BlockstreamTxVout.scriptpubkey_address output).

Definition buildTransactionWithOrdinal (txParsed : BlockstreamTx.t)
    (extractedOrdinals : list ExtractedOrdinal.t) : TransactionWithOrdinal.t :=
  let st := BlockstreamTx.status txParsed in
  TransactionWithOrdinal.make
    (BlockstreamTx.txid txParsed)
    (BlockstreamTx.version txParsed)
    (BlockstreamTx.locktime txParsed)
    (BlockstreamTx.size txParsed)
    (BlockstreamTx.weight txParsed)
    (BlockstreamTx.fee txParsed)
    (TxStatus.make (BlockstreamTxStatus.confirmed st)
       (BlockstreamTxStatus.block_height st)
       (BlockstreamTxStatus.block_hash st)
       (BlockstreamTxStatus.block_time st))
    (map build_input (BlockstreamTx.vin txParsed))
    (map build_output (BlockstreamTx.vout txParsed))
    match extractedOrdinals with
    | [] => None
    | firstOrdinal :: _ =>
        Some (OrdinalInfo.make true
                (Some (ExtractedOrdinal.contentType firstOrdinal,
                       toString_hex rt
                         (ExtractedOrdinal.content firstOrdinal))))
    end.

(** Lines 309-343: the body of the inner [try]. *)
Definition fetchAndScan (txid : jsstring) (includeRaw : bool) :
    M TransactionWithOrdinal.t :=
  let* res := fetch (tx_url txid) in
  if negb (Response.ok res) then
    let* errorText := await (Response.text res) in
    logger error
      (Failed_to_fetch_details txid (Response.status res) errorText);;
    throw (PlainError (js "Transaction not found: "
                       ++ status_text (Response.status res)))
  else
    let* txParsed := await (Response.json res) in
    let* extractedOrdinals := logged (extractAllOrdinals rt txParsed) in
    let* rawHex :=
      if includeRaw then
        try_catch
          (let* h := getRawTransaction txid in ret (Some h))
          (fun hexError =>
             logger warn (Could_not_fetch_raw (error_message hexError));;
             ret None)
      else ret None in
    let transactionInfo :=
      buildTransactionWithOrdinal txParsed extractedOrdinals in
    transactionCache_set txid
      (TransactionCache.make transactionInfo extractedOrdinals rawHex);;
    ret transactionInfo.

Definition getTransaction (txid : jsstring) (includeRaw : bool) :
    M TransactionWithOrdinal.t :=
  try_catch
    (logger debug (Fetching_transaction txid includeRaw);;
     let* cached := transactionCache_get txid in
     match cached with
     | Some c =>
         logger debug (Transaction_found_in_cache txid);;
         ret (TransactionCache.basicTransaction c)
     | None =>
         requestCache_add txid;;
         try_finally (fetchAndScan txid includeRaw)
           (requestCache_delete txid)
     end)
    (fun e =>
       logger error (Failed_to_fetch_or_process (error_message e) txid);;
       rethrow_as_BitcoinError e (js "Transaction Fetch/Process") txid).

(** *** [formatInscriptionContent] *)

(** [fs.existsSync], [fs.mkdirSync(dir, { recursive: true })],
    [fs.writeFileSync] on the client's file system *)
Definition existsSync (p : jsstring) : M bool :=
  fun s => (Returned (fs_existsSync rt (disk s) p), s).

Definition mkdirSync (p : jsstring) : M unit :=
  fun s =>
    let '(r, d) := fs_mkdirSync rt (disk s) p in
    (r, mkState (transactionCache s) (requestCache s) (clock_reads s)
          (requests s) d (log s)).

Definition writeFileSync (p : jsstring) (b : Buffer) : M unit :=
  fun s =>
    let '(r, d) := fs_writeFileSync rt (disk s) p b in
    (r, mkState (transactionCache s) (requestCache s) (clock_reads s)
          (requests s) d (log s)).

(** [extensions[mimeType] || '.bin'].  The method is only called with a
    [mimeType] that starts with [image/], so no inherited property of the
    object literal is ever looked up. *)
Definition getFileExtensionFromMimeType (mimeType : jsstring) : jsstring :=
  if str_eqb mimeType (js "image/jpeg") then js ".jpg"
  else if str_eqb mimeType (js "image/jpg") then js ".jpg"
  else if str_eqb mimeType (js "image/png") then js ".png"
  else if str_eqb mimeType (js "image/gif") then js ".gif"
  else if str_eqb mimeType (js "image/webp") then js ".webp"
  else if str_eqb mimeType (js "image/svg+xml") then js ".svg"
  else if str_eqb mimeType (js "image/bmp") then js ".bmp"
  else if str_eqb mimeType (js "image/tiff") then js ".tiff"
  else if str_eqb mimeType (js "image/x-icon") then js ".ico"
  else js ".bin".

(** [p.replace(/\\/g, '/')]: 92 is the backslash, 47 the slash. *)
Definition replace_backslashes (p : jsstring) : jsstring :=
  map (fun c => if N.eqb c 92 then 47%N else c) p.

Fixpoint drop_slashes (p : jsstring) : jsstring :=
  match p with
  | c :: p' => if N.eqb c 47 then drop_slashes p' else p
  | [] => []
  end.

(** [p.replace(/^file:\/\/+/, '')] *)
Definition strip_file_prefix (p : jsstring) : jsstring :=
  if startsWith p (js "file://") then drop_slashes (drop 7 p) else p.

(** [`data:${contentType};base64,${base64Data}`] *)
Definition data_uri (contentType : jsstring) (contentBuffer : Buffer) :
    jsstring :=
  js "data:" ++ contentType ++ js ";base64,"
  ++ toString_base64 rt contentBuffer.

(** Lines 481-519: the image is written under [imageTempDir]. *)
Definition saveImage (contentType : jsstring) (contentBuffer : Buffer)
    (txid : jsstring) (index : nat) : M jsstring :=
  let* dirExists := existsSync (imageTempDir env) in
  (if negb dirExists then
     try_catch
       (mkdirSync (imageTempDir env);;
        logger info (Created_image_directory (imageTempDir env)))
       (fun e =>
          logger error (Failed_to_create_image_directory (imageTempDir env));;
          throw (PlainError (js "Failed to create image directory: "
                             ++ error_message e)))
   else ret tt);;
  let extension := getFileExtensionFromMimeType contentType in
  let filename := txid ++ js "_" ++ Number_toString index ++ extension in
  let filePath := path_join rt (imageTempDir env) filename in
  let* fileExists := existsSync filePath in
  (if negb fileExists then
     writeFileSync filePath contentBuffer;;
     logger info (Saved_image filePath)
   else logger info (Image_exists filePath));;
  let absolutePath := path_resolve rt filePath in
  let formattedPath := strip_file_prefix (replace_backslashes absolutePath) in
  logger debug (Using_image_path absolutePath formattedPath);;
  ret formattedPath.

(** [null] is [None]. *)
Definition formatInscriptionContent (contentType : jsstring)
    (contentBuffer : Buffer) (formatImageOption : FormatImageOption)
    (txid : option jsstring) (index : nat) : M (option jsstring) :=
  try_catch
    (if startsWith contentType (js "image/") then
       match formatImageOption, txid with
       | file, Some (c :: t) =>
           let* formattedPath :=
             saveImage contentType contentBuffer (c :: t) index in
           ret (Some formattedPath)
       | _, _ => ret (Some (data_uri contentType contentBuffer))
       end
     else if str_eqb contentType (js "application/json") then
       try_catch
         (let jsonString := toString_utf8 rt contentBuffer in
          let* jsonData := await (JSON_parse rt jsonString) in
          ret (Some (JSON_stringify_pretty rt jsonData)))
         (fun e =>
            logger error (Failed_to_parse_JSON (error_message e));;
            ret (Some (toString_utf8 rt contentBuffer)))
     else if startsWith contentType (js "text/") then
       ret (Some (toString_utf8 rt contentBuffer))
     else ret (Some (data_uri contentType contentBuffer)))
    (fun e =>
       logger error (Error_formatting (error_message e) contentType);;
       ret None).

(** *** [decodeWitness] *)

(** [l.forEach((x, index) => ...)] with a callback that runs in the
    client's state. *)
Fixpoint forEachM_from {A St : Type} (f : St -> A -> nat -> M St)
    (l : list A) (i : nat) (acc : St) : M St :=
  match l with
  | [] => ret acc
  | x :: l' => let* acc' := f acc x i in forEachM_from f l' (S i) acc'
  end.

(** The callback of lines 431-443; [if (formattedContent)] holds for a
    string that is not empty. *)
Definition formatEach (formatImageOption : FormatImageOption)
    (txid : jsstring) (decodedData : list jsstring)
    (ordinal : ExtractedOrdinal.t) (index : nat) : M (list jsstring) :=
  let* formattedContent :=
    formatInscriptionContent (ExtractedOrdinal.contentType ordinal)
      (ExtractedOrdinal.content ordinal) formatImageOption (Some txid) index
  in
  match formattedContent with
  | Some (c :: t) => ret (decodedData ++ [c :: t])
  | _ => ret decodedData
  end.

(** Lines 400-420: the inscriptions of [txid], from the cache. *)
Definition cachedOrdinals (txid : jsstring) : M (list ExtractedOrdinal.t) :=
  let* cached := transactionCache_get txid in
  match cached with
  | Some c =>
      logger debug (Using_cached_ordinals txid);;
      ret (TransactionCache.extractedOrdinals c)
  | None =>
      getTransaction txid false;;
      let* newCached := transactionCache_get txid in
      match newCached with
      | Some c => ret (TransactionCache.extractedOrdinals c)
      | None =>
          logger warn (Not_in_cache_after_getTransaction txid);;
          ret []
      end
  end.

Definition decodeWitness (txid : jsstring)
    (formatImageOption : FormatImageOption) : M (list jsstring) :=
  try_catch
    (logger debug (Decoding_witness txid);;
     let* extractedOrdinals := cachedOrdinals txid in
     match extractedOrdinals with
     | [] =>
         logger info (No_inscriptions_in_transaction txid);;
         ret []
     | _ :: _ =>
         let* decodedData :=
           forEachM_from (formatEach formatImageOption txid)
             extractedOrdinals 0 [] in
         logger info (Successfully_decoded (length decodedData) txid);;
         ret decodedData
     end)
    (fun e =>
       logger error (Failed_to_decode_witness (error_message e) txid);;
       rethrow_as_BitcoinError e (js "Witness Data Decode") txid).

End Client.

(** ** A reference runtime

    An executable instance of [Runtime], used to evaluate the client on
    concrete inputs: bitcoinjs-lib 6.1.7's [script.decompile], Node's
    Buffer encodings, a file system that is a set of paths, and a [JSON]
    that knows the three literals. *)

Module Reference.

Definition OP_PUSHDATA1 : N := 76.
Definition OP_PUSHDATA2 : N := 77.
Definition OP_PUSHDATA4 : N := 78.
Definition OP_1NEGATE : N := 79.
Definition OP_INT_BASE : N := 80.

(** [buffer.readUIntLE(0, n)] on the first [n] bytes, when there are
    that many. *)
Fixpoint readUIntLE (n : nat) (bs : Buffer) : option N :=
  match n, bs with
  | O, _ => Some 0%N
  | S n', b :: bs' =>
      match readUIntLE n' bs' with
      | Some v => Some (Byte.to_N b + 256 * v)%N
      | None => None
      end
  | S _, [] => None
  end.

(** [pushdata.decode] at an opcode in 1..78: the number of bytes to push
    and the bytes after the length field; [None] is [null]. *)
Definition pushdata_decode (opcode : N) (tail : Buffer) :
    option (N * Buffer) :=
  if (opcode <? OP_PUSHDATA1)%N then Some (opcode, tail)
  else if (opcode =? OP_PUSHDATA1)%N then
    match readUIntLE 1 tail with
    | Some v => Some (v, drop 1 tail)
    | None => None
    end
  else if (opcode =? OP_PUSHDATA2)%N then
    match readUIntLE 2 tail with
    | Some v => Some (v, drop 2 tail)
    | None => None
    end
  else
    match readUIntLE 4 tail with
    | Some v => Some (v, drop 4 tail)
    | None => None
    end.

(** [asMinimalOP], applied to a pushed buffer: the chunk that is pushed. *)
Definition asMinimalOP (data : Buffer) : Chunk :=
  match data with
  | [] => Op OP_0
  | [b] =>
      let v := Byte.to_N b in
      if (1 <=? v)%N && (v <=? 16)%N then Op (OP_INT_BASE + v)
      else if (v =? 129)%N then Op OP_1NEGATE
      else Data data
  | _ => Data data
  end.

(** The [while] loop of [decompile] on the bytes not yet read; every
    iteration reads at least one byte, so [fuel] at least the length of
    [rest] is enough. *)
Fixpoint decompile_loop (fuel : nat) (rest : Buffer) (chunks : list Chunk) :
    option (list Chunk) :=
  match rest with
  | [] => Some chunks
  | b :: tail =>
      match fuel with
      | O => None
      | S fuel' =>
          let opcode := Byte.to_N b in
          if (0 <? opcode)%N && (opcode <=? OP_PUSHDATA4)%N then
            match pushdata_decode opcode tail with
            | None => None
            | Some (number, body) =>
                if Nat.ltb (length body) (N.to_nat number) then None
                else
                  decompile_loop fuel' (drop (N.to_nat number) body)
                    (chunks ++ [asMinimalOP (take (N.to_nat number) body)])
            end
          else decompile_loop fuel' tail (chunks ++ [Op opcode])
      end
  end.

Definition decompile (buffer : Buffer) : Outcome (option (list Chunk)) :=
  Returned (decompile_loop (length buffer) buffer []).

(** *** Buffer encodings *)

Definition hex_digit (v : N) : N :=
  if (v <? 10)%N then (48 + v)%N else (87 + v)%N.

(** [buf.toString('hex')] *)
Definition toString_hex (b : Buffer) : jsstring :=
  flat_map (fun x => let v := Byte.to_N x in
                     [hex_digit (v / 16); hex_digit (v mod 16)]) b.

Definition hex_value (c : N) : option N :=
  if (48 <=? c)%N && (c <=? 57)%N then Some (c - 48)%N
  else if (97 <=? c)%N && (c <=? 102)%N then Some (c - 87)%N
  else if (65 <=? c)%N && (c <=? 70)%N then Some (c - 55)%N
  else None.

(** [Buffer.from(s, 'hex')]: pairs of digits are read until one is not a
    pair of hexadecimal digits. *)
Fixpoint from_hex (s : jsstring) : Buffer :=
  match s with
  | c :: d :: s' =>
      match hex_value c, hex_value d with
      | Some h, Some l =>
          match Byte.of_N (16 * h + l) with
          | Some b => b :: from_hex s'
          | None => []
          end
      | _, _ => []
      end
  | _ => []
  end.

(** The UTF-8 decoder of the Encoding Standard, which replaces every
    maximal ill-formed part by U+FFFD: [needed] continuation bytes are
    awaited, [seen] have come, [cp] accumulates the code point and the next
    byte must lie within [lower..upper]. *)
Fixpoint utf8_code_points (bs : list N) (cp : N) (needed seen : nat)
    (lower upper : N) : list N :=
  match bs with
  | [] => if Nat.eqb needed 0 then [] else [65533%N]
  | b :: rest =>
      let first :=
        if (b <=? 127)%N then b :: utf8_code_points rest 0 0 0 128 191
        else if (194 <=? b)%N && (b <=? 223)%N then
          utf8_code_points rest (N.land b 31) 1 0 128 191
        else if (224 <=? b)%N && (b <=? 239)%N then
          utf8_code_points rest (N.land b 15) 2 0
            (if (b =? 224)%N then 160 else 128)
            (if (b =? 237)%N then 159 else 191)
        else if (240 <=? b)%N && (b <=? 244)%N then
          utf8_code_points rest (N.land b 7) 3 0
            (if (b =? 240)%N then 144 else 128)
            (if (b =? 244)%N then 143 else 191)
        else 65533%N :: utf8_code_points rest 0 0 0 128 191
      in
      if Nat.eqb needed 0 then first
      else if (lower <=? b)%N && (b <=? upper)%N then
        let cp' := (cp * 64 + N.land b 63)%N in
        if Nat.eqb (S seen) needed
        then cp' :: utf8_code_points rest 0 0 0 128 191
        else utf8_code_points rest cp' needed (S seen) 128 191
      else 65533%N :: first
  end.

(** A code point as UTF-16 code units. *)
Definition utf16 (cp : N) : list N :=
  if (cp <? 65536)%N then [cp]
  else [(55296 + (cp - 65536) / 1024)%N; (56320 + (cp - 65536) mod 1024)%N].

(** [buf.toString('utf8')] *)
Definition toString_utf8 (b : Buffer) : jsstring :=
  flat_map utf16 (utf8_code_points (map Byte.to_N b) 0 0 0 128 191).

Definition base64_char (v : N) : N :=
  if (v <? 26)%N then (65 + v)%N
  else if (v <? 52)%N then (71 + v)%N
  else if (v <? 62)%N then (v - 4)%N
  else if (v =? 62)%N then 43%N
  else 47%N.

(** [buf.toString('base64')]; 61 is the padding character. *)
Fixpoint base64_of (bs : list N) : jsstring :=
  match bs with
  | [] => []
  | [x] =>
      [base64_char (x / 4); base64_char ((x mod 4) * 16); 61%N; 61%N]
  | [x; y] =>
      [base64_char (x / 4); base64_char ((x mod 4) * 16 + y / 16);
       base64_char ((y mod 16) * 4); 61%N]
  | x :: y :: z :: rest =>
      [base64_char (x / 4); base64_char ((x mod 4) * 16 + y / 16);
       base64_char ((y mod 16) * 4 + z / 64); base64_char (z mod 64)]
      ++ base64_of rest
  end.

Definition toString_base64 (b : Buffer) : jsstring :=
  base64_of (map Byte.to_N b).

(** *** JSON, restricted to the literals [null], [true] and [false]: every
    other text is rejected with a [SyntaxError]. *)
Inductive Literal := json_null | json_true | json_false.

Definition JSON_parse (text : jsstring) : Outcome Literal :=
  if str_eqb text (js "null") then Returned json_null
  else if str_eqb text (js "true") then Returned json_true
  else if str_eqb text (js "false") then Returned json_false
  else Thrown (PlainError (js "Unexpected token")).

Definition JSON_stringify_pretty (v : Literal) : jsstring :=
  match v with
  | json_null => js "null"
  | json_true => js "true"
  | json_false => js "false"
  end.

(** *** A file system: the set of paths that exist.  [writable] tells
    whether [mkdirSync] and [writeFileSync] succeed. *)
Definition existsSync (fs : gset jsstring) (p : jsstring) : bool :=
  bool_decide (p ∈ fs).

Definition create (writable : bool) (fs : gset jsstring) (p : jsstring) :
    Outcome unit * gset jsstring :=
  if writable then (Returned tt, {[p]} ∪ fs)
  else (Thrown (PlainError (js "EACCES: permission denied")), fs).

(** POSIX [path.join] and [path.resolve] on a directory without a
    trailing slash and an absolute path. *)
Definition path_join (dir name : jsstring) : jsstring :=
  dir ++ js "/" ++ name.

Definition runtime (writable : bool) : Runtime :=
  Build_Runtime
    decompile
    (fun s => Returned (from_hex s))
    toString_utf8 toString_hex toString_base64
    Literal JSON_parse JSON_stringify_pretty
    (gset jsstring) existsSync
    (create writable) (fun fs p _ => create writable fs p)
    path_join (fun p => p).

End Reference.

(** ** Notions the properties are stated with *)

(** The tokens strictly between positions [i] and [j]. *)
Definition tokens_between (l : list Chunk) (i j : nat) : list Chunk :=
  take (j - (i + 1)) (drop (i + 1) l).

(** The buffers of the data pushes of a token sequence, in order. *)
Definition pushes (l : list Chunk) : list Buffer :=
  omap (fun c => match c with Data b => Some b | Op _ => None end) l.

(** The concatenation, in token order, of the bytes of every data push. *)
Definition pushed_bytes (l : list Chunk) : Buffer :=
  flat_map (fun c => match c with Data b => b | Op _ => [] end) l.

(** One warning for every token of [l] that is not a data push, with its
    index; [i] is the index of the head of [l]. *)
Fixpoint stray_warnings (l : list Chunk) (i : nat) : list LogEntry :=
  match l with
  | [] => []
  | Data _ :: l' => stray_warnings l' (S i)
  | Op n :: l' =>
      (warn, Unexpected_opcode (Some (Op n)) i) :: stray_warnings l' (S i)
  end.

(** The envelope marker as the specification words it: position [i] holds
    [OP_IF] and position [i - 1] holds [OP_FALSE]. *)
Definition marker_at (l : list Chunk) (i : nat) : bool :=
  negb (Nat.eqb i 0)
  && is_opcode (l !! i) OP_IF
  && is_opcode (l !! (i - 1)) OP_FALSE.

(** The first position that holds the marker. *)
Definition firstMarker (l : list Chunk) : option nat :=
  findIndex (fun _ i => marker_at l i) l.

Section ContentTypeEncodings.
Variable rt : Runtime.

(** The tagged encoding after the tag push at [o], inside a window that
    closes at [e]: the field tag 1 (the opcode [OP_1], or the number 1 the
    code accepts as well), then a data push. *)
Definition tagged_content_type (l : list Chunk) (o e : nat) :
    option (nat * jsstring) :=
  match l !! (o + 1), l !! (o + 2) with
  | Some (Op c), Some (Data b) =>
      if ((c =? OP_1)%N || (c =? 1)%N) && Nat.ltb (o + 2) e
      then Some (o + 2, toString_utf8 rt b)
      else None
  | _, _ => None
  end.

(** The bare encoding: a data push right after the tag push. *)
Definition bare_content_type (l : list Chunk) (o e : nat) :
    option (nat * jsstring) :=
  match l !! (o + 1) with
  | Some (Data b) =>
      if Nat.ltb (o + 1) e then Some (o + 1, toString_utf8 rt b) else None
  | _ => None
  end.

(** What an encoding yields is a content-type string when it is not
    empty. *)
Definition yields (r : option (nat * jsstring)) : option (nat * jsstring) :=
  match r with
  | Some (k, []) => None
  | other => other
  end.

End ContentTypeEncodings.

Section ScanSpecification.
Variable rt : Runtime.

(** What the parser makes of one witness item. *)
Definition parse_witness (witnessHex : jsstring) : option Extracted.t :=
  match Buffer_from_hex rt witnessHex with
  | Returned b =>
      match fst (extractOrdinalContent rt b) with
      | Returned r => r
      | Thrown _ => None
      end
  | Thrown _ => None
  end.

Definition tag_envelope (input : BlockstreamTxVin.t)
    (inputIndex witnessIndex : nat) (e : Extracted.t) : ExtractedOrdinal.t :=
  ExtractedOrdinal.make (Extracted.contentType e) (Extracted.content e)
    (SourceInfo.make inputIndex witnessIndex
       (Some (BlockstreamTxVin.txid input))
       (Some (BlockstreamTxVin.vout input))).

(** The envelopes of the witness items [ws], whose first item has index
    [j], in stack order. *)
Fixpoint envelopes_of_witnesses (input : BlockstreamTxVin.t)
    (inputIndex : nat) (ws : list jsstring) (j : nat) :
    list ExtractedOrdinal.t :=
  match ws with
  | [] => []
  | w :: ws' =>
      match parse_witness w with
      | Some e => [tag_envelope input inputIndex j e]
      | None => []
      end
      ++ envelopes_of_witnesses input inputIndex ws' (S j)
  end.

Definition envelopes_of_input (input : BlockstreamTxVin.t)
    (inputIndex : nat) : list ExtractedOrdinal.t :=
  envelopes_of_witnesses input inputIndex
    (default [] (BlockstreamTxVin.witness input)) 0.

(** The envelopes of the inputs [ins], whose first input has index [i],
    input after input. *)
Fixpoint envelopes_of_inputs (ins : list BlockstreamTxVin.t) (i : nat) :
    list ExtractedOrdinal.t :=
  match ins with
  | [] => []
  | input :: ins' =>
      envelopes_of_input input i ++ envelopes_of_inputs ins' (S i)
  end.

End ScanSpecification.

(** The position of an envelope in its transaction. *)
Definition location (o : ExtractedOrdinal.t) : nat * nat :=
  (SourceInfo.inputIndex (ExtractedOrdinal.sourceInfo o),
   SourceInfo.witnessIndex (ExtractedOrdinal.sourceInfo o)).

(** Input-major, witness-minor order. *)
Definition location_lt (a b : nat * nat) : Prop :=
  a.1 < b.1 \/ (a.1 = b.1 /\ a.2 < b.2).

(** [a] comes before [b] in input-major, witness-minor order. *)
Definition envelope_before (a b : ExtractedOrdinal.t) : Prop :=
  location_lt (location a) (location b).

Section CacheNotions.
Variable rt : Runtime.
Variable env : Env.

(** The entry [e] is older than the TTL at the next reading of the clock. *)
Definition expired (s : State rt) (e : SimpleCache.CacheEntry TransactionCache.t)
    : Prop :=
  (SimpleCache.ttlMs (transactionCache rt s)
   < clock env (clock_reads rt s) - SimpleCache.timestamp e)%Z.

(** The cache has no entry for [txid] that can still be used. *)
Definition misses (s : State rt) (txid : jsstring) : Prop :=
  match SimpleCache.cache (transactionCache rt s) !! txid with
  | None => True
  | Some e => expired s e
  end.

(** The transaction a fetch delivers; [None] when the fetch fails: the
    request is rejected, the status is not ok, or the body is not the JSON
    of a transaction. *)
Definition transaction_of (r : FetchResult) : option BlockstreamTx.t :=
  match r with
  | Rejected _ => None
  | Responded res =>
      if Response.ok res then
        match Response.json res with
        | Returned tx => Some tx
        | Thrown _ => None
        end
      else None
  end.

(** The cache as a lookup of [txid] leaves it. *)
Definition cache_after_lookup (s : State rt) (txid : jsstring) :
    SimpleCache.t TransactionCache.t :=
  (SimpleCache.get (clock env) txid (transactionCache rt s)
     (clock_reads rt s)).1.2.

End CacheNotions.

Section FormatNotions.
Variable rt : Runtime.
Variable env : Env.

(** What the formatting step returns for each inscription of [ordinals],
    in order, the first one having index [i]; the state is threaded from
    one step to the next. *)
Fixpoint formatAll (formatImageOption : FormatImageOption) (txid : jsstring)
    (ordinals : list ExtractedOrdinal.t) (i : nat) (s : State rt) :
    list (Outcome (option jsstring)) * State rt :=
  match ordinals with
  | [] => ([], s)
  | ordinal :: rest =>
      let '(r, s') :=
        formatInscriptionContent rt env
          (ExtractedOrdinal.contentType ordinal)
          (ExtractedOrdinal.content ordinal) formatImageOption (Some txid) i s
      in
      let '(rs, s'') := formatAll formatImageOption txid rest (S i) s' in
      (r :: rs, s'')
  end.

End FormatNotions.

(** The formatted representation that is not [null]. *)
Definition non_null (r : Outcome (option jsstring)) : option jsstring :=
  match r with
  | Returned (Some text) => Some text
  | _ => None
  end.

(** The formatted representation that is neither [null] nor empty. *)
Definition non_empty (r : Outcome (option jsstring)) : option jsstring :=
  match r with
  | Returned (Some (c :: text)) => Some (c :: text)
  | _ => None
  end.

(** ** Concrete scripts and transactions *)

Module Examples.

Definition rt : Runtime := Reference.runtime true.

(** [OP_FALSE OP_IF "ord" OP_1 "text/plain" OP_0 "hello" OP_DUP " world"
    OP_ENDIF] *)
Definition stray_script : Buffer :=
  Reference.from_hex
    (js "0063036f7264510a746578742f706c61696e000568656c6c6f760620776f726c6468").

(** [OP_FALSE OP_IF "ord" "text/plain" OP_0 "hi" OP_ENDIF]: the content
    type without its field tag. *)
Definition bare_script : Buffer :=
  Reference.from_hex (js "0063036f72640a746578742f706c61696e0002686968").

(** [OP_IF OP_FALSE OP_IF "ord" OP_1 "text/plain" OP_0 "hi" OP_ENDIF]: an
    [OP_IF] comes before the marker. *)
Definition late_marker_script : Buffer :=
  Reference.from_hex
    (js "630063036f7264510a746578742f706c61696e0002686968").

Definition late_marker_tokens : list Chunk :=
  [Op OP_IF; Op OP_FALSE; Op OP_IF;
   Data (Reference.from_hex (js "6f7264")); Op OP_1;
   Data (Reference.from_hex (js "746578742f706c61696e")); Op OP_0;
   Data (Reference.from_hex (js "6869")); Op OP_ENDIF].

(** [OP_FALSE OP_IF "ord" OP_1 "text/plain" OP_0 OP_ENDIF]: an inscription
    of type text/plain with an empty body, as a witness item. *)
Definition empty_text_witness : jsstring :=
  js "0063036f7264510a746578742f706c61696e0068".

Definition stray_witness : jsstring :=
  js "0063036f7264510a746578742f706c61696e000568656c6c6f760620776f726c6468".

Definition txid1 : jsstring := js "aa11".

(** A transaction with one input, whose witness stack is [ws]. *)
Definition tx_with (ws : list jsstring) : BlockstreamTx.t :=
  BlockstreamTx.make txid1 2 0
    [BlockstreamTxVin.make (js "bb22") 0 None [] [] (Some ws) false 0]
    [] 200 800 1000 (BlockstreamTxStatus.make true None None None).

(** The API serves [tx] at the URL of [txid1] and nothing else; the clock
    advances by one second at every reading. *)
Definition serving (tx : BlockstreamTx.t) : Env :=
  {| apiBase := js "https://blockstream.info/api";
     imageTempDir := js "/cache";
     clock := fun k => (1000 * Z.of_nat k)%Z;
     http := fun _ url =>
       if str_eqb url (js "https://blockstream.info/api/tx/aa11")
       then Responded
              (Response.make true 200 (Returned []) (Returned tx))
       else Rejected (PlainError (js "fetch failed")) |}.

(** The API cannot be reached. *)
Definition offline : Env :=
  {| apiBase := js "https://blockstream.info/api";
     imageTempDir := js "/cache";
     clock := fun k => (1000 * Z.of_nat k)%Z;
     http := fun _ _ => Rejected (PlainError (js "fetch failed")) |}.

(** A client as its constructor leaves it, on an empty file system. *)
Definition fresh_client (writable : bool) :
    State (Reference.runtime writable) :=
  new_client (Reference.runtime writable) ∅ [].

End Examples.

(** ** Further methods of the client and of its callers *)

(** The messages [getOrdinalImage] writes that no other modelled method
    writes. *)
Inductive ImageMessage :=
| Retrieving_ordinal_image (txid : jsstring)
| No_ordinal_image_found (txid : jsstring)
| Error_retrieving_ordinal_image (message : jsstring) (txid : jsstring).

(** An entry of [getOrdinalImage]'s own, with the number of entries the
    client's log held when it was written. *)
Definition ImageLogEntry : Type := nat * Level * ImageMessage.

Section FurtherMethods.
Variable rt : Runtime.
Variable env : Env.

(** [OrdinalsClient.getOrdinalImage] (lines 580-628); its lines 584-603 are
    lines 400-420 of [decodeWitness].  The result is
    [{ mimeType, data }] or [null]. *)
Definition getOrdinalImage (txid : jsstring)
    (sx : State rt * list ImageLogEntry) :
    Outcome (option (jsstring * Buffer)) * (State rt * list ImageLogEntry) :=
  let '(s, xlog) := sx in
  let xlog1 :=
    xlog ++ [(length (log rt s), debug, Retrieving_ordinal_image txid)] in
  match cachedOrdinals rt env txid s with
  | (Returned extractedOrdinals, s1) =>
      match
        find (fun ordinal =>
                startsWith (ExtractedOrdinal.contentType ordinal)
                  (js "image/"))
          extractedOrdinals
      with
      | Some ordinal =>
          (Returned (Some (ExtractedOrdinal.contentType ordinal,
                           ExtractedOrdinal.content ordinal)),
           (s1, xlog1))
      | None =>
          (Returned None,
           (s1, xlog1 ++ [(length (log rt s1), info,
                           No_ordinal_image_found txid)]))
      end
  | (Thrown e, s1) =>
      let xlog2 :=
        xlog1 ++ [(length (log rt s1), error,
                   Error_retrieving_ordinal_image (error_message e) txid)] in
      let '(r, s2) :=
        rethrow_as_BitcoinError rt e (js "Ordinal Image Retrieval") txid s1 in
      (r, (s2, xlog2))
  end.

End FurtherMethods.

(** [BaseOrdinalsServer.successfulDecodings] with [markSuccessfulDecoding]
    and [wasRecentlyDecoded] ([servers/base.ts], lines 700-716); [clock] and
    [reads] are as in [SimpleCache]. *)
Module RecentDecodings.

Definition markSuccessfulDecoding (clock : nat -> Z) (txid : jsstring)
    (successfulDecodings : gmap jsstring Z) (reads : nat) :
    gmap jsstring Z * nat :=
  let marked := <[txid := clock reads]> successfulDecodings in
  let expiryTime := (clock (S reads) - 5 * 60 * 1000)%Z in
  (filter (fun kv => ~ (kv.2 < expiryTime)%Z) marked, S (S reads)).

Definition wasRecentlyDecoded (txid : jsstring)
    (successfulDecodings : gmap jsstring Z) : bool :=
  bool_decide (is_Some (successfulDecodings !! txid)).

End RecentDecodings.

(** The test of [handleDecodeWitness] (lines 583-586) that sends a decoded
    content to the image display. *)
Definition isImageContent (content : jsstring) : bool :=
  startsWith content (js "data:image/")
  || (Nat.ltb 0 (length content)
      && negb (startsWith content (js "{"))
      && negb (startsWith content (js "["))).

(** [tx] with the inputs [ins]. *)
Definition with_vin (tx : BlockstreamTx.t) (ins : list BlockstreamTxVin.t) :
    BlockstreamTx.t :=
  BlockstreamTx.make (BlockstreamTx.txid tx) (BlockstreamTx.version tx)
    (BlockstreamTx.locktime tx) ins (BlockstreamTx.vout tx)
    (BlockstreamTx.size tx) (BlockstreamTx.weight tx) (BlockstreamTx.fee tx)
    (BlockstreamTx.status tx).

(** The envelope [o] with its input index moved up by [n]. *)
Definition shift_input (n : nat) (o : ExtractedOrdinal.t) :
    ExtractedOrdinal.t :=
  ExtractedOrdinal.make (ExtractedOrdinal.contentType o)
    (ExtractedOrdinal.content o)
    (SourceInfo.make
       (n + SourceInfo.inputIndex (ExtractedOrdinal.sourceInfo o))
       (SourceInfo.witnessIndex (ExtractedOrdinal.sourceInfo o))
       (SourceInfo.txid (ExtractedOrdinal.sourceInfo o))
       (SourceInfo.vout (ExtractedOrdinal.sourceInfo o))).

(** The number of witness items of a transaction. *)
Definition witness_count (tx : BlockstreamTx.t) : nat :=
  sum_list
    (map (fun input => length (default [] (BlockstreamTxVin.witness input)))
       (BlockstreamTx.vin tx)).

Section Frames.
Variable rt : Runtime.

(** [s'] differs from [s] at most by its file system and by entries added
    to its log. *)
Definition only_disk_and_log (s s' : State rt) : Prop :=
  transactionCache rt s' = transactionCache rt s
  /\ requestCache rt s' = requestCache rt s
  /\ clock_reads rt s' = clock_reads rt s
  /\ requests rt s' = requests rt s
  /\ exists l, log rt s' = log rt s ++ l.

(** [s'] differs from [s] at most by entries added to its log. *)
Definition only_log (s s' : State rt) : Prop :=
  only_disk_and_log s s' /\ disk rt s' = disk rt s.

End Frames.

(** What is thrown, if anything, is a [BitcoinError]. *)
Definition throws_only_BitcoinError {A : Type} (o : Outcome A) : Prop :=
  match o with
  | Thrown (BitcoinError _ _) => True
  | Thrown _ => False
  | Returned _ => True
  end.

(** The raw hex a fetch of the hex URL delivers; [None] when the request is
    rejected, the status is not ok, the body cannot be read or it is
    empty. *)
Definition raw_hex_of (r : FetchResult) : option jsstring :=
  match r with
  | Rejected _ => None
  | Responded res =>
      if Response.ok res then
        match Response.text res with
        | Returned (c :: rawHex) => Some (c :: rawHex)
        | _ => None
        end
      else None
  end.

Section ImagePaths.
Variable rt : Runtime.
Variable env : Env.

(** The file the image of inscription [index] of [txid] is kept in, and
    the path [formatInscriptionContent] returns for it (lines 492-511). *)
Definition imageFilePath (contentType txid : jsstring) (index : nat) :
    jsstring :=
  path_join rt (imageTempDir env)
    (txid ++ js "_" ++ Number_toString index
     ++ getFileExtensionFromMimeType contentType).

Definition formattedImagePath (contentType txid : jsstring) (index : nat) :
    jsstring :=
  strip_file_prefix
    (replace_backslashes
       (path_resolve rt (imageFilePath contentType txid index))).

End ImagePaths.


Section LookupNotions.
Variable rt : Runtime.
Variable env : Env.

(** The number of clock readings made once a lookup of [txid] is done. *)
Definition reads_after_lookup (s : State rt) (txid : jsstring) : nat :=
  (SimpleCache.get (clock env) txid (transactionCache rt s)
     (clock_reads rt s)).2.

(** The entry stored at the reading that follows a lookup of [txid] is not
    older than the TTL at the reading after it. *)
Definition stored_entry_usable (s : State rt) (txid : jsstring) : Prop :=
  (clock env (S (reads_after_lookup s txid))
   - clock env (reads_after_lookup s txid)
   <= SimpleCache.ttlMs (transactionCache rt s))%Z.

End LookupNotions.

(** The inscription is an image by its content type. *)
Definition is_image (ordinal : ExtractedOrdinal.t) : bool :=
  startsWith (ExtractedOrdinal.contentType ordinal) (js "image/").

(** [{ mimeType: ordinal.contentType, data: ordinal.content }] *)
Definition image_of (ordinal : ExtractedOrdinal.t) : jsstring * Buffer :=
  (ExtractedOrdinal.contentType ordinal, ExtractedOrdinal.content ordinal).

(** The tokens of an inscription as the protocol writes it: the marker, the
    push of "ord", the tag [OP_1] with the push of the content type, the
    separator [OP_0], the pushes of the body and the closing [OP_ENDIF]. *)
Definition canonical_envelope (ordPush contentType : Buffer)
    (body : list Buffer) : list Chunk :=
  [Op OP_FALSE; Op OP_IF; Data ordPush; Op OP_1; Data contentType; Op OP_0]
  ++ map Data body ++ [Op OP_ENDIF].

(** * Properties *)

(** ** [findIndex] *)

Lemma findIndex_from_Some {A : Type} (f : A -> nat -> bool) (l : list A)
    (i k : nat) :
  findIndex_from f l i = Some k ->
  i <= k
  /\ (exists x, l !! (k - i) = Some x /\ f x k = true)
  /\ (forall j y, j < k - i -> l !! j = Some y -> f y (i + j) = false).
Proof.
  revert i. induction l as [|x l IH]; intros i; simpl; [discriminate|].
  destruct (f x i) eqn:Hf.
  - intros [= <-]. split; [lia|]. split.
    + exists x. by rewrite Nat.sub_diag.
    + intros j y Hj. lia.
  - intros H. apply IH in H as (Hle & (y & Hy & Hfy) & Hbefore).
    split; [lia|]. split.
    + exists y. split; [|done].
      replace (k - i) with (S (k - S i)) by lia. done.
    + intros j z Hj Hz. destruct j as [|j].
      * simpl in Hz. injection Hz as <-. by rewrite Nat.add_0_r.
      * simpl in Hz. replace (i + S j) with (S i + j) by lia.
        apply Hbefore; [lia|done].
Qed.

Lemma findIndex_Some {A : Type} (f : A -> nat -> bool) (l : list A) (k : nat) :
  findIndex f l = Some k ->
  (exists x, l !! k = Some x /\ f x k = true)
  /\ (forall j y, j < k -> l !! j = Some y -> f y j = false).
Proof.
  unfold findIndex. intros H.
  apply findIndex_from_Some in H as (_ & Hx & Hb).
  rewrite Nat.sub_0_r in Hx, Hb. split; [done|].
  intros j y Hj Hy. by apply (Hb j y).
Qed.

Lemma findIndex_from_None {A : Type} (f : A -> nat -> bool) (l : list A)
    (i : nat) :
  findIndex_from f l i = None ->
  forall j y, l !! j = Some y -> f y (i + j) = false.
Proof.
  revert i. induction l as [|x l IH]; intros i; simpl.
  - intros _ j y Hy. by rewrite lookup_nil in Hy.
  - destruct (f x i) eqn:Hf; [discriminate|].
    intros H [|j] y Hy; simpl in Hy.
    + injection Hy as <-. by rewrite Nat.add_0_r.
    + replace (i + S j) with (S i + j) by lia. by apply IH.
Qed.

Lemma findIndex_None {A : Type} (f : A -> nat -> bool) (l : list A) :
  findIndex f l = None -> forall j y, l !! j = Some y -> f y j = false.
Proof. intros H j y Hy. by apply (findIndex_from_None f l 0 H j y). Qed.

Lemma findIndex_from_first {A : Type} (f : A -> nat -> bool) (l : list A)
    (i k : nat) (x : A) :
  l !! k = Some x -> f x (i + k) = true ->
  (forall j y, j < k -> l !! j = Some y -> f y (i + j) = false) ->
  findIndex_from f l i = Some (i + k).
Proof.
  revert i k. induction l as [|z l IH]; intros i k Hx Hf Hb.
  - by rewrite lookup_nil in Hx.
  - simpl. destruct k as [|k]; simpl in Hx.
    + injection Hx as ->. rewrite Nat.add_0_r in Hf |- *. by rewrite Hf.
    + rewrite <- (Nat.add_0_r i) at 1.
      rewrite (Hb 0 z); [|lia|done].
      replace (i + S k) with (S i + k) in * by lia.
      apply IH; [done..|].
      intros j y Hj Hy. replace (S i + j) with (i + S j) by lia.
      apply Hb; [lia|done].
Qed.

Lemma findIndex_first {A : Type} (f : A -> nat -> bool) (l : list A)
    (k : nat) (x : A) :
  l !! k = Some x -> f x k = true ->
  (forall j y, j < k -> l !! j = Some y -> f y j = false) ->
  findIndex f l = Some k.
Proof. intros. by apply (findIndex_from_first f l 0 k x). Qed.

Lemma is_opcode_Some (v : option Chunk) (c : N) :
  is_opcode v c = true <-> v = Some (Op c).
Proof.
  destruct v as [[n|b]|]; simpl; split; try discriminate.
  - intros H%N.eqb_eq. by subst.
  - intros [= ->]. apply N.eqb_refl.
Qed.

(** ** The payload loop *)

Lemma pushed_bytes_concat (l : list Chunk) :
  pushed_bytes l = Buffer_concat (pushes l).
Proof.
  unfold Buffer_concat. induction l as [|[n|b] l IH]; simpl; [done..|].
  by rewrite IH.
Qed.

Lemma collectChunks_spec (d : list Chunk) (n i : nat) (acc : list Buffer)
    (lg : list LogEntry) :
  i + n <= length d ->
  collectChunks d n i acc lg
  = (acc ++ pushes (take n (drop i d)),
     lg ++ stray_warnings (take n (drop i d)) i).
Proof.
  revert i acc lg. induction n as [|n IH]; intros i acc lg Hlen; simpl.
  - by rewrite !app_nil_r.
  - destruct (lookup_lt_is_Some_2 d i) as [c Hc]; [lia|].
    rewrite (drop_S _ _ _ Hc). rewrite Hc. simpl.
    destruct c as [op|b]; rewrite IH by lia; simpl.
    + by rewrite <- app_assoc.
    + by rewrite <- app_assoc.
Qed.

(** ** The envelope parser *)

Section ParserFacts.
Variable rt : Runtime.

Lemma parseDecompiled_Some (d : list Chunk) (f : Frame.t) (l : list LogEntry) :
  parseDecompiled rt d = (Some f, l) ->
  locateMarker d = Some (Frame.ifIndex f)
  /\ locateEndif d (Frame.ifIndex f) = Some (Frame.endifIndex f)
  /\ locateOrdPush rt d (Frame.ifIndex f) (Frame.endifIndex f)
     = Some (Frame.ordPushIndex f)
  /\ readContentType rt d (Frame.ordPushIndex f) (Frame.endifIndex f)
     = Some (Frame.contentTypeIndex f, Frame.contentType f)
  /\ locateSeparator d (Frame.contentTypeIndex f) (Frame.endifIndex f)
     = Some (Frame.separatorIndex f)
  /\ Frame.fullContent f = Buffer_concat (Frame.dataChunks f)
  /\ exists warnings,
       collectChunks d (Frame.endifIndex f - (Frame.separatorIndex f + 1))
         (Frame.separatorIndex f + 1) [] [] = (Frame.dataChunks f, warnings)
       /\ l = warnings
              ++ [(info, Successfully_extracted (Frame.contentType f)
                           (length (Frame.fullContent f)))].
Proof.
  unfold parseDecompiled.
  destruct (locateMarker d) as [i|] eqn:Hi; [|discriminate].
  destruct (locateEndif d i) as [en|] eqn:Hen; [|discriminate].
  destruct (locateOrdPush rt d i en) as [o|] eqn:Ho; [|discriminate].
  destruct (readContentType rt d o en) as [[k ct]|] eqn:Hk; [|discriminate].
  destruct (locateSeparator d k en) as [s|] eqn:Hs; [|discriminate].
  destruct (collectChunks d (en - (s + 1)) (s + 1) [] []) as [chunks w] eqn:Hc.
  intros [= <- <-]. simpl. repeat (split; [done|]). exists w. done.
Qed.

Lemma locateEndif_Some (d : list Chunk) (i en : nat) :
  locateEndif d i = Some en ->
  i < en /\ d !! en = Some (Op OP_ENDIF)
  /\ forall j, i < j < en -> d !! j <> Some (Op OP_ENDIF).
Proof.
  unfold locateEndif. intros H.
  apply findIndex_Some in H as ((x & Hx & Hf) & Hb).
  apply andb_true_iff in Hf as [Hlt Hop].
  apply Nat.ltb_lt in Hlt. apply is_opcode_Some in Hop as [= ->].
  split; [done|]. split; [done|].
  intros j [Hij Hjen] Hj. specialize (Hb j _ Hjen Hj).
  apply andb_false_iff in Hb as [Hb|Hb].
  - apply Nat.ltb_ge in Hb. lia.
  - by vm_compute in Hb.
Qed.

Lemma locateSeparator_Some (d : list Chunk) (k en s : nat) :
  locateSeparator d k en = Some s ->
  s = k + 1 /\ s < en /\ isSeparator (d !! s) = true.
Proof.
  unfold locateSeparator.
  destruct (Nat.ltb (k + 1) en) eqn:Hlt; simpl; [|discriminate].
  destruct (isSeparator (d !! (k + 1))) eqn:Hs; [|discriminate].
  intros [= <-]. apply Nat.ltb_lt in Hlt. done.
Qed.

(** Once the separator is found, the parse succeeds with the pushes of the
    tokens up to the closing marker. *)
Lemma parseDecompiled_complete (d : list Chunk) (i en o k s : nat)
    (ct : jsstring) :
  locateMarker d = Some i ->
  locateEndif d i = Some en ->
  locateOrdPush rt d i en = Some o ->
  readContentType rt d o en = Some (k, ct) ->
  locateSeparator d k en = Some s ->
  parseDecompiled rt d
  = (Some (Frame.make i en o k ct s (pushes (tokens_between d s en))
             (pushed_bytes (tokens_between d s en))),
     stray_warnings (tokens_between d s en) (S s)
     ++ [(info, Successfully_extracted ct
                  (length (pushed_bytes (tokens_between d s en))))]).
Proof.
  intros Hi Hen Ho Hk Hs. unfold parseDecompiled.
  rewrite Hi, Hen, Ho, Hk, Hs.
  apply locateEndif_Some in Hen as (_ & Hen & _).
  apply lookup_lt_Some in Hen.
  apply locateSeparator_Some in Hs as (_ & Hs & _).
  rewrite collectChunks_spec by lia. simpl.
  unfold tokens_between. rewrite <- pushed_bytes_concat.
  by replace (s + 1) with (S s) by lia.
Qed.

Lemma parseDecompiled_inv (d : list Chunk) (f : Frame.t) (l : list LogEntry) :
  parseDecompiled rt d = (Some f, l) ->
  exists i en o k ct s,
    locateMarker d = Some i /\ locateEndif d i = Some en
    /\ locateOrdPush rt d i en = Some o
    /\ readContentType rt d o en = Some (k, ct)
    /\ locateSeparator d k en = Some s
    /\ f = Frame.make i en o k ct s (pushes (tokens_between d s en))
             (pushed_bytes (tokens_between d s en))
    /\ l = stray_warnings (tokens_between d s en) (S s)
           ++ [(info, Successfully_extracted ct
                        (length (pushed_bytes (tokens_between d s en))))].
Proof.
  intros H. pose proof (parseDecompiled_Some _ _ _ H)
    as (Hi & Hen & Ho & Hk & Hs & _).
  pose proof (parseDecompiled_complete _ _ _ _ _ _ _ Hi Hen Ho Hk Hs) as H'.
  rewrite H in H'. injection H' as Hf Hl.
  exists (Frame.ifIndex f), (Frame.endifIndex f), (Frame.ordPushIndex f),
    (Frame.contentTypeIndex f), (Frame.contentType f),
    (Frame.separatorIndex f). done.
Qed.

Lemma parseDecompiled_None_log (d : list Chunk) (l : list LogEntry) :
  parseDecompiled rt d = (None, l) -> l = [].
Proof.
  unfold parseDecompiled.
  repeat match goal with
         | |- context [match ?x with _ => _ end] => destruct x
         end; intros [=]; done.
Qed.

(** The method on a buffer whose decompilation is known. *)
Lemma extractOrdinalContent_decompiled (b : Buffer) (d : list Chunk) :
  script_decompile rt b = Returned (Some d) ->
  extractOrdinalContent rt b
  = (Returned (extracted_of <$> fst (parseDecompiled rt d)),
     snd (parseDecompiled rt d)).
Proof.
  intros H. unfold extractOrdinalContent, extractOrdinalContent_try.
  rewrite H. by destruct (parseDecompiled rt d).
Qed.

Lemma extractOrdinalContent_returns (b : Buffer) :
  exists r l, extractOrdinalContent rt b = (Returned r, l).
Proof.
  unfold extractOrdinalContent, extractOrdinalContent_try.
  destruct (script_decompile rt b) as [[d|]|e]; simpl.
  - destruct (parseDecompiled rt d); eauto.
  - eauto.
  - destruct e; simpl; eauto.
Qed.

Lemma extractOrdinalContent_Some (b : Buffer) (e : Extracted.t)
    (l : list LogEntry) :
  extractOrdinalContent rt b = (Returned (Some e), l) ->
  exists d f,
    script_decompile rt b = Returned (Some d)
    /\ parseDecompiled rt d = (Some f, l) /\ e = extracted_of f.
Proof.
  unfold extractOrdinalContent, extractOrdinalContent_try.
  destruct (script_decompile rt b) as [[d|]|err] eqn:Hd; simpl.
  - destruct (parseDecompiled rt d) as [[f|] l'] eqn:Hp; simpl;
      intros [= <- <-]. eauto.
  - discriminate.
  - destruct err; simpl; discriminate.
Qed.

End ParserFacts.

(** C1: the payload of a parsed inscription is the concatenation, in token
    order, of the bytes of the data pushes strictly between the body
    separator and the closing [OP_ENDIF] (the first one after the marker);
    every other token of that region only adds a warning to the log; and
    once the separator is found the parse succeeds, whatever the tokens of
    the region are. *)
Theorem C1_payload_concatenates_data_pushes (rt : Runtime)
    (scriptBuffer : Buffer) :
  (forall e l,
     extractOrdinalContent rt scriptBuffer = (Returned (Some e), l) ->
     exists decompiled f,
       script_decompile rt scriptBuffer = Returned (Some decompiled)
       /\ parseDecompiled rt decompiled = (Some f, l)
       /\ e = extracted_of f
       /\ isSeparator (decompiled !! Frame.separatorIndex f) = true
       /\ Frame.ifIndex f < Frame.separatorIndex f < Frame.endifIndex f
       /\ decompiled !! Frame.endifIndex f = Some (Op OP_ENDIF)
       /\ (forall j, Frame.ifIndex f < j < Frame.endifIndex f ->
                     decompiled !! j <> Some (Op OP_ENDIF))
       /\ Extracted.content e
          = pushed_bytes
              (tokens_between decompiled (Frame.separatorIndex f)
                 (Frame.endifIndex f))
       /\ l = stray_warnings
                (tokens_between decompiled (Frame.separatorIndex f)
                   (Frame.endifIndex f))
                (S (Frame.separatorIndex f))
              ++ [(info, Successfully_extracted (Extracted.contentType e)
                           (length (Extracted.content e)))])
  /\ (forall decompiled i en o k ct s,
        script_decompile rt scriptBuffer = Returned (Some decompiled) ->
        locateMarker decompiled = Some i ->
        locateEndif decompiled i = Some en ->
        locateOrdPush rt decompiled i en = Some o ->
        readContentType rt decompiled o en = Some (k, ct) ->
        locateSeparator decompiled k en = Some s ->
        fst (extractOrdinalContent rt scriptBuffer)
        = Returned
            (Some (Extracted.make ct
                     (pushed_bytes (tokens_between decompiled s en))))).
Proof.
  split.
  - intros e l H.
    apply extractOrdinalContent_Some in H as (d & f & Hd & Hp & ->).
    exists d, f. split; [done|]. split; [done|]. split; [done|].
    destruct (parseDecompiled_inv rt _ _ _ Hp)
      as (i & en & o & k & ct & s & Hi & Hen & Ho & Hk & Hs & -> & ->).
    simpl.
    apply locateEndif_Some in Hen as (Hlt & Hen & Hfirst).
    apply locateSeparator_Some in Hs as (-> & Hs & Hsep).
    assert (i < o) as Hio.
    { unfold locateOrdPush in Ho.
      apply findIndex_Some in Ho as ((x & _ & Hf) & _).
      apply andb_true_iff in Hf as [Hf _].
      apply andb_true_iff in Hf as [Hf _]. by apply Nat.ltb_lt in Hf. }
    assert (o < k) as Hok.
    { unfold readContentType in Hk.
      repeat match type of Hk with
             | context [if ?c then _ else _] => destruct c
             end; simplify_eq; lia. }
    repeat split; try done; lia.
  - intros d i en o k ct s Hd Hi Hen Ho Hk Hs.
    rewrite (extractOrdinalContent_decompiled rt _ _ Hd).
    by rewrite (parseDecompiled_complete rt _ _ _ _ _ _ _ Hi Hen Ho Hk Hs).
Qed.

Lemma C1_witness :
  exists decompiled f,
    script_decompile Examples.rt Examples.stray_script
    = Returned (Some decompiled)
    /\ parseDecompiled Examples.rt decompiled
       = (Some f,
          [(warn, Unexpected_opcode (Some (Op 118)) 7);
           (info, Successfully_extracted (js "text/plain") 11)])
    /\ Frame.separatorIndex f = 5 /\ Frame.endifIndex f = 9
    /\ Frame.fullContent f = Reference.from_hex (js "68656c6c6f20776f726c64").
Proof.
  destruct (proj1 (C1_payload_concatenates_data_pushes Examples.rt
                     Examples.stray_script) _ _ eq_refl)
    as (d & f & Hd & Hp & _).
  exists d, f. split; [exact Hd|]. split; [exact Hp|].
  vm_compute in Hd. injection Hd as <-.
  vm_compute in Hp. injection Hp as <-. by vm_compute.
Defined.

Section MarkerFacts.

Lemma locateMarker_Some (d : list Chunk) (i : nat) :
  locateMarker d = Some i <->
  findIndex (fun op _ => is_opcode (Some op) OP_IF) d = Some i
  /\ i <> 0 /\ d !! (i - 1) = Some (Op OP_FALSE).
Proof.
  unfold locateMarker.
  destruct (findIndex _ d) as [k|]; [|split; [discriminate|by intros [? _]]].
  destruct (Nat.eqb k 0) eqn:Hk0; simpl.
  - apply Nat.eqb_eq in Hk0 as ->. split; [discriminate|].
    by intros ([= <-] & ? & _).
  - apply Nat.eqb_neq in Hk0.
    destruct (is_opcode (d !! (k - 1)) OP_FALSE) eqn:Hop; simpl.
    + apply is_opcode_Some in Hop. split.
      * by intros [= <-].
      * by intros ([= <-] & _).
    + split; [discriminate|]. intros ([= <-] & _ & Hd).
      apply is_opcode_Some in Hd. congruence.
Qed.

Lemma locateMarker_firstMarker (d : list Chunk) (i : nat) :
  locateMarker d = Some i -> firstMarker d = Some i.
Proof.
  intros (Hi & Hi0 & Hprev)%locateMarker_Some.
  apply findIndex_Some in Hi as ((x & Hx & Hop) & Hb).
  apply (findIndex_first _ d i x Hx).
  - unfold marker_at. rewrite Hx, Hprev. cbv beta in Hop. rewrite Hop.
    by destruct i.
  - intros j y Hj Hy. unfold marker_at. rewrite Hy.
    specialize (Hb j y Hj Hy). cbv beta in Hb. rewrite Hb.
    by rewrite andb_false_r.
Qed.

Lemma firstMarker_None (d : list Chunk) :
  firstMarker d = None -> locateMarker d = None.
Proof.
  intros H. destruct (locateMarker d) as [i|] eqn:Hi; [|done].
  apply locateMarker_firstMarker in Hi. congruence.
Qed.

End MarkerFacts.

(** C2 (as the code has it): the parser takes the first [OP_IF] of the
    token sequence as the marker; when there is none, when it is the first
    token, or when the token before it is not [OP_FALSE], the result is
    [null] and no later [OP_IF] is looked at.  A marker the parser accepts
    is the first position holding the pair ([OP_FALSE], [OP_IF]), and a
    sequence that holds the pair nowhere gives [null]. *)
Theorem C2_marker_is_first_OP_IF (rt : Runtime) (scriptBuffer : Buffer)
    (decompiled : list Chunk) :
  script_decompile rt scriptBuffer = Returned (Some decompiled) ->
  (forall i,
     locateMarker decompiled = Some i <->
     findIndex (fun op _ => is_opcode (Some op) OP_IF) decompiled = Some i
     /\ i <> 0 /\ decompiled !! (i - 1) = Some (Op OP_FALSE))
  /\ (locateMarker decompiled = None ->
      extractOrdinalContent rt scriptBuffer = (Returned None, []))
  /\ (forall i, locateMarker decompiled = Some i ->
                firstMarker decompiled = Some i)
  /\ (firstMarker decompiled = None ->
      extractOrdinalContent rt scriptBuffer = (Returned None, [])).
Proof.
  intros Hd.
  assert (locateMarker decompiled = None ->
          extractOrdinalContent rt scriptBuffer = (Returned None, [])) as Hnone.
  { intros Hi. rewrite (extractOrdinalContent_decompiled rt _ _ Hd).
    unfold parseDecompiled. by rewrite Hi. }
  split; [apply locateMarker_Some|]. split; [done|].
  split; [apply locateMarker_firstMarker|].
  intros H. by apply Hnone, firstMarker_None.
Qed.

Lemma C2_witness :
  script_decompile Examples.rt Examples.bare_script
  = Returned (Some [Op OP_FALSE; Op OP_IF;
                    Data (Reference.from_hex (js "6f7264"));
                    Data (Reference.from_hex (js "746578742f706c61696e"));
                    Op OP_0; Data (Reference.from_hex (js "6869"));
                    Op OP_ENDIF])
  /\ firstMarker [Op OP_FALSE; Op OP_IF;
                  Data (Reference.from_hex (js "6f7264"));
                  Data (Reference.from_hex (js "746578742f706c61696e"));
                  Op OP_0; Data (Reference.from_hex (js "6869"));
                  Op OP_ENDIF] = Some 1.
Proof.
  split; [by vm_compute|].
  apply (C2_marker_is_first_OP_IF Examples.rt Examples.bare_script);
    by vm_compute.
Defined.

(** C2 as stated fails: in this script the first position holding the pair
    ([OP_FALSE], [OP_IF]) is 2 and a complete envelope starts there, but
    the parser stops at the [OP_IF] at position 0 and returns [null]. *)
Lemma C2_counterexample :
  script_decompile Examples.rt Examples.late_marker_script
  = Returned (Some Examples.late_marker_tokens)
  /\ firstMarker Examples.late_marker_tokens = Some 2
  /\ findIndex (fun op _ => is_opcode (Some op) OP_IF)
       Examples.late_marker_tokens = Some 0
  /\ locateMarker Examples.late_marker_tokens = None
  /\ extractOrdinalContent Examples.rt Examples.late_marker_script
     = (Returned None, [])
  /\ fst (extractOrdinalContent Examples.rt
            (drop 1 Examples.late_marker_script))
     = Returned (Some (Extracted.make (js "text/plain")
                         (Reference.from_hex (js "6869")))).
Proof. by vm_compute. Qed.

Section ContentTypeFacts.
Variable rt : Runtime.

Lemma readContentType_encodings (d : list Chunk) (o e : nat) :
  readContentType rt d o e
  = yields (match tagged_content_type rt d o e with
            | Some r => Some r
            | None => bare_content_type rt d o e
            end).
Proof.
  unfold readContentType, tagged_content_type, bare_content_type, yields.
  assert (forall (k : nat) (s : jsstring),
            (if bool_decide (s = []) then None else Some (k, s))
            = match s with
              | [] => @None (nat * jsstring)
              | _ :: _ => Some (k, s)
              end) as Hy.
  { intros k [|c s]; done. }
  destruct (d !! (o + 1)) as [[c|b]|] eqn:H1; simpl.
  - destruct ((c =? OP_1)%N || (c =? 1)%N) eqn:Htag; simpl.
    + destruct (Nat.ltb (o + 1) e) eqn:Hlt1; simpl.
      * destruct (d !! (o + 2)) as [[c2|b2]|] eqn:H2; simpl;
          rewrite ?andb_false_r; try done.
        destruct (Nat.ltb (o + 2) e); simpl; [apply Hy|done].
      * assert (Nat.ltb (o + 2) e = false) as ->.
        { apply Nat.ltb_ge. apply Nat.ltb_ge in Hlt1. lia. }
        by destruct (d !! (o + 2)) as [[c2|b2]|].
    + rewrite !andb_false_r. simpl.
      by destruct (d !! (o + 2)) as [[c2|b2]|].
  - rewrite !andb_false_r, !andb_true_r.
    destruct (Nat.ltb (o + 1) e); simpl; [apply Hy|done].
  - by rewrite !andb_false_r.
Qed.

End ContentTypeFacts.

(** C3: right after the tag push the content type is read in the tagged
    encoding (field tag 1, then a data push) and otherwise in the bare
    encoding (a data push); when neither yields a content-type string the
    method returns [null]; and a parse that succeeds carries the content
    type read that way. *)
Theorem C3_content_type_encodings (rt : Runtime) (scriptBuffer : Buffer)
    (decompiled : list Chunk) :
  script_decompile rt scriptBuffer = Returned (Some decompiled) ->
  (forall o e,
     readContentType rt decompiled o e
     = yields (match tagged_content_type rt decompiled o e with
               | Some r => Some r
               | None => bare_content_type rt decompiled o e
               end))
  /\ (forall i e o,
        locateMarker decompiled = Some i ->
        locateEndif decompiled i = Some e ->
        locateOrdPush rt decompiled i e = Some o ->
        yields (tagged_content_type rt decompiled o e) = None ->
        yields (bare_content_type rt decompiled o e) = None ->
        extractOrdinalContent rt scriptBuffer = (Returned None, []))
  /\ (forall x l,
        extractOrdinalContent rt scriptBuffer = (Returned (Some x), l) ->
        exists f,
          parseDecompiled rt decompiled = (Some f, l)
          /\ x = extracted_of f
          /\ locateOrdPush rt decompiled (Frame.ifIndex f)
               (Frame.endifIndex f) = Some (Frame.ordPushIndex f)
          /\ yields (match tagged_content_type rt decompiled
                             (Frame.ordPushIndex f) (Frame.endifIndex f) with
                     | Some r => Some r
                     | None => bare_content_type rt decompiled
                                 (Frame.ordPushIndex f) (Frame.endifIndex f)
                     end)
             = Some (Frame.contentTypeIndex f, Extracted.contentType x)).
Proof.
  intros Hd. split; [intros; apply readContentType_encodings|]. split.
  - intros i e o Hi He Ho Htag Hbare.
    rewrite (extractOrdinalContent_decompiled rt _ _ Hd).
    unfold parseDecompiled. rewrite Hi, He, Ho.
    rewrite readContentType_encodings.
    destruct (tagged_content_type rt decompiled o e) as [[k [|c s]]|];
      simpl in *; [done|discriminate|by rewrite Hbare].
  - intros x l H.
    apply extractOrdinalContent_Some in H as (d & f & Hd' & Hp & ->).
    rewrite Hd in Hd'. injection Hd' as <-.
    exists f. split; [done|]. split; [done|].
    apply parseDecompiled_Some in Hp as (_ & _ & Ho & Hk & _).
    split; [done|]. by rewrite <- readContentType_encodings.
Qed.

Lemma C3_witness :
  readContentType Examples.rt
    [Op OP_FALSE; Op OP_IF; Data (Reference.from_hex (js "6f7264"));
     Data (Reference.from_hex (js "746578742f706c61696e"));
     Op OP_0; Data (Reference.from_hex (js "6869")); Op OP_ENDIF] 2 6
  = Some (3, js "text/plain").
Proof.
  rewrite (proj1 (C3_content_type_encodings Examples.rt Examples.bare_script
                    _ eq_refl)).
  by vm_compute.
Defined.

(** C4: on every buffer the method returns and never throws, also when the
    decompiler returns [null] or throws; it returns an inscription exactly
    when the script decompiles and every step of the search succeeds, and
    [null] on every other path. *)
Theorem C4_parser_never_throws (rt : Runtime) (scriptBuffer : Buffer) :
  exists r l,
    extractOrdinalContent rt scriptBuffer = (Returned r, l)
    /\ (forall x,
          r = Some x <->
          exists decompiled i en o k ct s,
            script_decompile rt scriptBuffer = Returned (Some decompiled)
            /\ locateMarker decompiled = Some i
            /\ locateEndif decompiled i = Some en
            /\ locateOrdPush rt decompiled i en = Some o
            /\ readContentType rt decompiled o en = Some (k, ct)
            /\ locateSeparator decompiled k en = Some s
            /\ x = Extracted.make ct
                     (pushed_bytes (tokens_between decompiled s en))).
Proof.
  destruct (extractOrdinalContent_returns rt scriptBuffer) as (r & l & H).
  exists r, l. split; [done|]. intros x. split.
  - intros ->.
    apply extractOrdinalContent_Some in H as (d & f & Hd & Hp & ->).
    destruct (parseDecompiled_inv rt _ _ _ Hp)
      as (i & en & o & k & ct & s & Hi & Hen & Ho & Hk & Hs & -> & _).
    exists d, i, en, o, k, ct, s. done.
  - intros (d & i & en & o & k & ct & s & Hd & Hi & Hen & Ho & Hk & Hs & ->).
    rewrite (extractOrdinalContent_decompiled rt _ _ Hd) in H.
    rewrite (parseDecompiled_complete rt _ _ _ _ _ _ _ Hi Hen Ho Hk Hs) in H.
    simpl in H. by injection H as <- _.
Qed.

(** ** The scanner *)

Section ScannerFacts.
Variable rt : Runtime.

Lemma scanWitness_fst (tx : BlockstreamTx.t) (input : BlockstreamTxVin.t)
    (i : nat) (acc : list ExtractedOrdinal.t) (lg : list LogEntry)
    (w : jsstring) (j : nat) :
  fst (scanWitness rt tx input i (acc, lg) w j)
  = acc ++ match parse_witness rt w with
           | Some e => [tag_envelope input i j e]
           | None => []
           end.
Proof.
  unfold scanWitness, parse_witness.
  destruct (Buffer_from_hex rt w) as [b|err]; simpl;
    [|by rewrite app_nil_r].
  destruct (extractOrdinalContent rt b) as [[[e|]|err] plog]; simpl;
    by rewrite ?app_nil_r.
Qed.

Lemma forEach_scanWitness (tx : BlockstreamTx.t) (input : BlockstreamTxVin.t)
    (i : nat) (ws : list jsstring) (j : nat)
    (acc : Logged (list ExtractedOrdinal.t)) :
  fst (forEach_from (scanWitness rt tx input i) ws j acc)
  = fst acc ++ envelopes_of_witnesses rt input i ws j.
Proof.
  revert j acc. induction ws as [|w ws IH]; intros j [acc lg];
    cbn [forEach_from envelopes_of_witnesses fst].
  - by rewrite app_nil_r.
  - rewrite IH, scanWitness_fst. by rewrite <- app_assoc.
Qed.

Lemma scanInput_fst (tx : BlockstreamTx.t)
    (acc : Logged (list ExtractedOrdinal.t)) (input : BlockstreamTxVin.t)
    (i : nat) :
  fst (scanInput rt tx acc input i) = fst acc ++ envelopes_of_input rt input i.
Proof.
  unfold scanInput, envelopes_of_input.
  destruct (BlockstreamTxVin.witness input) as [[|w ws]|]; simpl;
    rewrite ?app_nil_r; [done| |done].
  unfold forEach. by rewrite forEach_scanWitness.
Qed.

Lemma forEach_scanInput (tx : BlockstreamTx.t)
    (ins : list BlockstreamTxVin.t) (i : nat)
    (acc : Logged (list ExtractedOrdinal.t)) :
  fst (forEach_from (scanInput rt tx) ins i acc)
  = fst acc ++ envelopes_of_inputs rt ins i.
Proof.
  revert i acc. induction ins as [|input ins IH]; intros i acc;
    cbn [forEach_from envelopes_of_inputs].
  - by rewrite app_nil_r.
  - rewrite IH, scanInput_fst. by rewrite <- app_assoc.
Qed.

Lemma extractAllOrdinals_fst (tx : BlockstreamTx.t) :
  fst (extractAllOrdinals rt tx)
  = envelopes_of_inputs rt (BlockstreamTx.vin tx) 0.
Proof.
  unfold extractAllOrdinals, forEach.
  pose proof (forEach_scanInput tx (BlockstreamTx.vin tx) 0
                ([], [(debug,
                       Scanning_for_inscriptions (BlockstreamTx.txid tx))]))
    as H.
  destruct (forEach_from _ _ _ _) as [os lg]. by simpl in *.
Qed.

Lemma elem_of_envelopes_of_witnesses (input : BlockstreamTxVin.t) (i : nat)
    (ws : list jsstring) (j : nat) (o : ExtractedOrdinal.t) :
  o ∈ envelopes_of_witnesses rt input i ws j <->
  exists k w e,
    ws !! k = Some w /\ parse_witness rt w = Some e
    /\ o = tag_envelope input i (j + k) e.
Proof.
  revert j. induction ws as [|w ws IH]; intros j; simpl.
  - split; [by intros ?%elem_of_nil|]. by intros (k & w & e & ? & _).
  - rewrite elem_of_app, IH. split.
    + intros [Ho|(k & w' & e & Hk & He & ->)].
      * destruct (parse_witness rt w) as [e|] eqn:He;
          [|by apply elem_of_nil in Ho].
        apply list_elem_of_singleton in Ho as ->.
        exists 0, w, e. by rewrite Nat.add_0_r.
      * exists (S k), w', e. split; [done|]. split; [done|].
        f_equal. lia.
    + intros ([|k] & w' & e & Hk & He & ->); simpl in Hk.
      * injection Hk as <-. left. rewrite He, Nat.add_0_r.
        by apply list_elem_of_singleton.
      * right. exists k, w', e. split; [done|]. split; [done|].
        f_equal. lia.
Qed.

Lemma elem_of_envelopes_of_inputs (ins : list BlockstreamTxVin.t) (i : nat)
    (o : ExtractedOrdinal.t) :
  o ∈ envelopes_of_inputs rt ins i <->
  exists k input, ins !! k = Some input
                  /\ o ∈ envelopes_of_input rt input (i + k).
Proof.
  revert i. induction ins as [|input ins IH]; intros i; simpl.
  - split; [by intros ?%elem_of_nil|]. by intros (k & ? & ? & _).
  - rewrite elem_of_app, IH. split.
    + intros [Ho|(k & input' & Hk & Ho)].
      * exists 0, input. by rewrite Nat.add_0_r.
      * exists (S k), input'. split; [done|].
        by replace (i + S k) with (S i + k) by lia.
    + intros ([|k] & input' & Hk & Ho); simpl in Hk.
      * injection Hk as <-. left. by rewrite Nat.add_0_r in Ho.
      * right. exists k, input'. split; [done|].
        by replace (S i + k) with (i + S k) by lia.
Qed.

Lemma envelopes_of_witnesses_sorted (input : BlockstreamTxVin.t) (i : nat)
    (ws : list jsstring) (j : nat) :
  StronglySorted envelope_before (envelopes_of_witnesses rt input i ws j).
Proof.
  revert j. induction ws as [|w ws IH]; intros j; simpl; [constructor|].
  apply StronglySorted_app. split; [|split; [|apply IH]].
  - intros a b Ha (k & w' & e & _ & _ & ->)%elem_of_envelopes_of_witnesses.
    destruct (parse_witness rt w) as [e0|]; [|by apply elem_of_nil in Ha].
    apply list_elem_of_singleton in Ha as ->.
    right. simpl. lia.
  - destruct (parse_witness rt w); repeat constructor.
Qed.

Lemma envelopes_of_inputs_sorted (ins : list BlockstreamTxVin.t) (i : nat) :
  StronglySorted envelope_before (envelopes_of_inputs rt ins i).
Proof.
  revert i. induction ins as [|input ins IH]; intros i; simpl; [constructor|].
  apply StronglySorted_app. split; [|split; [|apply IH]].
  - intros a b (k & w & e & _ & _ & ->)%elem_of_envelopes_of_witnesses
      (k' & input' & _ & (k'' & w' & e' & _ & _ & ->)
         %elem_of_envelopes_of_witnesses)%elem_of_envelopes_of_inputs.
    left. simpl. lia.
  - apply envelopes_of_witnesses_sorted.
Qed.

End ScannerFacts.

(** C5: the scan returns, for every transaction, the envelopes of its
    inputs taken input after input and, within an input, witness item after
    witness item: an envelope is in the result exactly when the parser
    accepts the witness item at its (inputIndex, witnessIndex), the result
    is strictly increasing in input-major, witness-minor order (nothing is
    reordered or listed twice), and it is empty when no witness item
    matches. *)
Theorem C5_scan_preserves_order (rt : Runtime) (txParsed : BlockstreamTx.t) :
  fst (extractAllOrdinals rt txParsed)
  = envelopes_of_inputs rt (BlockstreamTx.vin txParsed) 0
  /\ StronglySorted envelope_before (fst (extractAllOrdinals rt txParsed))
  /\ (forall o,
        o ∈ fst (extractAllOrdinals rt txParsed) <->
        exists i j input ws w e,
          BlockstreamTx.vin txParsed !! i = Some input
          /\ BlockstreamTxVin.witness input = Some ws
          /\ ws !! j = Some w
          /\ parse_witness rt w = Some e
          /\ o = tag_envelope input i j e)
  /\ ((forall input ws w,
         input ∈ BlockstreamTx.vin txParsed ->
         BlockstreamTxVin.witness input = Some ws ->
         w ∈ ws -> parse_witness rt w = None) ->
      fst (extractAllOrdinals rt txParsed) = []).
Proof.
  rewrite extractAllOrdinals_fst.
  assert (forall o,
            o ∈ envelopes_of_inputs rt (BlockstreamTx.vin txParsed) 0 <->
            exists i j input ws w e,
              BlockstreamTx.vin txParsed !! i = Some input
              /\ BlockstreamTxVin.witness input = Some ws
              /\ ws !! j = Some w
              /\ parse_witness rt w = Some e
              /\ o = tag_envelope input i j e) as Hmem.
  { intros o. rewrite elem_of_envelopes_of_inputs. split.
    - intros (i & input & Hi & Ho). unfold envelopes_of_input in Ho.
      apply elem_of_envelopes_of_witnesses in Ho as (j & w & e & Hj & He & ->).
      destruct (BlockstreamTxVin.witness input) as [ws|] eqn:Hws;
        simpl in Hj; [|by rewrite lookup_nil in Hj].
      exists i, j, input, ws, w, e. done.
    - intros (i & j & input & ws & w & e & Hi & Hws & Hj & He & ->).
      exists i, input. split; [done|]. unfold envelopes_of_input.
      apply elem_of_envelopes_of_witnesses. rewrite Hws.
      exists j, w, e. done. }
  split; [done|]. split; [apply envelopes_of_inputs_sorted|].
  split; [done|].
  intros Hnone.
  destruct (envelopes_of_inputs rt (BlockstreamTx.vin txParsed) 0)
    as [|o os] eqn:Hos; [done|].
  assert (o ∈ o :: os) as Ho by apply list_elem_of_here.
  apply Hmem in Ho as (i & j & input & ws & w & e & Hi & Hws & Hj & He & _).
  rewrite (Hnone input ws w) in He; [done| |done|].
  - by apply list_elem_of_lookup_2 in Hi.
  - by apply list_elem_of_lookup_2 in Hj.
Qed.

(** ** The cache *)

(** C9: for an entry that has outlived the TTL and has not been read since,
    [has] answers true and [size] counts it, while [get] on the same cache
    returns [undefined] and removes it. *)
Theorem C9_has_and_size_ignore_expiry {T : Type} (clock : nat -> Z)
    (c : SimpleCache.t T) (key : jsstring) (e : SimpleCache.CacheEntry T)
    (reads : nat) :
  SimpleCache.cache c !! key = Some e ->
  (SimpleCache.ttlMs c < clock reads - SimpleCache.timestamp e)%Z ->
  SimpleCache.has key c = true
  /\ SimpleCache.get clock key c reads
     = (None,
        SimpleCache.make (delete key (SimpleCache.cache c))
          (SimpleCache.ttlMs c),
        S reads)
  /\ SimpleCache.size c
     = S (SimpleCache.size (SimpleCache.get clock key c reads).1.2)
  /\ SimpleCache.has key (SimpleCache.get clock key c reads).1.2 = false.
Proof.
  intros He Hexp.
  assert (SimpleCache.get clock key c reads
          = (None,
             SimpleCache.make (delete key (SimpleCache.cache c))
               (SimpleCache.ttlMs c),
             S reads)) as Hget.
  { unfold SimpleCache.get. rewrite He.
    by apply Z.ltb_lt in Hexp as ->. }
  split.
  { unfold SimpleCache.has. apply bool_decide_eq_true. by rewrite He. }
  split; [done|]. rewrite Hget. simpl. split.
  - unfold SimpleCache.size. simpl.
    rewrite map_size_delete_Some by (by rewrite He).
    assert (size (SimpleCache.cache c) <> 0)
      by (by apply (map_size_ne_0_lookup_2 _ key); rewrite He).
    lia.
  - unfold SimpleCache.has. simpl. apply bool_decide_eq_false.
    rewrite lookup_delete_eq. by intros [? ?].
Qed.

(** ** The client *)

Section ClientFacts.
Variable rt : Runtime.
Variable env : Env.

Lemma getTransaction_hit (s : State rt) (txid : jsstring) (includeRaw : bool)
    (e : SimpleCache.CacheEntry TransactionCache.t) :
  SimpleCache.cache (transactionCache rt s) !! txid = Some e ->
  ~ expired rt env s e ->
  getTransaction rt env txid includeRaw s
  = (Returned (TransactionCache.basicTransaction (SimpleCache.data e)),
     mkState rt (transactionCache rt s) (requestCache rt s)
       (S (clock_reads rt s)) (requests rt s) (disk rt s)
       (log rt s ++ [(debug, Fetching_transaction txid includeRaw);
                     (debug, Transaction_found_in_cache txid)])).
Proof.
  intros He Hfresh. unfold expired in Hfresh.
  apply Z.ltb_nlt in Hfresh.
  unfold getTransaction, try_catch, bind, logger, transactionCache_get,
    SimpleCache.get, ret. simpl.
  rewrite He, Hfresh. simpl. by rewrite <- app_assoc.
Qed.

Lemma lookup_miss (s : State rt) (txid : jsstring) :
  misses rt env s txid ->
  exists c' r',
    SimpleCache.get (clock env) txid (transactionCache rt s) (clock_reads rt s)
    = (None, c', r')
    /\ SimpleCache.cache c' !! txid = None
    /\ SimpleCache.ttlMs c' = SimpleCache.ttlMs (transactionCache rt s)
    /\ SimpleCache.cache c'
       = delete txid (SimpleCache.cache (transactionCache rt s))
    /\ clock_reads rt s <= r'.
Proof.
  unfold misses, expired, SimpleCache.get.
  destruct (SimpleCache.cache (transactionCache rt s) !! txid) as [e|] eqn:He.
  - intros Hexp. apply Z.ltb_lt in Hexp as ->.
    eexists _, _. split; [done|]. simpl.
    rewrite lookup_delete_eq. repeat split; lia.
  - intros _. eexists _, _. split; [done|]. rewrite He.
    rewrite delete_id by done. repeat split; lia.
Qed.

Lemma getTransaction_miss_fail (s : State rt) (txid : jsstring)
    (includeRaw : bool) (c' : SimpleCache.t TransactionCache.t) (r' : nat) :
  SimpleCache.get (clock env) txid (transactionCache rt s) (clock_reads rt s)
  = (None, c', r') ->
  transaction_of (http env (length (requests rt s)) (tx_url env txid)) = None ->
  exists msg code lg,
    getTransaction rt env txid includeRaw s
    = (Thrown (BitcoinError msg code),
       mkState rt c' (({[txid]} ∪ requestCache rt s) ∖ {[txid]}) r'
         (requests rt s ++ [tx_url env txid]) (disk rt s) lg).
Proof.
  intros Hget Hfail.
  unfold getTransaction, try_catch, try_finally, bind, logger,
    transactionCache_get, requestCache_add, requestCache_delete, fetchAndScan,
    fetch, bind, ret. simpl.
  rewrite Hget. simpl.
  unfold transaction_of in Hfail.
  destruct (http env (length (requests rt s)) (tx_url env txid))
    as [err|res]; simpl.
  - destruct err; simpl; eauto.
  - destruct (Response.ok res); simpl.
    + destruct (Response.json res) as [tx|err]; [discriminate|]. simpl.
      destruct err; simpl; eauto.
    + unfold await. destruct (Response.text res) as [t|err]; simpl.
      * eauto.
      * destruct err; simpl; eauto.
Qed.

Lemma getTransaction_miss_ok (s : State rt) (txid : jsstring)
    (includeRaw : bool) (c' : SimpleCache.t TransactionCache.t) (r' : nat)
    (tx : BlockstreamTx.t) :
  SimpleCache.get (clock env) txid (transactionCache rt s) (clock_reads rt s)
  = (None, c', r') ->
  transaction_of (http env (length (requests rt s)) (tx_url env txid))
  = Some tx ->
  let ordinals := fst (extractAllOrdinals rt tx) in
  let transactionInfo := buildTransactionWithOrdinal rt tx ordinals in
  exists rawHex lg,
    getTransaction rt env txid includeRaw s
    = (Returned transactionInfo,
       mkState rt
         (SimpleCache.make
            (<[txid := SimpleCache.Entry
                         (TransactionCache.make transactionInfo ordinals
                            rawHex)
                         (clock env r')]> (SimpleCache.cache c'))
            (SimpleCache.ttlMs c'))
         (({[txid]} ∪ requestCache rt s) ∖ {[txid]}) (S r')
         (requests rt s
          ++ tx_url env txid :: (if includeRaw then [hex_url env txid] else []))
         (disk rt s) lg).
Proof.
  intros Hget Hok ordinals transactionInfo.
  unfold getTransaction, try_catch, try_finally, bind, logger,
    transactionCache_get, requestCache_add, requestCache_delete, fetchAndScan,
    fetch, bind, ret. simpl.
  rewrite Hget. simpl.
  unfold transaction_of in Hok.
  destruct (http env (length (requests rt s)) (tx_url env txid))
    as [err|res]; [discriminate|]. simpl.
  destruct (Response.ok res); [|discriminate]. simpl.
  destruct (Response.json res) as [tx'|err]; [|discriminate].
  injection Hok as ->. simpl.
  destruct includeRaw; simpl.
  - unfold getRawTransaction, try_catch, bind, fetch, logger, await, throw,
      ret, rethrow_as_BitcoinError, handleBlockchainError, bind, logger, ret,
      throw. simpl.
    destruct (http env _ (hex_url env txid)) as [err|res']; simpl.
    + destruct err; simpl; rewrite <- app_assoc; simpl; eauto.
    + destruct (Response.ok res'); simpl.
      * destruct (Response.text res') as [t|err]; simpl.
        -- destruct (bool_decide (t = [])); simpl; rewrite <- ?app_assoc; simpl; eauto.
        -- destruct err; simpl; rewrite <- app_assoc; simpl; eauto.
      * destruct (Response.text res') as [t|err]; simpl.
        -- rewrite <- app_assoc; simpl; eauto.
        -- destruct err; simpl; rewrite <- app_assoc; simpl; eauto.
  - eauto.
Qed.

End ClientFacts.

Section CacheFacts.
Variable rt : Runtime.
Variable env : Env.

(** A lookup that misses is followed by a fetch of the transaction. *)
Lemma getTransaction_miss_fetches (s : State rt) (txid : jsstring)
    (includeRaw : bool) :
  misses rt env s txid ->
  exists more,
    requests rt (getTransaction rt env txid includeRaw s).2
    = requests rt s ++ tx_url env txid :: more.
Proof.
  intros (c' & r' & Hget & _)%lookup_miss.
  destruct (transaction_of
              (http env (length (requests rt s)) (tx_url env txid)))
    as [tx|] eqn:Htx.
  - destruct (getTransaction_miss_ok rt env s txid includeRaw c' r' tx
                Hget Htx) as (rawHex & lg & ->). simpl. eauto.
  - destruct (getTransaction_miss_fail rt env s txid includeRaw c' r'
                Hget Htx) as (msg & code & lg & ->). simpl. eauto.
Qed.

Lemma misses_or_hits (s : State rt) (txid : jsstring) :
  misses rt env s txid
  \/ exists e, SimpleCache.cache (transactionCache rt s) !! txid = Some e
               /\ ~ expired rt env s e.
Proof.
  unfold misses, expired.
  destruct (SimpleCache.cache (transactionCache rt s) !! txid) as [e|];
    [|by left].
  destruct (Z_lt_dec (SimpleCache.ttlMs (transactionCache rt s))
              (clock env (clock_reads rt s) - SimpleCache.timestamp e));
    [by left|right; eauto].
Qed.

Lemma getTransaction_ttlMs (s : State rt) (txid : jsstring)
    (includeRaw : bool) :
  SimpleCache.ttlMs
    (transactionCache rt (getTransaction rt env txid includeRaw s).2)
  = SimpleCache.ttlMs (transactionCache rt s).
Proof.
  destruct (misses_or_hits s txid) as [Hmiss|(e & He & Hfresh)].
  - apply lookup_miss in Hmiss as (c' & r' & Hget & _ & Httl & _).
    destruct (transaction_of
                (http env (length (requests rt s)) (tx_url env txid)))
      as [tx|] eqn:Htx.
    + by destruct (getTransaction_miss_ok rt env s txid includeRaw c' r' tx
                     Hget Htx) as (rawHex & lg & ->).
    + by destruct (getTransaction_miss_fail rt env s txid includeRaw c' r'
                     Hget Htx) as (msg & code & lg & ->).
  - by rewrite (getTransaction_hit rt env s txid includeRaw e He Hfresh).
Qed.

Lemma hex_url_neq_tx_url (txid : jsstring) : hex_url env txid <> tx_url env txid.
Proof.
  unfold hex_url, tx_url. intros H%(f_equal length).
  rewrite !length_app in H. simpl in H. lia.
Qed.

End CacheFacts.

(** C6: the client's cache keeps an entry for 300 seconds.  A lookup that
    finds an entry not older than the TTL returns its stored transaction
    and neither fetches nor scans; a lookup that finds an older entry
    evicts it on that access and fetches; and after a lookup that missed
    and fetched the transaction, a second lookup within the TTL of the
    insertion returns the same transaction without another fetch, so that
    the two lookups make exactly one request to the transaction source.
    The entry a fetch stores carries the clock reading taken when it is
    inserted. *)
Theorem C6_cached_result_within_ttl (rt : Runtime) (env : Env) (s : State rt)
    (txid : jsstring) (includeRaw : bool) :
  (forall fs l,
     SimpleCache.ttlMs (transactionCache rt (new_client rt fs l))
     = (300 * 1000)%Z)
  /\ SimpleCache.ttlMs
       (transactionCache rt (getTransaction rt env txid includeRaw s).2)
     = SimpleCache.ttlMs (transactionCache rt s)
  /\ (forall e,
        SimpleCache.cache (transactionCache rt s) !! txid = Some e ->
        (clock env (clock_reads rt s) - SimpleCache.timestamp e
         <= SimpleCache.ttlMs (transactionCache rt s))%Z ->
        exists s',
          getTransaction rt env txid includeRaw s
          = (Returned (TransactionCache.basicTransaction (SimpleCache.data e)),
             s')
          /\ requests rt s' = requests rt s
          /\ transactionCache rt s' = transactionCache rt s
          /\ log rt s'
             = log rt s ++ [(debug, Fetching_transaction txid includeRaw);
                            (debug, Transaction_found_in_cache txid)])
  /\ (forall e,
        SimpleCache.cache (transactionCache rt s) !! txid = Some e ->
        (SimpleCache.ttlMs (transactionCache rt s)
         < clock env (clock_reads rt s) - SimpleCache.timestamp e)%Z ->
        SimpleCache.cache (cache_after_lookup rt env s txid)
        = delete txid (SimpleCache.cache (transactionCache rt s))
        /\ exists more,
             requests rt (getTransaction rt env txid includeRaw s).2
             = requests rt s ++ tx_url env txid :: more)
  /\ (forall tx includeRaw2,
        misses rt env s txid ->
        transaction_of (http env (length (requests rt s)) (tx_url env txid))
        = Some tx ->
        let s1 := (getTransaction rt env txid includeRaw s).2 in
        (exists e1,
           SimpleCache.cache (transactionCache rt s1) !! txid = Some e1
           /\ (clock env (clock_reads rt s1) - SimpleCache.timestamp e1
               <= SimpleCache.ttlMs (transactionCache rt s1))%Z) ->
        (getTransaction rt env txid includeRaw2 s1).1
        = (getTransaction rt env txid includeRaw s).1
        /\ requests rt (getTransaction rt env txid includeRaw2 s1).2
           = requests rt s
             ++ tx_url env txid
                :: (if includeRaw then [hex_url env txid] else [])
        /\ hex_url env txid <> tx_url env txid)
  /\ (forall tx,
        misses rt env s txid ->
        transaction_of (http env (length (requests rt s)) (tx_url env txid))
        = Some tx ->
        let s1 := (getTransaction rt env txid includeRaw s).2 in
        exists e1,
          SimpleCache.cache (transactionCache rt s1) !! txid = Some e1
          /\ SimpleCache.timestamp e1 = clock env (pred (clock_reads rt s1))
          /\ TransactionCache.extractedOrdinals (SimpleCache.data e1)
             = (extractAllOrdinals rt tx).1
          /\ (getTransaction rt env txid includeRaw s).1
             = Returned
                 (TransactionCache.basicTransaction (SimpleCache.data e1))).
Proof.
  split; [done|]. split; [apply getTransaction_ttlMs|].
  split; [|split; [|split]].
  - intros e He Hfresh.
    eexists. split.
    + apply (getTransaction_hit rt env s txid includeRaw e He).
      unfold expired. lia.
    + done.
  - intros e He Hexp. split.
    + unfold cache_after_lookup, SimpleCache.get. rewrite He.
      by apply Z.ltb_lt in Hexp as ->.
    + apply getTransaction_miss_fetches. unfold misses. by rewrite He.
  - intros tx includeRaw2 Hmiss Htx.
    apply lookup_miss in Hmiss as (c' & r' & Hget & _).
    destruct (getTransaction_miss_ok rt env s txid includeRaw c' r' tx
                Hget Htx) as (rawHex & lg & ->).
    simpl. intros (e1 & He1 & Hfresh).
    rewrite lookup_insert_eq in He1. injection He1 as <-.
    erewrite getTransaction_hit; [|simpl; apply lookup_insert_eq|].
    + simpl. split; [done|]. split; [done|]. apply hex_url_neq_tx_url.
    + unfold expired. simpl in *. lia.
  - intros tx Hmiss Htx.
    apply lookup_miss in Hmiss as (c' & r' & Hget & _).
    destruct (getTransaction_miss_ok rt env s txid includeRaw c' r' tx
                Hget Htx) as (rawHex & lg & ->).
    simpl. eexists. split; [apply lookup_insert_eq|]. done.
Qed.

(** C7: when the lookup misses and the fetch of the transaction fails, the
    method throws a [BitcoinError]; the cache is as the lookup left it,
    with no entry for the key (and unchanged altogether when it held no
    entry for the key), every other key keeps its entry, the key is no
    longer marked as requested, and the next call for the key fetches
    again. *)
Theorem C7_failed_fetch_is_not_cached (rt : Runtime) (env : Env)
    (s : State rt) (txid : jsstring) (includeRaw : bool) :
  misses rt env s txid ->
  transaction_of (http env (length (requests rt s)) (tx_url env txid)) = None ->
  exists msg code s',
    getTransaction rt env txid includeRaw s
    = (Thrown (BitcoinError msg code), s')
    /\ transactionCache rt s' = cache_after_lookup rt env s txid
    /\ SimpleCache.cache (transactionCache rt s') !! txid = None
    /\ (SimpleCache.cache (transactionCache rt s) !! txid = None ->
        transactionCache rt s' = transactionCache rt s)
    /\ (forall k, k <> txid ->
          SimpleCache.cache (transactionCache rt s') !! k
          = SimpleCache.cache (transactionCache rt s) !! k)
    /\ (txid ∉ requestCache rt s')
    /\ requests rt s' = requests rt s ++ [tx_url env txid]
    /\ misses rt env s' txid
    /\ forall includeRaw',
         exists more,
           requests rt (getTransaction rt env txid includeRaw' s').2
           = requests rt s' ++ tx_url env txid :: more.
Proof.
  intros Hmiss Hfail.
  destruct (lookup_miss rt env s txid Hmiss)
    as (c' & r' & Hget & Hnone & Httl & Hcache & _).
  destruct (getTransaction_miss_fail rt env s txid includeRaw c' r' Hget Hfail)
    as (msg & code & lg & Hrun).
  eexists msg, code, _. split; [exact Hrun|]. simpl.
  assert (misses rt env
            (mkState rt c' (({[txid]} ∪ requestCache rt s) ∖ {[txid]}) r'
               (requests rt s ++ [tx_url env txid]) (disk rt s) lg) txid)
    as Hmiss'.
  { unfold misses. simpl. by rewrite Hnone. }
  split; [unfold cache_after_lookup; by rewrite Hget|].
  split; [done|]. split.
  { intros Hno. unfold SimpleCache.get in Hget. rewrite Hno in Hget.
    by simplify_eq. }
  split.
  { intros k Hk. rewrite Hcache. by apply lookup_delete_ne. }
  split.
  { intros [_ Hnot]%elem_of_difference. by apply Hnot, elem_of_singleton. }
  split; [done|]. split; [done|].
  intros includeRaw'.
  apply (getTransaction_miss_fetches rt env _ txid includeRaw' Hmiss').
Qed.

(** ** The formatter *)

Section FormatterFacts.
Variable rt : Runtime.
Variable env : Env.

Lemma formatInscriptionContent_returns (contentType : jsstring)
    (contentBuffer : Buffer) (opt : FormatImageOption)
    (txid : option jsstring) (index : nat) (s : State rt) :
  exists r s',
    formatInscriptionContent rt env contentType contentBuffer opt txid index s
    = (Returned r, s').
Proof.
  unfold formatInscriptionContent, try_catch at 1.
  match goal with
  | |- context [match ?body s with _ => _ end] =>
      destruct (body s) as [[r|e] s']
  end; [eauto|].
  unfold bind, logger, ret. simpl. eauto.
Qed.

Lemma forEachM_formatEach (opt : FormatImageOption) (txid : jsstring)
    (ordinals : list ExtractedOrdinal.t) (i : nat) (acc : list jsstring)
    (s : State rt) :
  forEachM_from rt (formatEach rt env opt txid) ordinals i acc s
  = (Returned (acc ++ omap non_empty (formatAll rt env opt txid ordinals i s).1),
     (formatAll rt env opt txid ordinals i s).2).
Proof.
  revert i acc s. induction ordinals as [|o os IH]; intros i acc s.
  - simpl. unfold ret. by rewrite app_nil_r.
  - cbn [forEachM_from formatAll]. unfold bind at 1, formatEach at 1, bind at 1.
    destruct (formatInscriptionContent_returns
                (ExtractedOrdinal.contentType o) (ExtractedOrdinal.content o)
                opt (Some txid) i s) as (r & s' & Hr).
    rewrite Hr.
    destruct (formatAll rt env opt txid os (S i) s') as [rs s''] eqn:Hrest.
    pose proof (IH (S i)) as IH'. 
    destruct r as [[|c t]|]; unfold ret; rewrite IH', Hrest; simpl;
      by rewrite <- ?app_assoc.
Qed.

Lemma formatAll_length (opt : FormatImageOption) (txid : jsstring)
    (ordinals : list ExtractedOrdinal.t) (i : nat) (s : State rt) :
  length (formatAll rt env opt txid ordinals i s).1 = length ordinals.
Proof.
  revert i s. induction ordinals as [|o os IH]; intros i s; simpl; [done|].
  destruct (formatInscriptionContent rt env _ _ opt (Some txid) i s)
    as [r s'].
  specialize (IH (S i) s').
  destruct (formatAll rt env opt txid os (S i) s') as [rs s'']. simpl in *.
  by rewrite IH.
Qed.

Lemma omap_non_empty (rs : list (Outcome (option jsstring))) :
  Forall (fun text => text <> []) (omap non_empty rs)
  /\ length (omap non_empty rs) <= length rs.
Proof.
  induction rs as [|r rs [IH1 IH2]]; [split; [constructor|done]|].
  destruct r as [[[|c t]|]|e]; cbn [omap list_omap non_empty length] in *;
    try (split; [done|lia]).
  split; [by constructor|lia].
Qed.

End FormatterFacts.

(** C8: for the content type [application/json] the formatter returns the
    payload decoded as UTF-8 when [JSON.parse] rejects that text, and the
    pretty-printed re-serialization of the parsed value when it accepts it;
    in both cases it returns and does not throw. *)
Theorem C8_json_falls_back_to_text (rt : Runtime) (env : Env)
    (contentBuffer : Buffer) (formatImageOption : FormatImageOption)
    (txid : option jsstring) (index : nat) (s : State rt) :
  (forall err,
     JSON_parse rt (toString_utf8 rt contentBuffer) = Thrown err ->
     formatInscriptionContent rt env (js "application/json") contentBuffer
       formatImageOption txid index s
     = (Returned (Some (toString_utf8 rt contentBuffer)),
        mkState rt (transactionCache rt s) (requestCache rt s)
          (clock_reads rt s) (requests rt s) (disk rt s)
          (log rt s ++ [(error, Failed_to_parse_JSON (error_message err))])))
  /\ (forall v,
        JSON_parse rt (toString_utf8 rt contentBuffer) = Returned v ->
        formatInscriptionContent rt env (js "application/json") contentBuffer
          formatImageOption txid index s
        = (Returned (Some (JSON_stringify_pretty rt v)), s)).
Proof.
  split.
  - intros err Herr.
    unfold formatInscriptionContent, try_catch, bind, await, logger, ret.
    cbn -[js]. rewrite Herr. done.
  - intros v Hv.
    unfold formatInscriptionContent, try_catch, bind, await, logger, ret.
    cbn. rewrite Hv. done.
Qed.

Section DecodeFacts.
Variable rt : Runtime.
Variable env : Env.

Lemma formatAll_returned (opt : FormatImageOption) (txid : jsstring)
    (ordinals : list ExtractedOrdinal.t) (i : nat) (s : State rt) :
  Forall (fun r => exists v, r = Returned v)
    (formatAll rt env opt txid ordinals i s).1.
Proof.
  revert i s. induction ordinals as [|o os IH]; intros i s; simpl;
    [constructor|].
  destruct (formatInscriptionContent_returns rt env
              (ExtractedOrdinal.contentType o) (ExtractedOrdinal.content o)
              opt (Some txid) i s) as (r & s' & ->).
  specialize (IH (S i) s').
  destruct (formatAll rt env opt txid os (S i) s') as [rs s''].
  constructor; eauto.
Qed.

Lemma decodeWitness_Returned (txid : jsstring) (opt : FormatImageOption)
    (s : State rt) (out : list jsstring) (s' : State rt) :
  decodeWitness rt env txid opt s = (Returned out, s') ->
  exists ordinals s0,
    cachedOrdinals rt env txid (logger rt debug (Decoding_witness txid) s).2
    = (Returned ordinals, s0)
    /\ out = omap non_empty (formatAll rt env opt txid ordinals 0 s0).1.
Proof.
  unfold decodeWitness, try_catch at 1, bind at 1. simpl.
  unfold bind at 1.
  destruct (cachedOrdinals rt env txid _) as [[ordinals|e] s0] eqn:Hc.
  - destruct ordinals as [|o os].
    + unfold bind, logger, ret. simpl. intros [= <- <-]. eauto.
    + unfold bind at 1. rewrite forEachM_formatEach.
      unfold bind, logger, ret. simpl. intros [= <- <-]. eauto.
  - unfold bind, logger, rethrow_as_BitcoinError, handleBlockchainError,
      throw, bind, logger, ret. simpl.
    destruct e; simpl; discriminate.
Qed.

End DecodeFacts.

(** C10 (as the code has it): what [decodeWitness] returns is, in scan
    order, the formatted representation of every extracted inscription
    whose formatting step returned a string that is not empty; an
    inscription whose step returned [null] or the empty string is left
    out.  The formatting step never throws, every element of the result is
    a non-empty string and the result is not longer than the list of
    extracted inscriptions. *)
Theorem C10_decoded_are_the_non_empty_formats (rt : Runtime) (env : Env)
    (txid : jsstring) (formatImageOption : FormatImageOption) (s : State rt)
    (out : list jsstring) (s' : State rt) :
  decodeWitness rt env txid formatImageOption s = (Returned out, s') ->
  exists ordinals s0,
    cachedOrdinals rt env txid (logger rt debug (Decoding_witness txid) s).2
    = (Returned ordinals, s0)
    /\ length (formatAll rt env formatImageOption txid ordinals 0 s0).1
       = length ordinals
    /\ Forall (fun r => exists v, r = Returned v)
         (formatAll rt env formatImageOption txid ordinals 0 s0).1
    /\ out = omap non_empty
               (formatAll rt env formatImageOption txid ordinals 0 s0).1
    /\ Forall (fun text => text <> []) out
    /\ length out <= length ordinals.
Proof.
  intros (ordinals & s0 & Hc & ->)%decodeWitness_Returned.
  exists ordinals, s0. split; [done|].
  split; [apply formatAll_length|]. split; [apply formatAll_returned|].
  split; [done|].
  destruct (omap_non_empty
              (formatAll rt env formatImageOption txid ordinals 0 s0).1)
    as [Hne Hlen].
  split; [done|]. by rewrite formatAll_length in Hlen.
Qed.


Lemma outcome_with_state {A St : Type} (p : A * St) (a : A) :
  p.1 = a -> p = (a, p.2).
Proof. destruct p. simpl. by intros ->. Qed.

Lemma C10_witness :
  exists ordinals s0,
    cachedOrdinals Examples.rt
      (Examples.serving
         (Examples.tx_with
            [Examples.stray_witness; js "00"; Examples.stray_witness]))
      Examples.txid1
      (logger Examples.rt debug (Decoding_witness Examples.txid1)
         (Examples.fresh_client true)).2
    = (Returned ordinals, s0)
    /\ length ordinals = 2
    /\ [js "hello world"; js "hello world"]
       = omap non_empty
           (formatAll Examples.rt
              (Examples.serving
                 (Examples.tx_with
                    [Examples.stray_witness; js "00"; Examples.stray_witness]))
              base64 Examples.txid1 ordinals 0 s0).1.
Proof.
  destruct (C10_decoded_are_the_non_empty_formats Examples.rt
              (Examples.serving
                 (Examples.tx_with
                    [Examples.stray_witness; js "00"; Examples.stray_witness]))
              Examples.txid1 base64 (Examples.fresh_client true)
              [js "hello world"; js "hello world"]
              (decodeWitness Examples.rt
                 (Examples.serving
                    (Examples.tx_with
                       [Examples.stray_witness; js "00";
                        Examples.stray_witness]))
                 Examples.txid1 base64 (Examples.fresh_client true)).2)
    as (ordinals & s0 & Hc & _ & _ & Hout & _).
  { apply outcome_with_state. by vm_compute. }
  exists ordinals, s0. split; [exact Hc|]. split; [|exact Hout].
  apply (f_equal fst) in Hc. vm_compute in Hc. by injection Hc as <-.
Defined.

(** C10 as stated fails: the only inscription of this transaction has type
    text/plain and an empty body; its formatting step returns the empty
    string, which is not [null], and [decodeWitness] leaves it out. *)
Lemma C10_counterexample :
  (extractAllOrdinals Examples.rt
     (Examples.tx_with [Examples.empty_text_witness])).1
  = [ExtractedOrdinal.make (js "text/plain") []
       (SourceInfo.make 0 0 (Some (js "bb22")) (Some 0%Z))]
  /\ omap non_null
       (formatAll Examples.rt
          (Examples.serving (Examples.tx_with [Examples.empty_text_witness]))
          base64 Examples.txid1
          (extractAllOrdinals Examples.rt
             (Examples.tx_with [Examples.empty_text_witness])).1
          0 (Examples.fresh_client true)).1
     = [[]]
  /\ (decodeWitness Examples.rt
        (Examples.serving (Examples.tx_with [Examples.empty_text_witness]))
        Examples.txid1 base64 (Examples.fresh_client true)).1
     = Returned [].
Proof. vm_compute. repeat split. Qed.

(** An image that cannot be written under [imageTempDir] is formatted as
    [null]; with the base64 option it is a data URI. *)
Example format_image_examples :
  (formatInscriptionContent (Reference.runtime false) Examples.offline
     (js "image/png") (Reference.from_hex (js "89504e47")) file
     (Some Examples.txid1) 3 (Examples.fresh_client false)).1
  = Returned None
  /\ (formatInscriptionContent Examples.rt Examples.offline
        (js "image/png") (Reference.from_hex (js "89504e47")) file
        (Some Examples.txid1) 3 (Examples.fresh_client true)).1
     = Returned (Some (js "/cache/aa11_3.png"))
  /\ (formatInscriptionContent Examples.rt Examples.offline
        (js "image/png") (Reference.from_hex (js "89504e47")) base64
        (Some Examples.txid1) 3 (Examples.fresh_client true)).1
     = Returned (Some (js "data:image/png;base64,iVBORw==")).
Proof. vm_compute. repeat split. Qed.

(** The scan of a witness stack whose items 0 and 2 hold an envelope and
    whose item 1 does not. *)
Example scan_three_witness_items :
  map location
    (extractAllOrdinals Examples.rt
       (Examples.tx_with
          [Examples.stray_witness; js "00"; Examples.stray_witness])).1
  = [(0, 0); (0, 2)].
Proof. by vm_compute. Qed.

Lemma C9_witness :
  SimpleCache.has Examples.txid1
    (SimpleCache.make {[Examples.txid1 := SimpleCache.Entry tt 0%Z]} 300000%Z)
  = true
  /\ SimpleCache.size
       (SimpleCache.make {[Examples.txid1 := SimpleCache.Entry tt 0%Z]}
          300000%Z)
     = 1
  /\ (SimpleCache.get (fun k => (1000 * Z.of_nat k)%Z) Examples.txid1
        (SimpleCache.make {[Examples.txid1 := SimpleCache.Entry tt 0%Z]}
           300000%Z) 301).1.1
     = None.
Proof.
  destruct (C9_has_and_size_ignore_expiry (fun k => (1000 * Z.of_nat k)%Z)
              (SimpleCache.make
                 {[Examples.txid1 := SimpleCache.Entry tt 0%Z]} 300000%Z)
              Examples.txid1 (SimpleCache.Entry tt 0%Z) 301)
    as (Hhas & Hget & Hsize & _).
  - by vm_compute.
  - by vm_compute.
  - split; [exact Hhas|]. split; [by vm_compute|]. by rewrite Hget.
Defined.

Lemma C7_witness :
  exists msg code s',
    getTransaction Examples.rt Examples.offline Examples.txid1 false
      (Examples.fresh_client true)
    = (Thrown (BitcoinError msg code), s')
    /\ SimpleCache.cache (transactionCache Examples.rt s') !! Examples.txid1
       = None
    /\ requests Examples.rt s' = [js "https://blockstream.info/api/tx/aa11"].
Proof.
  destruct (C7_failed_fetch_is_not_cached Examples.rt Examples.offline
              (Examples.fresh_client true) Examples.txid1 false)
    as (msg & code & s' & Hrun & _ & Hnone & _ & _ & _ & Hreq & _).
  - by vm_compute.
  - by vm_compute.
  - exists msg, code, s'. split; [exact Hrun|]. split; [exact Hnone|].
    rewrite Hreq. by vm_compute.
Defined.

Lemma C6_witness :
  (getTransaction Examples.rt
     (Examples.serving (Examples.tx_with [Examples.stray_witness]))
     Examples.txid1 false
     (getTransaction Examples.rt
        (Examples.serving (Examples.tx_with [Examples.stray_witness]))
        Examples.txid1 false (Examples.fresh_client true)).2).1
  = (getTransaction Examples.rt
       (Examples.serving (Examples.tx_with [Examples.stray_witness]))
       Examples.txid1 false (Examples.fresh_client true)).1
  /\ requests Examples.rt
       (getTransaction Examples.rt
          (Examples.serving (Examples.tx_with [Examples.stray_witness]))
          Examples.txid1 false
          (getTransaction Examples.rt
             (Examples.serving (Examples.tx_with [Examples.stray_witness]))
             Examples.txid1 false (Examples.fresh_client true)).2).2
     = [js "https://blockstream.info/api/tx/aa11"].
Proof.
  destruct (proj1 (proj2 (proj2 (proj2 (proj2
              (C6_cached_result_within_ttl Examples.rt
                 (Examples.serving (Examples.tx_with [Examples.stray_witness]))
                 (Examples.fresh_client true) Examples.txid1 false)))))
              (Examples.tx_with [Examples.stray_witness]) false)
    as (Hsame & Hreq & _).
  - by vm_compute.
  - by vm_compute.
  - eexists. split; [by vm_compute|]. by vm_compute.
  - split; [exact Hsame|]. rewrite Hreq. by vm_compute.
Defined.

Lemma C8_witness :
  (formatInscriptionContent Examples.rt Examples.offline
     (js "application/json") (Reference.from_hex (js "7b6f6f7073")) base64
     (Some Examples.txid1) 0 (Examples.fresh_client true)).1
  = Returned (Some (js "{oops"))
  /\ (formatInscriptionContent Examples.rt Examples.offline
        (js "application/json") (Reference.from_hex (js "74727565")) base64
        (Some Examples.txid1) 0 (Examples.fresh_client true)).1
     = Returned (Some (js "true")).
Proof.
  split.
  - rewrite (proj1 (C8_json_falls_back_to_text Examples.rt Examples.offline
                      (Reference.from_hex (js "7b6f6f7073")) base64
                      (Some Examples.txid1) 0 (Examples.fresh_client true))
               (PlainError (js "Unexpected token")) eq_refl).
    by vm_compute.
  - rewrite (proj2 (C8_json_falls_back_to_text Examples.rt Examples.offline
                      (Reference.from_hex (js "74727565")) base64
                      (Some Examples.txid1) 0 (Examples.fresh_client true))
               Reference.json_true eq_refl).
    by vm_compute.
Defined.

Lemma decompile_loop_no_push_opcode (fuel : nat) (rest : Buffer)
    (chunks out : list Chunk) :
  Reference.decompile_loop fuel rest chunks = Some out ->
  Forall (fun c => forall n, c = Op n -> n = 0%N \/ (78 < n)%N) chunks ->
  Forall (fun c => forall n, c = Op n -> n = 0%N \/ (78 < n)%N) out.
Proof.
  revert rest chunks.
  induction fuel as [|fuel IH]; intros [|b tail] chunks; simpl;
    try (by intros [= <-]); try discriminate.
  destruct ((0 <? Byte.to_N b)%N && (Byte.to_N b <=? Reference.OP_PUSHDATA4)%N)
    eqn:Hpush.
  - destruct (Reference.pushdata_decode (Byte.to_N b) tail)
      as [[number body]|]; [|discriminate].
    destruct (Nat.ltb (length body) (N.to_nat number)); [discriminate|].
    intros Hout Hchunks. apply (IH _ _ Hout).
    apply Forall_app. split; [done|]. constructor; [|constructor].
    intros n. unfold Reference.asMinimalOP.
    destruct (take (N.to_nat number) body) as [|x [|y l]].
    + intros [= <-]. by left.
    + destruct ((1 <=? Byte.to_N x)%N && (Byte.to_N x <=? 16)%N) eqn:Hsmall.
      * intros [= <-]. right. apply andb_true_iff in Hsmall as [H1 _].
        apply N.leb_le in H1. unfold Reference.OP_INT_BASE. lia.
      * destruct (Byte.to_N x =? 129)%N; [|discriminate].
        intros [= <-]. right. unfold Reference.OP_1NEGATE. lia.
    + discriminate.
  - intros Hout Hchunks. apply (IH _ _ Hout).
    apply Forall_app. split; [done|]. constructor; [|constructor].
    intros n [= <-].
    apply andb_false_iff in Hpush as [H0|H78].
    + apply N.ltb_ge in H0. left. lia.
    + apply N.leb_gt in H78. right. unfold Reference.OP_PUSHDATA4 in H78. lia.
Qed.

(** The reference decompiler never returns one of the push opcodes 1..78
    as an opcode: the number 1 that [readContentType] also accepts as a
    field tag does not come out of it. *)
Lemma decompile_no_push_opcode (buffer : Buffer) (out : list Chunk) (k : nat)
    (n : N) :
  Reference.decompile buffer = Returned (Some out) ->
  out !! k = Some (Op n) -> n = 0%N \/ (78 < n)%N.
Proof.
  unfold Reference.decompile. intros [= Hout] Hk.
  apply decompile_loop_no_push_opcode in Hout; [|constructor].
  rewrite Forall_lookup in Hout. by apply (Hout k (Op n)).
Qed.

(** * Further properties *)

(** ** [SimpleCache] *)

(** X1: a value that was set is returned by every later [get] whose clock
    reading is at most the TTL after the reading taken by [set], with the
    cache left as it is; a later [get] than that returns [undefined] and
    removes the entry. *)
Theorem X1_set_then_get {T : Type} (clock : nat -> Z) (key : jsstring)
    (d : T) (c : SimpleCache.t T) (reads reads' : nat) :
  ((clock reads' - clock reads <= SimpleCache.ttlMs c)%Z ->
   SimpleCache.get clock key (SimpleCache.set clock key d c reads).1 reads'
   = (Some d, (SimpleCache.set clock key d c reads).1, S reads'))
  /\ ((SimpleCache.ttlMs c < clock reads' - clock reads)%Z ->
      SimpleCache.get clock key (SimpleCache.set clock key d c reads).1 reads'
      = (None,
         SimpleCache.make (delete key (SimpleCache.cache c))
           (SimpleCache.ttlMs c),
         S reads')).
Proof.
  unfold SimpleCache.get, SimpleCache.set. simpl.
  rewrite lookup_insert_eq. simpl. split; intros H.
  - by apply Z.ltb_ge in H as ->.
  - apply Z.ltb_lt in H as ->. by rewrite delete_insert_eq.
Qed.

(** X2: [set] on a key replaces its entry wholesale: the entry of a second
    [set] does not depend on the first, every other key keeps its entry,
    the TTL is kept, and the size grows by one exactly when the key was
    absent. *)
Theorem X2_set_replaces_entry {T : Type} (clock : nat -> Z) (key : jsstring)
    (d1 d2 : T) (c : SimpleCache.t T) (r1 r2 : nat) :
  (SimpleCache.set clock key d2 (SimpleCache.set clock key d1 c r1).1 r2).1
  = (SimpleCache.set clock key d2 c r2).1
  /\ (forall k, k <> key ->
        SimpleCache.cache (SimpleCache.set clock key d1 c r1).1 !! k
        = SimpleCache.cache c !! k)
  /\ SimpleCache.ttlMs (SimpleCache.set clock key d1 c r1).1
     = SimpleCache.ttlMs c
  /\ SimpleCache.size (SimpleCache.set clock key d1 c r1).1
     = (if SimpleCache.has key c then SimpleCache.size c
        else S (SimpleCache.size c)).
Proof.
  unfold SimpleCache.set, SimpleCache.size, SimpleCache.has. simpl.
  split; [by rewrite insert_insert_eq|].
  split; [intros k Hk; by apply lookup_insert_ne|]. split; [done|].
  case_bool_decide as Hin.
  - by apply map_size_insert_Some.
  - apply map_size_insert_None.
    destruct (SimpleCache.cache c !! key) eqn:He; [|done].
    exfalso. apply Hin. eauto.
Qed.

(** X3: [delete] answers whether the key had an entry; afterwards [has] is
    false and [get] misses without reading the clock, every other key keeps
    its entry, and the size has dropped by one exactly when the key had an
    entry.  After [clear] the cache is empty, with its TTL, and every [get]
    misses. *)
Theorem X3_delete_and_clear {T : Type} (clock : nat -> Z) (key : jsstring)
    (c : SimpleCache.t T) (reads : nat) :
  (SimpleCache.delete key c).1 = SimpleCache.has key c
  /\ SimpleCache.has key (SimpleCache.delete key c).2 = false
  /\ SimpleCache.get clock key (SimpleCache.delete key c).2 reads
     = (None, (SimpleCache.delete key c).2, reads)
  /\ (forall k, k <> key ->
        SimpleCache.cache (SimpleCache.delete key c).2 !! k
        = SimpleCache.cache c !! k)
  /\ SimpleCache.size c
     = (if SimpleCache.has key c
        then S (SimpleCache.size (SimpleCache.delete key c).2)
        else SimpleCache.size (SimpleCache.delete key c).2)
  /\ SimpleCache.size (SimpleCache.clear c) = 0
  /\ SimpleCache.ttlMs (SimpleCache.clear c) = SimpleCache.ttlMs c
  /\ (forall k,
        SimpleCache.get clock k (SimpleCache.clear c) reads
        = (None, SimpleCache.clear c, reads)).
Proof.
  unfold SimpleCache.delete, SimpleCache.has, SimpleCache.get,
    SimpleCache.size, SimpleCache.clear. simpl.
  split; [done|]. split.
  { apply bool_decide_eq_false. rewrite lookup_delete_eq. by intros [? ?]. }
  split; [by rewrite lookup_delete_eq|].
  split; [intros k Hk; by apply lookup_delete_ne|]. split.
  { case_bool_decide as Hin.
    - rewrite map_size_delete_Some by done.
      pose proof (map_size_ne_0_lookup_2 _ key Hin). lia.
    - rewrite map_size_delete_None; [done|].
      destruct (SimpleCache.cache c !! key) eqn:He; [|done].
      exfalso. apply Hin. eauto. }
  split; [apply map_size_empty|]. split; [done|].
  intros k. by rewrite lookup_empty.
Qed.

(** X4: [purgeExpired] keeps exactly the entries that are not older than
    the TTL at its clock reading, and a [get] at the same clock value gives
    the same answer with or without the purge. *)
Theorem X4_purge_is_only_a_sweep {T : Type} (clock : nat -> Z)
    (c : SimpleCache.t T) (reads : nat) (key : jsstring) :
  SimpleCache.cache (SimpleCache.purgeExpired clock c reads).1 !! key
  = match SimpleCache.cache c !! key with
    | Some e =>
        if (SimpleCache.ttlMs c <? clock reads - SimpleCache.timestamp e)%Z
        then None else Some e
    | None => None
    end
  /\ SimpleCache.ttlMs (SimpleCache.purgeExpired clock c reads).1
     = SimpleCache.ttlMs c
  /\ (forall reads',
        clock reads' = clock reads ->
        (SimpleCache.get clock key
           (SimpleCache.purgeExpired clock c reads).1 reads').1.1
        = (SimpleCache.get clock key c reads').1.1).
Proof.
  assert (SimpleCache.cache (SimpleCache.purgeExpired clock c reads).1 !! key
          = match SimpleCache.cache c !! key with
            | Some e =>
                if (SimpleCache.ttlMs c
                    <? clock reads - SimpleCache.timestamp e)%Z
                then None else Some e
            | None => None
            end) as Hlookup.
  { unfold SimpleCache.purgeExpired. simpl.
    rewrite map_lookup_filter.
    destruct (SimpleCache.cache c !! key) as [e|]; simpl; [|done].
    destruct (Z.ltb_spec (SimpleCache.ttlMs c)
                (clock reads - SimpleCache.timestamp e)).
    - rewrite option_guard_False; [done|]. simpl. tauto.
    - rewrite option_guard_True; [done|]. simpl. lia. }
  split; [done|]. split; [done|].
  intros reads' Hclock. unfold SimpleCache.get.
  rewrite Hlookup. simpl. rewrite Hclock.
  destruct (SimpleCache.cache c !! key) as [e|]; [|done].
  destruct (SimpleCache.ttlMs c <? clock reads - SimpleCache.timestamp e)%Z
    eqn:Hexp; simpl; [done|].
  by rewrite Hexp.
Qed.

(** X5: [get] never returns a stale value and never disturbs another key:
    a value it returns is the data of an entry not older than the TTL, and
    then the cache is unchanged; in every case the other keys keep their
    entries, the TTL is kept and the size does not grow. *)
Theorem X5_get_is_sound {T : Type} (clock : nat -> Z) (key : jsstring)
    (c : SimpleCache.t T) (reads : nat) :
  (forall d,
     (SimpleCache.get clock key c reads).1.1 = Some d ->
     (SimpleCache.get clock key c reads).1.2 = c
     /\ exists e,
          SimpleCache.cache c !! key = Some e
          /\ SimpleCache.data e = d
          /\ (clock reads - SimpleCache.timestamp e
              <= SimpleCache.ttlMs c)%Z)
  /\ (forall k, k <> key ->
        SimpleCache.cache (SimpleCache.get clock key c reads).1.2 !! k
        = SimpleCache.cache c !! k)
  /\ SimpleCache.ttlMs (SimpleCache.get clock key c reads).1.2
     = SimpleCache.ttlMs c
  /\ SimpleCache.size (SimpleCache.get clock key c reads).1.2
     <= SimpleCache.size c.
Proof.
  unfold SimpleCache.get, SimpleCache.size.
  destruct (SimpleCache.cache c !! key) as [e|] eqn:He; simpl.
  - destruct (Z.ltb_spec (SimpleCache.ttlMs c)
                (clock reads - SimpleCache.timestamp e)); simpl.
    + split; [discriminate|].
      split; [intros k Hk; by apply lookup_delete_ne|]. split; [done|].
      rewrite map_size_delete_Some by (by rewrite He). lia.
    + split; [|done]. intros d [= <-]. split; [done|]. eauto.
  - split; [discriminate|]. done.
Qed.

(** X6: [getOrLoad] returns the cached value on a hit, whatever the loader
    would give, and leaves the cache as it is; on a miss it stores and
    returns what the loader gives; and when the loader fails on a miss the
    failure is thrown and nothing is stored for the key. *)
Theorem X6_getOrLoad {T : Type} (clock : nat -> Z) (key : jsstring)
    (loaded : Outcome T) (c : SimpleCache.t T) (reads : nat) :
  (forall d,
     (SimpleCache.get clock key c reads).1.1 = Some d ->
     SimpleCache.getOrLoad clock key loaded c reads
     = (Returned d, c, S reads))
  /\ (forall v,
        (SimpleCache.get clock key c reads).1.1 = None ->
        loaded = Returned v ->
        (SimpleCache.getOrLoad clock key loaded c reads).1.1 = Returned v
        /\ SimpleCache.cache
             (SimpleCache.getOrLoad clock key loaded c reads).1.2 !! key
           = Some (SimpleCache.Entry v
                     (clock (SimpleCache.get clock key c reads).2)))
  /\ (forall e,
        (SimpleCache.get clock key c reads).1.1 = None ->
        loaded = Thrown e ->
        (SimpleCache.getOrLoad clock key loaded c reads).1.1 = Thrown e
        /\ SimpleCache.cache
             (SimpleCache.getOrLoad clock key loaded c reads).1.2 !! key
           = None).
Proof.
  unfold SimpleCache.getOrLoad.
  unfold SimpleCache.get.
  destruct (SimpleCache.cache c !! key) as [e|] eqn:He; simpl.
  - destruct (SimpleCache.ttlMs c <? clock reads - SimpleCache.timestamp e)%Z;
      simpl.
    + split; [discriminate|]. split.
      * intros v _ ->. simpl. by rewrite lookup_insert_eq.
      * intros err _ ->. simpl. by rewrite lookup_delete_eq.
    + split; [by intros d [= <-]|]. split; discriminate.
  - split; [discriminate|]. split.
    + intros v _ ->. simpl. by rewrite lookup_insert_eq.
    + intros err _ ->. by simpl.
Qed.

(** ** The envelope parser *)

Section ParserShape.
Variable rt : Runtime.

Lemma locateOrdPush_Some (d : list Chunk) (i en o : nat) :
  locateOrdPush rt d i en = Some o ->
  i < o < en
  /\ exists b, d !! o = Some (Data b) /\ toString_utf8 rt b = js "ord".
Proof.
  unfold locateOrdPush. intros ((x & Hx & Hf) & _)%findIndex_Some.
  apply andb_true_iff in Hf as [Hf Htag].
  apply andb_true_iff in Hf as [Hio Hoen].
  apply Nat.ltb_lt in Hio, Hoen. split; [lia|].
  destruct x as [n|b]; [discriminate|].
  exists b. split; [done|]. by apply bool_decide_eq_true in Htag.
Qed.

Lemma readContentType_Some (d : list Chunk) (o en k : nat) (ct : jsstring) :
  readContentType rt d o en = Some (k, ct) ->
  (k = o + 1 \/ k = o + 2) /\ k < en /\ ct <> []
  /\ exists b, d !! k = Some (Data b) /\ ct = toString_utf8 rt b.
Proof.
  unfold readContentType.
  destruct (Nat.ltb (o + 1) en
            && (is_opcode (d !! (o + 1)) OP_1 || is_opcode (d !! (o + 1)) 1)).
  - destruct (Nat.ltb (o + 2) en) eqn:Hlt; simpl; [|discriminate].
    destruct (d !! (o + 2)) as [[n|b]|] eqn:Hb; simpl; try discriminate.
    case_bool_decide as Hne; [discriminate|]. intros [= <- <-].
    apply Nat.ltb_lt in Hlt. split; [by right|]. split; [done|].
    split; [done|]. rewrite Hb. eauto.
  - destruct (Nat.ltb (o + 1) en) eqn:Hlt; simpl; [|discriminate].
    destruct (d !! (o + 1)) as [[n|b]|] eqn:Hb; simpl; try discriminate.
    case_bool_decide as Hne; [discriminate|]. intros [= <- <-].
    apply Nat.ltb_lt in Hlt. split; [by left|]. split; [done|].
    split; [done|]. rewrite Hb. eauto.
Qed.

End ParserShape.

(** X7: the shape of a script the parser accepts.  The marker [OP_FALSE
    OP_IF] is followed, not necessarily at once, by a push that decodes to
    "ord"; the content-type push is the first or the second token after it
    and its text is not empty; the separator is the token right after the
    content type and the closing [OP_ENDIF] comes later.  Hence a script of
    fewer than six tokens is never an inscription. *)
Theorem X7_shape_of_an_accepted_script (rt : Runtime) (d : list Chunk) :
  (forall f l,
     parseDecompiled rt d = (Some f, l) ->
     1 <= Frame.ifIndex f
     /\ d !! (Frame.ifIndex f - 1) = Some (Op OP_FALSE)
     /\ d !! Frame.ifIndex f = Some (Op OP_IF)
     /\ Frame.ifIndex f < Frame.ordPushIndex f
     /\ (exists b, d !! Frame.ordPushIndex f = Some (Data b)
                   /\ toString_utf8 rt b = js "ord")
     /\ (Frame.contentTypeIndex f = Frame.ordPushIndex f + 1
         \/ Frame.contentTypeIndex f = Frame.ordPushIndex f + 2)
     /\ (exists b, d !! Frame.contentTypeIndex f = Some (Data b)
                   /\ Frame.contentType f = toString_utf8 rt b)
     /\ Frame.contentType f <> []
     /\ Frame.separatorIndex f = Frame.contentTypeIndex f + 1
     /\ Frame.separatorIndex f < Frame.endifIndex f
     /\ Frame.endifIndex f < length d)
  /\ (length d < 6 -> parseDecompiled rt d = (None, [])).
Proof.
  assert (forall f l,
            parseDecompiled rt d = (Some f, l) ->
            1 <= Frame.ifIndex f
            /\ d !! (Frame.ifIndex f - 1) = Some (Op OP_FALSE)
            /\ d !! Frame.ifIndex f = Some (Op OP_IF)
            /\ Frame.ifIndex f < Frame.ordPushIndex f
            /\ (exists b, d !! Frame.ordPushIndex f = Some (Data b)
                          /\ toString_utf8 rt b = js "ord")
            /\ (Frame.contentTypeIndex f = Frame.ordPushIndex f + 1
                \/ Frame.contentTypeIndex f = Frame.ordPushIndex f + 2)
            /\ (exists b, d !! Frame.contentTypeIndex f = Some (Data b)
                          /\ Frame.contentType f = toString_utf8 rt b)
            /\ Frame.contentType f <> []
            /\ Frame.separatorIndex f = Frame.contentTypeIndex f + 1
            /\ Frame.separatorIndex f < Frame.endifIndex f
            /\ Frame.endifIndex f < length d) as Hshape.
  { intros f l (Hi & Hen & Ho & Hk & Hs & _)%parseDecompiled_Some.
    apply locateMarker_Some in Hi as (Hif & Hi0 & Hprev).
    apply findIndex_Some in Hif as ((x & Hx & Hop) & _).
    cbv beta in Hop. apply is_opcode_Some in Hop as [= ->].
    apply locateEndif_Some in Hen as (_ & Hen & _).
    apply lookup_lt_Some in Hen.
    apply locateOrdPush_Some in Ho as (Hio & Hord).
    apply readContentType_Some in Hk as (Hk & _ & Hne & Hct).
    apply locateSeparator_Some in Hs as (Hs & Hsen & _).
    repeat split; try done; lia. }
  split; [done|]. intros Hshort.
  destruct (parseDecompiled rt d) as [[f|] l] eqn:Hp.
  - destruct (Hshape f l eq_refl)
      as (? & _ & _ & ? & _ & ? & _ & _ & ? & ? & ?). lia.
  - by rewrite (parseDecompiled_None_log rt d l Hp).
Qed.

Section ParserSuffix.
Variable rt : Runtime.

Lemma findIndex_from_app {A : Type} (f : A -> nat -> bool) (l t : list A)
    (i k : nat) :
  findIndex_from f l i = Some k -> findIndex_from f (l ++ t) i = Some k.
Proof.
  revert i. induction l as [|x l IH]; intros i; simpl; [discriminate|].
  destruct (f x i); [done|]. apply IH.
Qed.

Lemma findIndex_app {A : Type} (f : A -> nat -> bool) (l t : list A) (k : nat) :
  findIndex f l = Some k -> findIndex f (l ++ t) = Some k.
Proof. apply findIndex_from_app. Qed.

Lemma tokens_between_app (d t : list Chunk) (s en : nat) :
  en <= length d -> tokens_between (d ++ t) s en = tokens_between d s en.
Proof.
  intros Hen. unfold tokens_between.
  destruct (decide (s + 1 <= length d)) as [Hs|Hs].
  - rewrite drop_app_le by done. rewrite take_app_le; [done|].
    rewrite length_drop. lia.
  - replace (en - (s + 1)) with 0 by lia. by rewrite !take_0.
Qed.

Lemma readContentType_app (d t : list Chunk) (o en : nat) :
  en < length d ->
  readContentType rt (d ++ t) o en = readContentType rt d o en.
Proof.
  intros Hen. unfold readContentType.
  destruct (Nat.ltb (o + 1) en) eqn:H1; simpl.
  - apply Nat.ltb_lt in H1. rewrite (lookup_app_l d t (o + 1)) by lia.
    destruct (Nat.ltb (o + 2) en) eqn:H2; simpl; [|done].
    apply Nat.ltb_lt in H2. by rewrite (lookup_app_l d t (o + 2)) by lia.
  - done.
Qed.

End ParserSuffix.

(** X8: what follows the closing [OP_ENDIF] is never looked at: a script
    that parses gives the same result and the same log with any tokens
    appended to it. *)
Theorem X8_tokens_after_the_envelope_are_ignored (rt : Runtime)
    (d : list Chunk) (f : Frame.t) (l : list LogEntry) (t : list Chunk) :
  parseDecompiled rt d = (Some f, l) ->
  parseDecompiled rt (d ++ t) = (Some f, l).
Proof.
  intros Hp.
  destruct (parseDecompiled_inv rt _ _ _ Hp)
    as (i & en & o & k & ct & s & Hi & Hen & Ho & Hk & Hs & -> & ->).
  pose proof (locateEndif_Some _ _ _ Hen) as (_ & Hlen & _).
  apply lookup_lt_Some in Hlen.
  pose proof (locateSeparator_Some _ _ _ _ Hs) as (-> & Hsen & _).
  rewrite <- (tokens_between_app d t (k + 1) en) by lia.
  apply parseDecompiled_complete.
  - apply locateMarker_Some in Hi as (Hif & Hi0 & Hprev).
    apply locateMarker_Some. split; [by apply findIndex_app|].
    split; [done|]. rewrite lookup_app_l; [done|].
    by apply lookup_lt_Some in Hprev.
  - by apply findIndex_app.
  - by apply findIndex_app.
  - by rewrite readContentType_app.
  - unfold locateSeparator in *. rewrite lookup_app_l by lia. done.
Qed.

Lemma X8_witness :
  (extractOrdinalContent Examples.rt
     (Examples.stray_script ++ Examples.bare_script)).1
  = (extractOrdinalContent Examples.rt Examples.stray_script).1.
Proof.
  rewrite (extractOrdinalContent_decompiled Examples.rt
             (Examples.stray_script ++ Examples.bare_script)
             ([Op 0; Op 99; Data (Reference.from_hex (js "6f7264")); Op 81;
               Data (Reference.from_hex (js "746578742f706c61696e")); Op 0;
               Data (Reference.from_hex (js "68656c6c6f")); Op 118;
               Data (Reference.from_hex (js "20776f726c64")); Op 104]
              ++ [Op 0; Op 99; Data (Reference.from_hex (js "6f7264"));
                  Data (Reference.from_hex (js "746578742f706c61696e"));
                  Op 0; Data (Reference.from_hex (js "6869")); Op 104]))
    by (by vm_compute).
  erewrite X8_tokens_after_the_envelope_are_ignored; [|by vm_compute].
  by vm_compute.
Defined.

(** ** The scanner and the transaction summary *)

Section ScannerMore.
Variable rt : Runtime.

Lemma envelopes_of_witnesses_length (input : BlockstreamTxVin.t) (i : nat)
    (ws : list jsstring) (j : nat) :
  length (envelopes_of_witnesses rt input i ws j) <= length ws.
Proof.
  revert j. induction ws as [|w ws IH]; intros j; simpl; [done|].
  rewrite length_app. specialize (IH (S j)).
  destruct (parse_witness rt w); simpl; lia.
Qed.

Lemma envelopes_of_inputs_length (ins : list BlockstreamTxVin.t) (i : nat) :
  length (envelopes_of_inputs rt ins i)
  <= sum_list
       (map (fun input => length (default [] (BlockstreamTxVin.witness input)))
          ins).
Proof.
  revert i. induction ins as [|input ins IH]; intros i; simpl; [done|].
  rewrite length_app. specialize (IH (S i)).
  pose proof (envelopes_of_witnesses_length input i
                (default [] (BlockstreamTxVin.witness input)) 0).
  unfold envelopes_of_input. lia.
Qed.

Lemma envelopes_of_witnesses_shift (input : BlockstreamTxVin.t) (n i : nat)
    (ws : list jsstring) (j : nat) :
  envelopes_of_witnesses rt input (n + i) ws j
  = map (shift_input n) (envelopes_of_witnesses rt input i ws j).
Proof.
  revert j. induction ws as [|w ws IH]; intros j; simpl; [done|].
  rewrite map_app, IH. by destruct (parse_witness rt w).
Qed.

Lemma envelopes_of_inputs_shift (ins : list BlockstreamTxVin.t) (n i : nat) :
  envelopes_of_inputs rt ins (n + i)
  = map (shift_input n) (envelopes_of_inputs rt ins i).
Proof.
  revert i. induction ins as [|input ins IH]; intros i; simpl; [done|].
  rewrite map_app. unfold envelopes_of_input.
  rewrite envelopes_of_witnesses_shift.
  replace (S (n + i)) with (n + S i) by lia. by rewrite IH.
Qed.

Lemma envelopes_of_inputs_app (a b : list BlockstreamTxVin.t) (i : nat) :
  envelopes_of_inputs rt (a ++ b) i
  = envelopes_of_inputs rt a i ++ envelopes_of_inputs rt b (length a + i).
Proof.
  revert i. induction a as [|input a IH]; intros i; simpl; [done|].
  rewrite IH, <- app_assoc. by replace (length a + S i) with (S (length a + i)) by lia.
Qed.

Lemma no_witness_items (ins : list BlockstreamTxVin.t) :
  Forall (fun input =>
            BlockstreamTxVin.witness input = None
            \/ BlockstreamTxVin.witness input = Some []) ins ->
  sum_list
    (map (fun input => length (default [] (BlockstreamTxVin.witness input)))
       ins) = 0.
Proof.
  induction 1 as [|input ins' [Hw|Hw] _ IH]; simpl; [done|..];
    rewrite Hw; simpl; exact IH.
Qed.

End ScannerMore.

(** X9: the scan returns at most one envelope per witness item, so its
    length is bounded by the number of witness items of the transaction;
    inputs without a witness array, or with an empty one, add nothing. *)
Theorem X9_scan_is_bounded_by_the_witness_items (rt : Runtime)
    (txParsed : BlockstreamTx.t) :
  length (extractAllOrdinals rt txParsed).1 <= witness_count txParsed
  /\ (Forall (fun input =>
                BlockstreamTxVin.witness input = None
                \/ BlockstreamTxVin.witness input = Some [])
        (BlockstreamTx.vin txParsed) ->
      (extractAllOrdinals rt txParsed).1 = []).
Proof.
  rewrite extractAllOrdinals_fst. split.
  - apply envelopes_of_inputs_length.
  - intros Hno.
    pose proof (envelopes_of_inputs_length rt (BlockstreamTx.vin txParsed) 0)
      as Hlen.
    rewrite (no_witness_items _ Hno) in Hlen.
    by destruct (envelopes_of_inputs rt (BlockstreamTx.vin txParsed) 0);
      [|simpl in Hlen; lia].
Qed.

(** X10: the envelopes of an input do not depend on the other inputs: the
    scan of a transaction whose inputs are [a ++ b] is the scan of the
    inputs [a] followed by the scan of the inputs [b] with every input
    index moved up by the number of inputs of [a]. *)
Theorem X10_scan_of_concatenated_inputs (rt : Runtime) (tx : BlockstreamTx.t)
    (a b : list BlockstreamTxVin.t) :
  (extractAllOrdinals rt (with_vin tx (a ++ b))).1
  = (extractAllOrdinals rt (with_vin tx a)).1
    ++ map (shift_input (length a)) (extractAllOrdinals rt (with_vin tx b)).1.
Proof.
  rewrite !extractAllOrdinals_fst. simpl.
  rewrite envelopes_of_inputs_app.
  by rewrite <- envelopes_of_inputs_shift.
Qed.

(** X11: the summary names as its inscription the first envelope of the
    scan: [ordinal] is [null] exactly when no witness item parses;
    otherwise it carries the content type and the hexadecimal content of an
    envelope that comes before every other one in input-major,
    witness-minor order.  The inputs and outputs of the summary are those
    of the transaction, one for one, with their witness arrays. *)
Theorem X11_summary_names_the_first_envelope (rt : Runtime)
    (txParsed : BlockstreamTx.t) :
  let ordinals := (extractAllOrdinals rt txParsed).1 in
  let summary := buildTransactionWithOrdinal rt txParsed ordinals in
  (TransactionWithOrdinal.ordinal summary = None <-> ordinals = [])
  /\ (forall info,
        TransactionWithOrdinal.ordinal summary = Some info ->
        exists first,
          ordinals !! 0 = Some first
          /\ info = OrdinalInfo.make true
                      (Some (ExtractedOrdinal.contentType first,
                             toString_hex rt (ExtractedOrdinal.content first)))
          /\ forall other, other ∈ ordinals ->
                           other = first \/ envelope_before first other)
  /\ map TxInput.witness (TransactionWithOrdinal.inputs summary)
     = map BlockstreamTxVin.witness (BlockstreamTx.vin txParsed)
  /\ length (TransactionWithOrdinal.outputs summary)
     = length (BlockstreamTx.vout txParsed).
Proof.
  intros ordinals summary. subst summary.
  assert (StronglySorted envelope_before ordinals) as Hsorted.
  { subst ordinals. rewrite extractAllOrdinals_fst.
    apply envelopes_of_inputs_sorted. }
  unfold buildTransactionWithOrdinal. simpl.
  destruct ordinals as [|first rest]; simpl.
  - split; [done|]. split; [discriminate|].
    split; [|by rewrite length_map].
    rewrite map_map. by apply map_ext.
  - split; [split; discriminate|]. split.
    + intros info [= <-]. exists first. split; [done|]. split; [done|].
      intros other [->|Hin]%elem_of_cons; [by left|right].
      apply StronglySorted_cons in Hsorted as [Hall _].
      rewrite Forall_forall in Hall. by apply Hall.
    + split; [|by rewrite length_map].
      rewrite map_map. by apply map_ext.
Qed.

(** ** The client's fetches *)

Section FetchFacts.
Variable rt : Runtime.
Variable env : Env.

(** What [getRawTransaction] does, by the result of its fetch. *)
Lemma getRawTransaction_run (txid : jsstring) (s : State rt) :
  exists r lg,
    getRawTransaction rt env txid s
    = (r, mkState rt (transactionCache rt s) (requestCache rt s)
            (clock_reads rt s) (requests rt s ++ [hex_url env txid])
            (disk rt s) lg)
    /\ throws_only_BitcoinError r
    /\ (forall h,
          r = Returned h <->
          raw_hex_of (http env (length (requests rt s)) (hex_url env txid))
          = Some h).
Proof.
  unfold getRawTransaction, try_catch, bind, fetch, logger, await, throw,
    ret, rethrow_as_BitcoinError, handleBlockchainError, bind, logger, ret,
    throw, raw_hex_of. simpl.
  destruct (http env _ (hex_url env txid)) as [err|res]; simpl.
  - destruct err; simpl; eexists _, _; (split; [done|]); split; try done;
      intros h; split; discriminate.
  - destruct (Response.ok res); simpl.
    + destruct (Response.text res) as [[|c t]|err]; simpl.
      * eexists _, _. split; [done|]. split; [done|].
        intros h; split; discriminate.
      * eexists _, _. split; [done|]. split; [done|].
        intros h; split; by intros [= <-].
      * destruct err; simpl; eexists _, _; (split; [done|]); split; try done;
          intros h; split; discriminate.
    + destruct (Response.text res) as [t|err]; simpl.
      * eexists _, _. split; [done|]. split; [done|].
        intros h; split; discriminate.
      * destruct err; simpl; eexists _, _; (split; [done|]); split; try done;
          intros h; split; discriminate.
Qed.

(** The miss with a transaction delivered, with the raw hex that is
    stored. *)
Lemma getTransaction_miss_ok_raw (s : State rt) (txid : jsstring)
    (includeRaw : bool) (c' : SimpleCache.t TransactionCache.t) (r' : nat)
    (tx : BlockstreamTx.t) :
  SimpleCache.get (clock env) txid (transactionCache rt s) (clock_reads rt s)
  = (None, c', r') ->
  transaction_of (http env (length (requests rt s)) (tx_url env txid))
  = Some tx ->
  exists lg,
    getTransaction rt env txid includeRaw s
    = (Returned
         (buildTransactionWithOrdinal rt tx (extractAllOrdinals rt tx).1),
       mkState rt
         (SimpleCache.make
            (<[txid := SimpleCache.Entry
                         (TransactionCache.make
                            (buildTransactionWithOrdinal rt tx
                               (extractAllOrdinals rt tx).1)
                            (extractAllOrdinals rt tx).1
                            (if includeRaw
                             then raw_hex_of
                                    (http env (S (length (requests rt s)))
                                       (hex_url env txid))
                             else None))
                         (clock env r')]> (SimpleCache.cache c'))
            (SimpleCache.ttlMs c'))
         (({[txid]} ∪ requestCache rt s) ∖ {[txid]}) (S r')
         (requests rt s
          ++ tx_url env txid :: (if includeRaw then [hex_url env txid] else []))
         (disk rt s) lg).
Proof.
  intros Hget Hok.
  unfold getTransaction, try_catch, try_finally, bind, logger,
    transactionCache_get, requestCache_add, requestCache_delete, fetchAndScan,
    fetch, bind, ret. simpl.
  rewrite Hget. simpl.
  unfold transaction_of in Hok.
  destruct (http env (length (requests rt s)) (tx_url env txid))
    as [err|res]; [discriminate|]. simpl.
  destruct (Response.ok res); [|discriminate]. simpl.
  destruct (Response.json res) as [tx'|err]; [|discriminate].
  injection Hok as ->. simpl.
  destruct includeRaw; simpl; [|eauto].
  unfold getRawTransaction, try_catch, bind, fetch, logger, await, throw,
    ret, rethrow_as_BitcoinError, handleBlockchainError, bind, logger, ret,
    throw, raw_hex_of. simpl.
  rewrite length_app. simpl length.
  replace (length (requests rt s) + 1) with (S (length (requests rt s)))
    by lia.
  destruct (http env _ (hex_url env txid)) as [err|res']; simpl.
  - destruct err; simpl; rewrite <- app_assoc; simpl; eauto.
  - destruct (Response.ok res'); simpl.
    + destruct (Response.text res') as [[|c t]|err]; simpl.
      * rewrite <- app_assoc; simpl; eauto.
      * rewrite <- app_assoc; simpl; eauto.
      * destruct err; simpl; rewrite <- app_assoc; simpl; eauto.
    + destruct (Response.text res') as [t|err]; simpl.
      * rewrite <- app_assoc; simpl; eauto.
      * destruct err; simpl; rewrite <- app_assoc; simpl; eauto.
Qed.

Lemma requestCache_unmarked (txid : jsstring) (rc : gset jsstring) :
  ({[txid]} ∪ rc) ∖ {[txid]} = rc ∖ {[txid]}.
Proof.
  apply set_eq. intros x.
  rewrite !elem_of_difference, elem_of_union, elem_of_singleton. tauto.
Qed.

End FetchFacts.

(** X12: [getRawTransaction] makes exactly one request, to the hex URL of
    the transaction, and touches neither the cache nor the file system; it
    returns the body exactly when the response is ok and its text is not
    empty, and what it throws otherwise is a [BitcoinError]. *)
Theorem X12_getRawTransaction_outcome (rt : Runtime) (env : Env)
    (txid : jsstring) (s : State rt) :
  requests rt (getRawTransaction rt env txid s).2
  = requests rt s ++ [hex_url env txid]
  /\ transactionCache rt (getRawTransaction rt env txid s).2
     = transactionCache rt s
  /\ requestCache rt (getRawTransaction rt env txid s).2 = requestCache rt s
  /\ clock_reads rt (getRawTransaction rt env txid s).2 = clock_reads rt s
  /\ disk rt (getRawTransaction rt env txid s).2 = disk rt s
  /\ throws_only_BitcoinError (getRawTransaction rt env txid s).1
  /\ (forall h,
        (getRawTransaction rt env txid s).1 = Returned h <->
        raw_hex_of (http env (length (requests rt s)) (hex_url env txid))
        = Some h).
Proof.
  destruct (getRawTransaction_run rt env txid s) as (r & lg & -> & Hb & Hr).
  simpl. done.
Qed.

(** X13: whatever happens, [getTransaction] leaves the file system alone,
    leaves the entry of every other key as it was, and throws nothing but
    a [BitcoinError]; the mark it puts on the key while it fetches is gone
    when it returns or throws, and a call answered from the cache does not
    touch the marks. *)
Theorem X13_getTransaction_cleans_up (rt : Runtime) (env : Env)
    (txid : jsstring) (includeRaw : bool) (s : State rt) :
  throws_only_BitcoinError (getTransaction rt env txid includeRaw s).1
  /\ disk rt (getTransaction rt env txid includeRaw s).2 = disk rt s
  /\ (forall k, k <> txid ->
        SimpleCache.cache
          (transactionCache rt (getTransaction rt env txid includeRaw s).2)
        !! k
        = SimpleCache.cache (transactionCache rt s) !! k)
  /\ (misses rt env s txid ->
      requestCache rt (getTransaction rt env txid includeRaw s).2
      = requestCache rt s ∖ {[txid]})
  /\ (~ misses rt env s txid ->
      requestCache rt (getTransaction rt env txid includeRaw s).2
      = requestCache rt s).
Proof.
  destruct (misses_or_hits rt env s txid) as [Hmiss|(e & He & Hfresh)].
  - destruct (lookup_miss rt env s txid Hmiss)
      as (c' & r' & Hget & _ & _ & Hcache & _).
    destruct (transaction_of
                (http env (length (requests rt s)) (tx_url env txid)))
      as [tx|] eqn:Htx.
    + destruct (getTransaction_miss_ok rt env s txid includeRaw c' r' tx
                  Hget Htx) as (rawHex & lg & ->). simpl.
      split; [done|]. split; [done|]. split.
      { intros k Hk. rewrite lookup_insert_ne by done.
        rewrite Hcache. by apply lookup_delete_ne. }
      split; [intros _; apply requestCache_unmarked|]. by intros [].
    + destruct (getTransaction_miss_fail rt env s txid includeRaw c' r'
                  Hget Htx) as (msg & code & lg & ->). simpl.
      split; [done|]. split; [done|]. split.
      { intros k Hk. rewrite Hcache. by apply lookup_delete_ne. }
      split; [intros _; apply requestCache_unmarked|]. by intros [].
  - rewrite (getTransaction_hit rt env s txid includeRaw e He Hfresh). simpl.
    split; [done|]. split; [done|]. split; [done|].
    split; [|done]. intros Hmiss. unfold misses in Hmiss.
    by rewrite He in Hmiss.
Qed.

(** X14: a failure of the raw-hex request does not fail the call: after a
    miss for which the transaction is delivered, [getTransaction] returns
    the summary whatever the hex endpoint answers, and stores with it the
    raw hex when [includeRaw] is set and the hex endpoint delivers one, and
    no raw hex otherwise; without [includeRaw] the hex URL is not
    requested. *)
Theorem X14_raw_hex_is_optional (rt : Runtime) (env : Env) (txid : jsstring)
    (includeRaw : bool) (s : State rt) (tx : BlockstreamTx.t) :
  misses rt env s txid ->
  transaction_of (http env (length (requests rt s)) (tx_url env txid))
  = Some tx ->
  (getTransaction rt env txid includeRaw s).1
  = Returned (buildTransactionWithOrdinal rt tx (extractAllOrdinals rt tx).1)
  /\ (exists e,
        SimpleCache.cache
          (transactionCache rt (getTransaction rt env txid includeRaw s).2)
        !! txid = Some e
        /\ TransactionCache.rawHex (SimpleCache.data e)
           = (if includeRaw
              then raw_hex_of
                     (http env (S (length (requests rt s))) (hex_url env txid))
              else None))
  /\ requests rt (getTransaction rt env txid includeRaw s).2
     = requests rt s
       ++ tx_url env txid :: (if includeRaw then [hex_url env txid] else []).
Proof.
  intros (c' & r' & Hget & _)%lookup_miss Htx.
  destruct (getTransaction_miss_ok_raw rt env s txid includeRaw c' r' tx
              Hget Htx) as (lg & ->). simpl.
  split; [done|]. split; [|done].
  eexists. split; [apply lookup_insert_eq|]. done.
Qed.

Lemma X14_witness :
  (exists info,
     (getTransaction Examples.rt
        (Examples.serving (Examples.tx_with [Examples.stray_witness]))
        Examples.txid1 true (Examples.fresh_client true)).1
     = Returned info)
  /\ requests Examples.rt
       (getTransaction Examples.rt
          (Examples.serving (Examples.tx_with [Examples.stray_witness]))
          Examples.txid1 true (Examples.fresh_client true)).2
     = [js "https://blockstream.info/api/tx/aa11";
        js "https://blockstream.info/api/tx/aa11/hex"].
Proof.
  destruct (X14_raw_hex_is_optional Examples.rt
              (Examples.serving (Examples.tx_with [Examples.stray_witness]))
              Examples.txid1 true (Examples.fresh_client true)
              (Examples.tx_with [Examples.stray_witness]))
    as (Hr & _ & Hreq).
  - by vm_compute.
  - by vm_compute.
  - split; [by eexists|]. rewrite Hreq. by vm_compute.
Defined.

(** ** The formatter and the file system *)

Ltac frame_goal :=
  repeat split; simpl;
  eexists; rewrite <- ?app_assoc;
  first [reflexivity | symmetry; apply app_nil_r].

Section FormatterMore.
Variable rt : Runtime.
Variable env : Env.

Lemma only_disk_and_log_refl (s : State rt) : only_disk_and_log rt s s.
Proof. repeat split. exists []. by rewrite app_nil_r. Qed.

Lemma only_disk_and_log_trans (s1 s2 s3 : State rt) :
  only_disk_and_log rt s1 s2 -> only_disk_and_log rt s2 s3 ->
  only_disk_and_log rt s1 s3.
Proof.
  intros (Ha & Hb & Hc & Hd & l1 & Hl1) (Ha' & Hb' & Hc' & Hd' & l2 & Hl2).
  repeat split; try congruence.
  exists (l1 ++ l2). rewrite Hl2, Hl1. by rewrite app_assoc.
Qed.

Lemma saveImage_frame (contentType : jsstring) (contentBuffer : Buffer)
    (txid : jsstring) (index : nat) (s : State rt) :
  only_disk_and_log rt s
    (saveImage rt env contentType contentBuffer txid index s).2.
Proof.
  unfold only_disk_and_log, saveImage, bind, try_catch, existsSync, mkdirSync,
    writeFileSync, logger, ret, throw, bind. simpl.
  destruct (fs_existsSync rt (disk rt s) (imageTempDir env)); simpl.
  - destruct (fs_existsSync rt (disk rt s) _); simpl.
    + frame_goal.
    + destruct (fs_writeFileSync rt (disk rt s) _ contentBuffer)
        as [[[]|e] d]; simpl; frame_goal.
  - destruct (fs_mkdirSync rt (disk rt s) (imageTempDir env))
      as [[[]|e] d]; simpl; [|frame_goal].
    destruct (fs_existsSync rt d _); simpl.
    + frame_goal.
    + destruct (fs_writeFileSync rt d _ contentBuffer)
        as [[[]|e] d']; simpl; frame_goal.
Qed.

(** What [saveImage] returns is the formatted path of the image file. *)
Lemma saveImage_result (contentType : jsstring) (contentBuffer : Buffer)
    (txid : jsstring) (index : nat) (s : State rt) (p : jsstring) :
  (saveImage rt env contentType contentBuffer txid index s).1 = Returned p ->
  p = formattedImagePath rt env contentType txid index.
Proof.
  unfold saveImage, bind, try_catch, existsSync, mkdirSync,
    writeFileSync, logger, ret, throw, bind, formattedImagePath,
    imageFilePath. simpl.
  destruct (fs_existsSync rt (disk rt s) (imageTempDir env)); simpl.
  - destruct (fs_existsSync rt (disk rt s) _); simpl.
    + by intros [= <-].
    + destruct (fs_writeFileSync rt (disk rt s) _ contentBuffer)
        as [[[]|e] d]; simpl; [by intros [= <-]|discriminate].
  - destruct (fs_mkdirSync rt (disk rt s) (imageTempDir env))
      as [[[]|e] d]; simpl; [|discriminate].
    destruct (fs_existsSync rt d _); simpl.
    + by intros [= <-].
    + destruct (fs_writeFileSync rt d _ contentBuffer)
        as [[[]|e] d']; simpl; [by intros [= <-]|discriminate].
Qed.

(** With the directory and the file in place nothing is written. *)
Lemma saveImage_existing (contentType : jsstring) (contentBuffer : Buffer)
    (txid : jsstring) (index : nat) (s : State rt) :
  fs_existsSync rt (disk rt s) (imageTempDir env) = true ->
  fs_existsSync rt (disk rt s) (imageFilePath rt env contentType txid index)
  = true ->
  (saveImage rt env contentType contentBuffer txid index s).1
  = Returned (formattedImagePath rt env contentType txid index)
  /\ disk rt (saveImage rt env contentType contentBuffer txid index s).2
     = disk rt s.
Proof.
  unfold saveImage, bind, try_catch, existsSync, mkdirSync,
    writeFileSync, logger, ret, throw, bind, formattedImagePath,
    imageFilePath.
  intros Hd Hf. simpl in Hf |- *. rewrite Hd. simpl. rewrite Hf. by simpl.
Qed.

(** A failed write makes [saveImage] throw. *)
Lemma saveImage_write_fails (contentType : jsstring) (contentBuffer : Buffer)
    (txid : jsstring) (index : nat) (s : State rt) (e : JsError)
    (d : FileSystem rt) :
  fs_existsSync rt (disk rt s) (imageTempDir env) = true ->
  fs_existsSync rt (disk rt s) (imageFilePath rt env contentType txid index)
  = false ->
  fs_writeFileSync rt (disk rt s)
    (imageFilePath rt env contentType txid index) contentBuffer
  = (Thrown e, d) ->
  (saveImage rt env contentType contentBuffer txid index s).1 = Thrown e.
Proof.
  unfold saveImage, bind, try_catch, existsSync, mkdirSync,
    writeFileSync, logger, ret, throw, bind, formattedImagePath,
    imageFilePath.
  intros Hd Hf Hw. simpl in Hf, Hw |- *. rewrite Hd. simpl. rewrite Hf. simpl.
  by rewrite Hw.
Qed.

Lemma formatInscriptionContent_frame (contentType : jsstring)
    (contentBuffer : Buffer) (opt : FormatImageOption)
    (txid : option jsstring) (index : nat) (s : State rt) :
  only_disk_and_log rt s
    (formatInscriptionContent rt env contentType contentBuffer opt txid index
       s).2.
Proof.
  unfold formatInscriptionContent, try_catch at 1.
  destruct (startsWith contentType (js "image/")).
  - destruct opt, txid as [[|c t]|];
      try (unfold ret; simpl; apply only_disk_and_log_refl).
    unfold bind at 1.
    pose proof (saveImage_frame contentType contentBuffer (c :: t) index s)
      as Hf.
    destruct (saveImage rt env contentType contentBuffer (c :: t) index s)
      as [[p|e] s1]; simpl in Hf |- *; [done|].
    eapply only_disk_and_log_trans; [exact Hf|].
    unfold only_disk_and_log. simpl. frame_goal.
  - destruct (str_eqb contentType (js "application/json")).
    + unfold try_catch, bind, await, logger, ret. simpl.
      destruct (JSON_parse rt (toString_utf8 rt contentBuffer)); simpl;
        unfold only_disk_and_log; simpl; frame_goal.
    + destruct (startsWith contentType (js "text/")); unfold ret; simpl;
        apply only_disk_and_log_refl.
Qed.

(** Only an image, asked for as a file and with a transaction id that is
    not empty, reaches the file system. *)
Lemma formatInscriptionContent_disk (contentType : jsstring)
    (contentBuffer : Buffer) (opt : FormatImageOption)
    (txid : option jsstring) (index : nat) (s : State rt) :
  startsWith contentType (js "image/") = false \/ opt = base64
  \/ txid = None \/ txid = Some [] ->
  disk rt
    (formatInscriptionContent rt env contentType contentBuffer opt txid index
       s).2
  = disk rt s.
Proof.
  intros H.
  unfold formatInscriptionContent, try_catch at 1.
  destruct (startsWith contentType (js "image/")).
  - destruct opt, txid as [[|c t]|]; try done.
    by destruct H as [|[|[|]]].
  - destruct (str_eqb contentType (js "application/json")).
    + unfold try_catch, bind, await, logger, ret. simpl.
      by destruct (JSON_parse rt (toString_utf8 rt contentBuffer)).
    + by destruct (startsWith contentType (js "text/")).
Qed.

Lemma saveImage_disk_only (contentType : jsstring) (contentBuffer : Buffer)
    (txid : jsstring) (index : nat) (s s' : State rt) :
  disk rt s' = disk rt s ->
  (saveImage rt env contentType contentBuffer txid index s').1
  = (saveImage rt env contentType contentBuffer txid index s).1
  /\ disk rt (saveImage rt env contentType contentBuffer txid index s').2
     = disk rt (saveImage rt env contentType contentBuffer txid index s).2.
Proof.
  intros Hd.
  unfold saveImage, bind, try_catch, existsSync, mkdirSync,
    writeFileSync, logger, ret, throw, bind. simpl. rewrite Hd.
  destruct (fs_existsSync rt (disk rt s) (imageTempDir env)); simpl;
    rewrite ?Hd.
  - destruct (fs_existsSync rt (disk rt s) _); simpl; [done|]. rewrite Hd.
    by destruct (fs_writeFileSync rt (disk rt s) _ contentBuffer)
      as [[[]|e] d].
  - destruct (fs_mkdirSync rt (disk rt s) (imageTempDir env))
      as [[[]|e] d]; simpl; [|done].
    destruct (fs_existsSync rt d _); simpl; [done|].
    by destruct (fs_writeFileSync rt d _ contentBuffer) as [[[]|e] d'].
Qed.

(** The formatter reads nothing of the client's state but the file
    system. *)
Lemma formatInscriptionContent_disk_only (contentType : jsstring)
    (contentBuffer : Buffer) (opt : FormatImageOption)
    (txid : option jsstring) (index : nat) (s s' : State rt) :
  disk rt s' = disk rt s ->
  (formatInscriptionContent rt env contentType contentBuffer opt txid index
     s').1
  = (formatInscriptionContent rt env contentType contentBuffer opt txid index
       s).1
  /\ disk rt
       (formatInscriptionContent rt env contentType contentBuffer opt txid
          index s').2
     = disk rt
         (formatInscriptionContent rt env contentType contentBuffer opt txid
            index s).2.
Proof.
  intros Hd.
  unfold formatInscriptionContent, try_catch.
  destruct (startsWith contentType (js "image/")).
  - destruct opt, txid as [[|c t]|]; try done.
    unfold bind, logger, ret.
    destruct (saveImage_disk_only contentType contentBuffer (c :: t) index
                s s' Hd) as [H1 H2].
    destruct (saveImage rt env contentType contentBuffer (c :: t) index s)
      as [[p|e] s1],
      (saveImage rt env contentType contentBuffer (c :: t) index s')
      as [[p'|e'] s1']; simpl in H1, H2 |- *; by simplify_eq.
  - destruct (str_eqb contentType (js "application/json")).
    + unfold try_catch, bind, await, logger, ret. simpl.
      by destruct (JSON_parse rt (toString_utf8 rt contentBuffer)).
    + by destruct (startsWith contentType (js "text/")).
Qed.

Lemma formatAll_disk_only (opt : FormatImageOption) (txid : jsstring)
    (ordinals : list ExtractedOrdinal.t) (i : nat) (s s' : State rt) :
  disk rt s' = disk rt s ->
  (formatAll rt env opt txid ordinals i s').1
  = (formatAll rt env opt txid ordinals i s).1
  /\ disk rt (formatAll rt env opt txid ordinals i s').2
     = disk rt (formatAll rt env opt txid ordinals i s).2.
Proof.
  revert i s s'. induction ordinals as [|o os IH]; intros i s s' Hd; simpl;
    [done|].
  destruct (formatInscriptionContent_disk_only
              (ExtractedOrdinal.contentType o) (ExtractedOrdinal.content o)
              opt (Some txid) i s s' Hd) as [H1 H2].
  destruct (formatInscriptionContent rt env _ _ opt (Some txid) i s)
    as [r s1],
    (formatInscriptionContent rt env _ _ opt (Some txid) i s') as [r' s1'].
  simpl in H1, H2. subst r'.
  destruct (IH (S i) s1 s1' H2) as [H3 H4].
  destruct (formatAll rt env opt txid os (S i) s1) as [rs s2],
    (formatAll rt env opt txid os (S i) s1') as [rs' s2'].
  simpl in H3, H4 |- *. by subst.
Qed.

Lemma formatAll_frame (opt : FormatImageOption) (txid : jsstring)
    (ordinals : list ExtractedOrdinal.t) (i : nat) (s : State rt) :
  only_disk_and_log rt s (formatAll rt env opt txid ordinals i s).2.
Proof.
  revert i s. induction ordinals as [|o os IH]; intros i s; simpl;
    [apply only_disk_and_log_refl|].
  pose proof (formatInscriptionContent_frame (ExtractedOrdinal.contentType o)
                (ExtractedOrdinal.content o) opt (Some txid) i s) as H1.
  destruct (formatInscriptionContent rt env _ _ opt (Some txid) i s)
    as [r s1].
  specialize (IH (S i) s1).
  destruct (formatAll rt env opt txid os (S i) s1) as [rs s2].
  simpl in *. by eapply only_disk_and_log_trans.
Qed.

(** No file is written for a list without an image, or when images are
    asked for as data URIs. *)
Lemma formatAll_disk (opt : FormatImageOption) (txid : jsstring)
    (ordinals : list ExtractedOrdinal.t) (i : nat) (s : State rt) :
  opt = base64 \/ txid = [] \/ Forall (fun o => is_image o = false) ordinals ->
  disk rt (formatAll rt env opt txid ordinals i s).2 = disk rt s.
Proof.
  intros H. revert i s. induction ordinals as [|o os IH]; intros i s; simpl;
    [done|].
  assert (disk rt
            (formatInscriptionContent rt env (ExtractedOrdinal.contentType o)
               (ExtractedOrdinal.content o) opt (Some txid) i s).2
          = disk rt s) as H1.
  { apply formatInscriptionContent_disk.
    destruct H as [->|[->|Hall]]; [by right; left|by right; right; right|].
    left. by inversion Hall. }
  destruct (formatInscriptionContent rt env _ _ opt (Some txid) i s)
    as [r s1].
  assert (opt = base64 \/ txid = []
          \/ Forall (fun o => is_image o = false) os) as H'.
  { destruct H as [->|[->|Hall]]; [by left|by right; left|].
    right; right. by inversion Hall. }
  specialize (IH H' (S i) s1).
  destruct (formatAll rt env opt txid os (S i) s1) as [rs s2].
  simpl in *. congruence.
Qed.

Lemma replace_backslashes_clean (p : jsstring) :
  92%N ∉ replace_backslashes p.
Proof.
  unfold replace_backslashes. rewrite list_elem_of_In, in_map_iff.
  intros (c & Hc & _). by destruct (N.eqb_spec c 92).
Qed.

Lemma drop_slashes_subseteq (p : jsstring) : drop_slashes p ⊆ p.
Proof.
  induction p as [|c p IH]; simpl; [done|].
  destruct (c =? 47)%N; [|done].
  intros x Hx. right. by apply IH.
Qed.

Lemma strip_file_prefix_subseteq (p : jsstring) : strip_file_prefix p ⊆ p.
Proof.
  unfold strip_file_prefix. destruct (startsWith p (js "file://")); [|done].
  etransitivity; [apply drop_slashes_subseteq|apply subseteq_drop].
Qed.

Lemma formattedImagePath_clean (contentType txid : jsstring) (index : nat) :
  92%N ∉ formattedImagePath rt env contentType txid index.
Proof.
  unfold formattedImagePath. intros H%strip_file_prefix_subseteq.
  by apply replace_backslashes_clean in H.
Qed.

(** What the formatter gives for an image that is to be kept in a file. *)
Lemma formatInscriptionContent_file (contentType : jsstring)
    (contentBuffer : Buffer) (c : N) (t : jsstring) (index : nat)
    (s : State rt) :
  startsWith contentType (js "image/") = true ->
  (formatInscriptionContent rt env contentType contentBuffer file
     (Some (c :: t)) index s).1
  = match (saveImage rt env contentType contentBuffer (c :: t) index s).1 with
    | Returned p => Returned (Some p)
    | Thrown _ => Returned None
    end
  /\ disk rt
       (formatInscriptionContent rt env contentType contentBuffer file
          (Some (c :: t)) index s).2
     = disk rt (saveImage rt env contentType contentBuffer (c :: t) index s).2.
Proof.
  intros Hi. unfold formatInscriptionContent. rewrite Hi.
  unfold try_catch, bind.
  destruct (saveImage rt env contentType contentBuffer (c :: t) index s)
    as [[p|e] s1]; unfold logger, ret; by simpl.
Qed.

End FormatterMore.

(** X15: the formatter reads nothing of the client's state but the file
    system and changes nothing of it but the file system and the log, to
    which it only adds; it leaves the file system as it is unless the
    content is an image, asked for as a file, with a transaction id that is
    not empty. *)
Theorem X15_formatter_and_the_file_system (rt : Runtime) (env : Env)
    (contentType : jsstring) (contentBuffer : Buffer)
    (formatImageOption : FormatImageOption) (txid : option jsstring)
    (index : nat) (s : State rt) :
  only_disk_and_log rt s
    (formatInscriptionContent rt env contentType contentBuffer
       formatImageOption txid index s).2
  /\ (startsWith contentType (js "image/") = false
      \/ formatImageOption = base64 \/ txid = None \/ txid = Some [] ->
      disk rt
        (formatInscriptionContent rt env contentType contentBuffer
           formatImageOption txid index s).2
      = disk rt s)
  /\ (forall s' : State rt,
        disk rt s' = disk rt s ->
        (formatInscriptionContent rt env contentType contentBuffer
           formatImageOption txid index s').1
        = (formatInscriptionContent rt env contentType contentBuffer
             formatImageOption txid index s).1).
Proof.
  split; [apply formatInscriptionContent_frame|].
  split; [apply formatInscriptionContent_disk|].
  intros s' Hd. by apply formatInscriptionContent_disk_only.
Qed.

(** X16: for an image asked for as a file, with a transaction id that is
    not empty, the formatter returns either [null] or the path of the file
    [<txid>_<index><extension>] under the image directory, resolved, with
    every backslash replaced and a leading [file://] removed, so that the
    path holds no backslash.  When the directory and the file exist the
    path is returned and nothing is written; when the directory exists,
    the file does not and the write fails, the result is [null]. *)
Theorem X16_image_kept_in_a_file (rt : Runtime) (env : Env)
    (contentType : jsstring) (contentBuffer : Buffer) (c : N) (t : jsstring)
    (index : nat) (s : State rt) :
  startsWith contentType (js "image/") = true ->
  (forall r,
     (formatInscriptionContent rt env contentType contentBuffer file
        (Some (c :: t)) index s).1 = Returned r ->
     r = None
     \/ r = Some (formattedImagePath rt env contentType (c :: t) index))
  /\ (92%N ∉ formattedImagePath rt env contentType (c :: t) index)
  /\ (fs_existsSync rt (disk rt s) (imageTempDir env) = true ->
      fs_existsSync rt (disk rt s)
        (imageFilePath rt env contentType (c :: t) index) = true ->
      (formatInscriptionContent rt env contentType contentBuffer file
         (Some (c :: t)) index s).1
      = Returned (Some (formattedImagePath rt env contentType (c :: t) index))
      /\ disk rt
           (formatInscriptionContent rt env contentType contentBuffer file
              (Some (c :: t)) index s).2
         = disk rt s)
  /\ (forall e d,
        fs_existsSync rt (disk rt s) (imageTempDir env) = true ->
        fs_existsSync rt (disk rt s)
          (imageFilePath rt env contentType (c :: t) index) = false ->
        fs_writeFileSync rt (disk rt s)
          (imageFilePath rt env contentType (c :: t) index) contentBuffer
        = (Thrown e, d) ->
        (formatInscriptionContent rt env contentType contentBuffer file
           (Some (c :: t)) index s).1
        = Returned None).
Proof.
  intros Hi.
  destruct (formatInscriptionContent_file rt env contentType contentBuffer c t
              index s Hi) as [Hr Hd].
  rewrite Hr, Hd. split; [|split; [apply formattedImagePath_clean|split]].
  - intros r.
    pose proof (saveImage_result rt env contentType contentBuffer (c :: t)
                  index s) as Hp.
    destruct (saveImage rt env contentType contentBuffer (c :: t) index s).1
      as [p|e]; intros [= <-]; [right|by left].
    by rewrite (Hp p eq_refl).
  - intros Hdir Hfile.
    destruct (saveImage_existing rt env contentType contentBuffer (c :: t)
                index s Hdir Hfile) as [-> ->]. done.
  - intros e d Hdir Hfile Hw.
    by rewrite (saveImage_write_fails rt env contentType contentBuffer
                  (c :: t) index s e d Hdir Hfile Hw).
Qed.

Lemma X16_witness :
  (formatInscriptionContent Examples.rt Examples.offline (js "image/png")
     (Reference.from_hex (js "89504e47")) file (Some Examples.txid1) 3
     (Examples.fresh_client true)).1
  = Returned (Some (js "/cache/aa11_3.png"))
  /\ (92%N ∉ js "/cache/aa11_3.png").
Proof.
  destruct (X16_image_kept_in_a_file Examples.rt Examples.offline
              (js "image/png") (Reference.from_hex (js "89504e47"))
              97%N (js "a11") 3 (Examples.fresh_client true))
    as (_ & Hclean & _).
  - by vm_compute.
  - split; [by vm_compute|].
    replace (js "/cache/aa11_3.png")
      with (formattedImagePath Examples.rt Examples.offline (js "image/png")
              (97%N :: js "a11") 3) by (by vm_compute).
    exact Hclean.
Defined.

(** ** From the fetch to the decoded contents *)

Section DecodeMore.
Variable rt : Runtime.
Variable env : Env.

Lemma cachedOrdinals_hit (s : State rt) (txid : jsstring)
    (e : SimpleCache.CacheEntry TransactionCache.t) :
  SimpleCache.cache (transactionCache rt s) !! txid = Some e ->
  ~ expired rt env s e ->
  cachedOrdinals rt env txid s
  = (Returned (TransactionCache.extractedOrdinals (SimpleCache.data e)),
     mkState rt (transactionCache rt s) (requestCache rt s)
       (S (clock_reads rt s)) (requests rt s) (disk rt s)
       (log rt s ++ [(debug, Using_cached_ordinals txid)])).
Proof.
  intros He Hfresh. unfold expired in Hfresh. apply Z.ltb_nlt in Hfresh.
  unfold cachedOrdinals, bind, logger, transactionCache_get, SimpleCache.get,
    ret. simpl.
  rewrite He, Hfresh. by simpl.
Qed.

(** The lookup that follows a fetch finds the entry that was stored, unless
    the clock has moved by more than the TTL in between. *)
Lemma cachedOrdinals_miss_ok (s : State rt) (txid : jsstring)
    (tx : BlockstreamTx.t) :
  misses rt env s txid ->
  transaction_of (http env (length (requests rt s)) (tx_url env txid))
  = Some tx ->
  exists s',
    cachedOrdinals rt env txid s
    = (Returned
         (if (SimpleCache.ttlMs (transactionCache rt s)
              <? clock env (S (reads_after_lookup rt env s txid))
                 - clock env (reads_after_lookup rt env s txid))%Z
          then []
          else (extractAllOrdinals rt tx).1),
       s')
    /\ disk rt s' = disk rt s
    /\ requests rt s' = requests rt s ++ [tx_url env txid].
Proof.
  intros Hmiss Htx.
  destruct (lookup_miss rt env s txid Hmiss)
    as (c' & r' & Hget & Hnone & Httl & _ & _).
  unfold reads_after_lookup. rewrite Hget. cbn [snd].
  unfold cachedOrdinals, bind at 1, transactionCache_get at 1.
  rewrite Hget. unfold bind at 1.
  destruct (getTransaction_miss_ok_raw rt env
              (mkState rt c' (requestCache rt s) r' (requests rt s)
                 (disk rt s) (log rt s))
              txid false c' r' tx) as (lg & Hrun).
  { simpl. unfold SimpleCache.get. by rewrite Hnone. }
  { done. }
  rewrite Hrun.
  unfold bind, transactionCache_get, SimpleCache.get. simpl.
  rewrite lookup_insert_eq. simpl. rewrite Httl.
  destruct (SimpleCache.ttlMs (transactionCache rt s)
            <? clock env (S r') - clock env r')%Z;
    unfold logger, ret; simpl; eauto.
Qed.

Lemma cachedOrdinals_miss_fail (s : State rt) (txid : jsstring) :
  misses rt env s txid ->
  transaction_of (http env (length (requests rt s)) (tx_url env txid))
  = None ->
  exists msg code s',
    cachedOrdinals rt env txid s = (Thrown (BitcoinError msg code), s')
    /\ disk rt s' = disk rt s
    /\ requests rt s' = requests rt s ++ [tx_url env txid].
Proof.
  intros Hmiss Htx.
  destruct (lookup_miss rt env s txid Hmiss)
    as (c' & r' & Hget & Hnone & Httl & _ & _).
  unfold cachedOrdinals, bind at 1, transactionCache_get at 1.
  rewrite Hget. unfold bind at 1.
  destruct (getTransaction_miss_fail rt env
              (mkState rt c' (requestCache rt s) r' (requests rt s)
                 (disk rt s) (log rt s))
              txid false c' r') as (msg & code & lg & Hrun).
  { simpl. unfold SimpleCache.get. by rewrite Hnone. }
  { done. }
  rewrite Hrun. eauto 10.
Qed.

Lemma cachedOrdinals_effects (s : State rt) (txid : jsstring) :
  throws_only_BitcoinError (cachedOrdinals rt env txid s).1
  /\ disk rt (cachedOrdinals rt env txid s).2 = disk rt s
  /\ (requests rt (cachedOrdinals rt env txid s).2 = requests rt s
      \/ requests rt (cachedOrdinals rt env txid s).2
         = requests rt s ++ [tx_url env txid]).
Proof.
  destruct (misses_or_hits rt env s txid) as [Hmiss|(e & He & Hfresh)].
  - destruct (transaction_of
                (http env (length (requests rt s)) (tx_url env txid)))
      as [tx|] eqn:Htx.
    + destruct (cachedOrdinals_miss_ok s txid tx Hmiss Htx)
        as (s' & -> & Hd & Hr). simpl. auto.
    + destruct (cachedOrdinals_miss_fail s txid Hmiss Htx)
        as (msg & code & s' & -> & Hd & Hr). simpl. auto.
  - rewrite (cachedOrdinals_hit s txid e He Hfresh). simpl. auto.
Qed.

(** [decodeWitness] once its inscriptions are at hand. *)
Lemma decodeWitness_run (s : State rt) (txid : jsstring)
    (opt : FormatImageOption) (ordinals : list ExtractedOrdinal.t)
    (s1 : State rt) :
  cachedOrdinals rt env txid (logger rt debug (Decoding_witness txid) s).2
  = (Returned ordinals, s1) ->
  exists s',
    decodeWitness rt env txid opt s
    = (Returned (omap non_empty (formatAll rt env opt txid ordinals 0 s1).1),
       s')
    /\ requests rt s' = requests rt s1
    /\ disk rt s' = disk rt (formatAll rt env opt txid ordinals 0 s1).2.
Proof.
  intros Hc.
  unfold decodeWitness, try_catch, bind at 1. cbn [logger].
  unfold logger at 1 in Hc. cbn [snd] in Hc.
  unfold bind at 1. rewrite Hc.
  destruct ordinals as [|o os].
  - unfold bind, logger, ret. simpl. eauto.
  - unfold bind at 1. rewrite forEachM_formatEach.
    unfold bind, logger, ret. simpl.
    destruct (formatAll_frame rt env opt txid (o :: os) 0 s1)
      as (_ & _ & _ & Hreq & _). eauto.
Qed.

Lemma decodeWitness_rethrows (s : State rt) (txid : jsstring)
    (opt : FormatImageOption) (msg : jsstring) (code : BitcoinErrorCode)
    (s1 : State rt) :
  cachedOrdinals rt env txid (logger rt debug (Decoding_witness txid) s).2
  = (Thrown (BitcoinError msg code), s1) ->
  exists s',
    decodeWitness rt env txid opt s = (Thrown (BitcoinError msg code), s')
    /\ requests rt s' = requests rt s1
    /\ disk rt s' = disk rt s1.
Proof.
  intros Hc.
  unfold decodeWitness, try_catch, bind at 1. cbn [logger].
  unfold logger at 1 in Hc. cbn [snd] in Hc.
  unfold bind at 1. rewrite Hc.
  unfold bind, logger, rethrow_as_BitcoinError, throw. simpl. eauto.
Qed.

Lemma find_Some_first {A : Type} (f : A -> bool) (l : list A) (x : A) :
  find f l = Some x <->
  exists before after,
    l = before ++ x :: after
    /\ Forall (fun y => f y = false) before /\ f x = true.
Proof.
  induction l as [|y l IH]; simpl.
  - split; [done|]. intros (before & after & Hl & _).
    by destruct before.
  - destruct (f y) eqn:Hy.
    + split.
      * intros [= <-]. by exists [], l.
      * intros ([|z before] & after & Hl & Hall & Hx); simplify_eq/=;
          [done|].
        inversion Hall; congruence.
    + rewrite IH. split.
      * intros (before & after & -> & Hall & Hx).
        exists (y :: before), after. by repeat constructor.
      * intros ([|z before] & after & Hl & Hall & Hx); simplify_eq/=;
          [congruence|].
        exists before, after. by inversion Hall.
Qed.

Lemma find_None_all {A : Type} (f : A -> bool) (l : list A) :
  find f l = None <-> Forall (fun y => f y = false) l.
Proof.
  induction l as [|y l IH]; simpl; [done|].
  destruct (f y) eqn:Hy.
  - split; [done|]. inversion 1; congruence.
  - rewrite IH. split; [by constructor|by inversion 1].
Qed.

(** [getOrdinalImage] once its inscriptions are at hand. *)
Lemma getOrdinalImage_run (s : State rt) (xlog : list ImageLogEntry)
    (txid : jsstring) (ordinals : list ExtractedOrdinal.t) (s1 : State rt) :
  cachedOrdinals rt env txid s = (Returned ordinals, s1) ->
  (getOrdinalImage rt env txid (s, xlog)).1
  = Returned (image_of <$> find is_image ordinals)
  /\ (getOrdinalImage rt env txid (s, xlog)).2.1 = s1.
Proof.
  intros Hc. unfold getOrdinalImage. rewrite Hc.
  change (fun ordinal : ExtractedOrdinal.t =>
            startsWith (ExtractedOrdinal.contentType ordinal) (js "image/"))
    with is_image.
  by destruct (find is_image ordinals).
Qed.

Lemma getOrdinalImage_rethrows (s : State rt) (xlog : list ImageLogEntry)
    (txid : jsstring) (msg : jsstring) (code : BitcoinErrorCode)
    (s1 : State rt) :
  cachedOrdinals rt env txid s = (Thrown (BitcoinError msg code), s1) ->
  (getOrdinalImage rt env txid (s, xlog)).1 = Thrown (BitcoinError msg code)
  /\ (getOrdinalImage rt env txid (s, xlog)).2.1 = s1.
Proof. intros Hc. unfold getOrdinalImage. by rewrite Hc. Qed.

End DecodeMore.

(** X17: whatever the cache and the network do, [decodeWitness] throws
    nothing but a [BitcoinError], makes no request or exactly one, to the
    URL of the transaction and never to the one of its raw hex, and, when
    images are asked for as data URIs, leaves the file system as it is. *)
Theorem X17_decodeWitness_effects (rt : Runtime) (env : Env)
    (txid : jsstring) (formatImageOption : FormatImageOption)
    (s : State rt) :
  throws_only_BitcoinError (decodeWitness rt env txid formatImageOption s).1
  /\ (requests rt (decodeWitness rt env txid formatImageOption s).2
      = requests rt s
      \/ requests rt (decodeWitness rt env txid formatImageOption s).2
         = requests rt s ++ [tx_url env txid])
  /\ (formatImageOption = base64 ->
      disk rt (decodeWitness rt env txid formatImageOption s).2 = disk rt s).
Proof.
  destruct (cachedOrdinals_effects rt env
              (logger rt debug (Decoding_witness txid) s).2 txid)
    as (Hb & Hd & Hr).
  destruct (cachedOrdinals rt env txid
              (logger rt debug (Decoding_witness txid) s).2)
    as [[ordinals|e] s1] eqn:Hc; simpl in Hb, Hd, Hr.
  - destruct (decodeWitness_run rt env s txid formatImageOption ordinals s1
                Hc) as (s' & -> & Hreq & Hdisk). simpl.
    rewrite Hreq, Hdisk. split; [done|]. split; [done|].
    intros ->. rewrite formatAll_disk by auto. done.
  - destruct e as [m|msg code|m]; try done.
    destruct (decodeWitness_rethrows rt env s txid formatImageOption msg code
                s1 Hc) as (s' & -> & Hreq & Hdisk). simpl.
    rewrite Hreq, Hdisk. done.
Qed.

(** X18: the whole pipeline.  When the cache has no usable entry for the
    transaction and the source delivers it, [decodeWitness] makes exactly
    one request and returns, in scan order, the formatted representation of
    every envelope the scanner extracts from the delivered transaction whose
    representation is a string that is not empty.  This holds when the entry
    just stored is still usable at the next reading of the clock; when the
    clock has moved by more than the TTL in between, the lookup that
    follows the fetch evicts the entry and the result is the empty list. *)
Theorem X18_decodeWitness_after_a_fetch (rt : Runtime) (env : Env)
    (txid : jsstring) (formatImageOption : FormatImageOption) (s : State rt)
    (tx : BlockstreamTx.t) :
  misses rt env s txid ->
  transaction_of (http env (length (requests rt s)) (tx_url env txid))
  = Some tx ->
  requests rt (decodeWitness rt env txid formatImageOption s).2
  = requests rt s ++ [tx_url env txid]
  /\ (stored_entry_usable rt env s txid ->
      (decodeWitness rt env txid formatImageOption s).1
      = Returned
          (omap non_empty
             (formatAll rt env formatImageOption txid
                (extractAllOrdinals rt tx).1 0 s).1))
  /\ (~ stored_entry_usable rt env s txid ->
      (decodeWitness rt env txid formatImageOption s).1 = Returned []).
Proof.
  intros Hmiss Htx.
  destruct (cachedOrdinals_miss_ok rt env
              (logger rt debug (Decoding_witness txid) s).2 txid tx Hmiss Htx)
    as (s1 & Hc & Hd & Hr).
  change (SimpleCache.ttlMs
            (transactionCache rt
               (logger rt debug (Decoding_witness txid) s).2))
    with (SimpleCache.ttlMs (transactionCache rt s)) in Hc.
  change (reads_after_lookup rt env
            (logger rt debug (Decoding_witness txid) s).2 txid)
    with (reads_after_lookup rt env s txid) in Hc.
  unfold stored_entry_usable.
  destruct (SimpleCache.ttlMs (transactionCache rt s)
            <? clock env (S (reads_after_lookup rt env s txid))
               - clock env (reads_after_lookup rt env s txid))%Z eqn:Hb.
  - apply Z.ltb_lt in Hb.
    destruct (decodeWitness_run rt env s txid formatImageOption _ s1 Hc)
      as (s' & -> & Hreq & _). simpl in Hd, Hr |- *.
    rewrite Hreq. split; [done|]. split; [lia|done].
  - apply Z.ltb_ge in Hb.
    destruct (decodeWitness_run rt env s txid formatImageOption _ s1 Hc)
      as (s' & -> & Hreq & _). simpl in Hd, Hr |- *.
    rewrite Hreq. split; [done|]. split; [|lia].
    intros _.
    by destruct (formatAll_disk_only rt env formatImageOption txid
                   (extractAllOrdinals rt tx).1 0 s s1 Hd) as [-> _].
Qed.

Lemma X18_witness :
  (decodeWitness Examples.rt
     (Examples.serving (Examples.tx_with [Examples.stray_witness]))
     Examples.txid1 base64 (Examples.fresh_client true)).1
  = Returned [js "hello world"]
  /\ requests Examples.rt
       (decodeWitness Examples.rt
          (Examples.serving (Examples.tx_with [Examples.stray_witness]))
          Examples.txid1 base64 (Examples.fresh_client true)).2
     = [js "https://blockstream.info/api/tx/aa11"].
Proof.
  destruct (X18_decodeWitness_after_a_fetch Examples.rt
              (Examples.serving (Examples.tx_with [Examples.stray_witness]))
              Examples.txid1 base64 (Examples.fresh_client true)
              (Examples.tx_with [Examples.stray_witness]))
    as (Hreq & Hres & _).
  - by vm_compute.
  - by vm_compute.
  - split; [|rewrite Hreq; by vm_compute].
    rewrite Hres; by vm_compute.
Defined.

(** X19: when the cache holds an entry for the transaction that is not
    older than the TTL, [decodeWitness] makes no request and returns the
    non-empty formatted representations of the inscriptions stored in that
    entry. *)
Theorem X19_decodeWitness_from_the_cache (rt : Runtime) (env : Env)
    (txid : jsstring) (formatImageOption : FormatImageOption) (s : State rt)
    (e : SimpleCache.CacheEntry TransactionCache.t) :
  SimpleCache.cache (transactionCache rt s) !! txid = Some e ->
  (clock env (clock_reads rt s) - SimpleCache.timestamp e
   <= SimpleCache.ttlMs (transactionCache rt s))%Z ->
  (decodeWitness rt env txid formatImageOption s).1
  = Returned
      (omap non_empty
         (formatAll rt env formatImageOption txid
            (TransactionCache.extractedOrdinals (SimpleCache.data e)) 0 s).1)
  /\ requests rt (decodeWitness rt env txid formatImageOption s).2
     = requests rt s.
Proof.
  intros He Hfresh.
  assert (~ expired rt env (logger rt debug (Decoding_witness txid) s).2 e)
    as Hne by (unfold expired; simpl; lia).
  pose proof (cachedOrdinals_hit rt env
                (logger rt debug (Decoding_witness txid) s).2 txid e He Hne)
    as Hc.
  destruct (decodeWitness_run rt env s txid formatImageOption _ _ Hc)
    as (s' & -> & Hreq & _). simpl.
  split; [|done].
  match goal with
  | |- context [formatAll rt env formatImageOption txid ?os 0 ?s1] =>
      by destruct (formatAll_disk_only rt env formatImageOption txid os 0 s
                     s1 eq_refl) as [-> _]
  end.
Qed.

Lemma X19_witness :
  (decodeWitness Examples.rt
     (Examples.serving (Examples.tx_with [Examples.stray_witness]))
     Examples.txid1 base64
     (getTransaction Examples.rt
        (Examples.serving (Examples.tx_with [Examples.stray_witness]))
        Examples.txid1 false (Examples.fresh_client true)).2).1
  = Returned [js "hello world"]
  /\ requests Examples.rt
       (decodeWitness Examples.rt
          (Examples.serving (Examples.tx_with [Examples.stray_witness]))
          Examples.txid1 base64
          (getTransaction Examples.rt
             (Examples.serving (Examples.tx_with [Examples.stray_witness]))
             Examples.txid1 false (Examples.fresh_client true)).2).2
     = [js "https://blockstream.info/api/tx/aa11"].
Proof.
  destruct (X19_decodeWitness_from_the_cache Examples.rt
              (Examples.serving (Examples.tx_with [Examples.stray_witness]))
              Examples.txid1 base64
              (getTransaction Examples.rt
                 (Examples.serving
                    (Examples.tx_with [Examples.stray_witness]))
                 Examples.txid1 false (Examples.fresh_client true)).2
              (SimpleCache.Entry
                 (TransactionCache.make
                    (buildTransactionWithOrdinal Examples.rt
                       (Examples.tx_with [Examples.stray_witness])
                       (extractAllOrdinals Examples.rt
                          (Examples.tx_with [Examples.stray_witness])).1)
                    (extractAllOrdinals Examples.rt
                       (Examples.tx_with [Examples.stray_witness])).1
                    None)
                 0%Z))
    as (Hres & Hreq).
  - by vm_compute.
  - by vm_compute.
  - split; [|rewrite Hreq; by vm_compute].
    rewrite Hres. by vm_compute.
Defined.

(** X20: [getOrdinalImage] throws nothing but a [BitcoinError] and never
    touches the file system.  From the inscriptions of the transaction it
    returns the content type and the bytes of the first one, in scan order,
    whose content type starts with [image/], and [null] exactly when there
    is none; after a fetch whose stored entry is still usable these are the
    envelopes the scanner extracts from the delivered transaction. *)
Theorem X20_getOrdinalImage_first_image (rt : Runtime) (env : Env)
    (txid : jsstring) (s : State rt) (xlog : list ImageLogEntry) :
  throws_only_BitcoinError (getOrdinalImage rt env txid (s, xlog)).1
  /\ disk rt (getOrdinalImage rt env txid (s, xlog)).2.1 = disk rt s
  /\ (forall ordinals s1,
        cachedOrdinals rt env txid s = (Returned ordinals, s1) ->
        (forall image,
           (getOrdinalImage rt env txid (s, xlog)).1 = Returned (Some image)
           <-> exists before ordinal after,
                 ordinals = before ++ ordinal :: after
                 /\ Forall (fun o => is_image o = false) before
                 /\ is_image ordinal = true
                 /\ image = image_of ordinal)
        /\ ((getOrdinalImage rt env txid (s, xlog)).1 = Returned None
            <-> Forall (fun o => is_image o = false) ordinals))
  /\ (forall tx,
        misses rt env s txid ->
        transaction_of (http env (length (requests rt s)) (tx_url env txid))
        = Some tx ->
        stored_entry_usable rt env s txid ->
        (getOrdinalImage rt env txid (s, xlog)).1
        = Returned (image_of <$> find is_image (extractAllOrdinals rt tx).1)).
Proof.
  split; [|split; [|split]].
  - destruct (cachedOrdinals_effects rt env s txid) as (Hb & _).
    destruct (cachedOrdinals rt env txid s) as [[ordinals|e] s1] eqn:Hc.
    + by destruct (getOrdinalImage_run rt env s xlog txid ordinals s1 Hc)
        as [-> _].
    + destruct e as [m|msg code|m]; try done.
      by destruct (getOrdinalImage_rethrows rt env s xlog txid msg code s1 Hc)
        as [-> _].
  - destruct (cachedOrdinals_effects rt env s txid) as (Hb & Hd & _).
    destruct (cachedOrdinals rt env txid s) as [[ordinals|e] s1] eqn:Hc.
    + by destruct (getOrdinalImage_run rt env s xlog txid ordinals s1 Hc)
        as [_ ->].
    + destruct e as [m|msg code|m]; try done.
      by destruct (getOrdinalImage_rethrows rt env s xlog txid msg code s1 Hc)
        as [_ ->].
  - intros ordinals s1 Hc.
    destruct (getOrdinalImage_run rt env s xlog txid ordinals s1 Hc)
      as [-> _].
    split.
    + intros image. split.
      * destruct (find is_image ordinals) as [o|] eqn:Hf; [|done].
        intros [= <-].
        apply find_Some_first in Hf as (before & after & Hl & Hall & Ho).
        by exists before, o, after.
      * intros (before & o & after & Hl & Hall & Ho & ->).
        assert (find is_image ordinals = Some o) as ->; [|done].
        apply find_Some_first. by exists before, after.
    + rewrite <- find_None_all.
      destruct (find is_image ordinals); split; by intros [=].
  - intros tx Hmiss Htx Hu.
    destruct (cachedOrdinals_miss_ok rt env s txid tx Hmiss Htx)
      as (s1 & Hc & _).
    unfold stored_entry_usable in Hu. apply Z.ltb_ge in Hu.
    rewrite Hu in Hc.
    by destruct (getOrdinalImage_run rt env s xlog txid _ s1 Hc) as [-> _].
Qed.

(** ** The server's record of recent decodings and its image test *)

Section ServerFacts.

Lemma markSuccessfulDecoding_lookup (clock : nat -> Z) (txid : jsstring)
    (m : gmap jsstring Z) (reads : nat) (k : jsstring) (t : Z) :
  (RecentDecodings.markSuccessfulDecoding clock txid m reads).1 !! k = Some t
  <-> (if bool_decide (k = txid) then t = clock reads else m !! k = Some t)
      /\ (clock (S reads) - 5 * 60 * 1000 <= t)%Z.
Proof.
  unfold RecentDecodings.markSuccessfulDecoding. cbn [fst].
  rewrite map_lookup_filter_Some. cbn [snd].
  case_bool_decide as Hk.
  - subst k. rewrite lookup_insert_eq. split.
    + intros [[= <-] Hle]. split; [done|lia].
    + intros [-> Hle]. split; [done|lia].
  - rewrite lookup_insert_ne by done. split.
    + intros [Hm Hle]. split; [done|lia].
    + intros [Hm Hle]. split; [done|lia].
Qed.

Lemma isImageContent_data_uri (rt : Runtime) (contentType : jsstring)
    (contentBuffer : Buffer) :
  isImageContent (data_uri rt contentType contentBuffer) = true.
Proof. unfold isImageContent, data_uri. apply orb_true_r. Qed.

End ServerFacts.

(** X21: [markSuccessfulDecoding] records the transaction with the first
    of its two clock readings and then drops every entry that is more than
    five minutes older than the second reading.  So every entry kept is at
    most five minutes older than that reading, the entries of other
    transactions that are kept are unchanged, the transaction itself is
    reported as recently decoded exactly when its two readings are at most
    five minutes apart, and two readings of the clock are made. *)
Theorem X21_recent_decodings (clock : nat -> Z) (txid : jsstring)
    (successfulDecodings : gmap jsstring Z) (reads : nat) :
  let marked :=
    (RecentDecodings.markSuccessfulDecoding clock txid successfulDecodings
       reads).1 in
  (forall k t,
     marked !! k = Some t -> (clock (S reads) - t <= 5 * 60 * 1000)%Z)
  /\ (forall k t,
        k <> txid ->
        marked !! k = Some t <->
        successfulDecodings !! k = Some t
        /\ (clock (S reads) - t <= 5 * 60 * 1000)%Z)
  /\ (RecentDecodings.wasRecentlyDecoded txid marked = true <->
      (clock (S reads) - clock reads <= 5 * 60 * 1000)%Z)
  /\ (forall t, marked !! txid = Some t -> t = clock reads)
  /\ (RecentDecodings.markSuccessfulDecoding clock txid successfulDecodings
        reads).2 = S (S reads).
Proof.
  intros marked. subst marked. split; [|split; [|split; [|split]]].
  - intros k t [_ Hle]%markSuccessfulDecoding_lookup. lia.
  - intros k t Hk. rewrite markSuccessfulDecoding_lookup.
    rewrite bool_decide_eq_false_2 by done.
    split; (intros [Hm Hle]; split; [done|lia]).
  - unfold RecentDecodings.wasRecentlyDecoded.
    rewrite bool_decide_eq_true. unfold is_Some.
    split.
    + intros [t Ht]. apply markSuccessfulDecoding_lookup in Ht as [Ht Hle].
      rewrite bool_decide_eq_true_2 in Ht by done. subst t. lia.
    + intros Hle. exists (clock reads).
      apply markSuccessfulDecoding_lookup.
      rewrite bool_decide_eq_true_2 by done. split; [done|lia].
  - intros t [Ht _]%markSuccessfulDecoding_lookup.
    by rewrite bool_decide_eq_true_2 in Ht.
  - done.
Qed.

(** X22: the test by which [handleDecodeWitness] picks the image among the
    decoded contents accepts every data URI the formatter produces,
    whatever its content type: for an inscription whose content type is
    neither an image, nor JSON, nor text, the formatter returns a data URI
    and the test takes it for an image. *)
Theorem X22_image_test_accepts_every_data_uri (rt : Runtime) (env : Env)
    (contentType : jsstring) (contentBuffer : Buffer)
    (formatImageOption : FormatImageOption) (txid : option jsstring)
    (index : nat) (s : State rt) :
  startsWith contentType (js "image/") = false ->
  str_eqb contentType (js "application/json") = false ->
  startsWith contentType (js "text/") = false ->
  formatInscriptionContent rt env contentType contentBuffer formatImageOption
    txid index s
  = (Returned (Some (data_uri rt contentType contentBuffer)), s)
  /\ isImageContent (data_uri rt contentType contentBuffer) = true.
Proof.
  intros Hi Hj Ht. split; [|apply isImageContent_data_uri].
  unfold formatInscriptionContent, try_catch. by rewrite Hi, Hj, Ht.
Qed.

Lemma X22_witness :
  (formatInscriptionContent Examples.rt Examples.offline
     (js "application/pdf") (Reference.from_hex (js "255044462d")) file
     (Some Examples.txid1) 0 (Examples.fresh_client true)).1
  = Returned (Some (js "data:application/pdf;base64,JVBERi0="))
  /\ isImageContent (js "data:application/pdf;base64,JVBERi0=") = true.
Proof.
  destruct (X22_image_test_accepts_every_data_uri Examples.rt
              Examples.offline (js "application/pdf")
              (Reference.from_hex (js "255044462d")) file
              (Some Examples.txid1) 0 (Examples.fresh_client true))
    as [Hr Hi].
  - by vm_compute.
  - by vm_compute.
  - by vm_compute.
  - rewrite Hr. split; [by vm_compute|].
    rewrite <- Hi. by vm_compute.
Defined.

(** ** Scripts the parser accepts *)

Section ParserAccepts.
Variable rt : Runtime.

Lemma lookup_after {A : Type} (pre rest : list A) (k : nat) :
  (pre ++ rest) !! (length pre + k) = rest !! k.
Proof.
  rewrite lookup_app_r by lia. f_equal. lia.
Qed.

Lemma lookup_canonical_body (ordPush contentType : Buffer)
    (body : list Buffer) (post : list Chunk) (j : nat) :
  j < length body ->
  exists b,
    (canonical_envelope ordPush contentType body ++ post) !! (6 + j)
    = Some (Data b).
Proof.
  intros Hj. unfold canonical_envelope. simpl.
  change (map Data body) with (Data <$> body).
  rewrite <- app_assoc. rewrite lookup_app_l by (by rewrite length_fmap).
  rewrite list_lookup_fmap.
  destruct (lookup_lt_is_Some_2 body j Hj) as [b ->]. by exists b.
Qed.

Lemma lookup_canonical_endif (ordPush contentType : Buffer)
    (body : list Buffer) (post : list Chunk) :
  (canonical_envelope ordPush contentType body ++ post)
  !! (6 + length body)
  = Some (Op OP_ENDIF).
Proof.
  unfold canonical_envelope. simpl.
  change (map Data body) with (Data <$> body).
  rewrite <- app_assoc. rewrite lookup_app_r by (by rewrite length_fmap).
  by rewrite length_fmap, Nat.sub_diag.
Qed.

Lemma tokens_between_canonical (pre : list Chunk)
    (ordPush contentType : Buffer) (body : list Buffer) (post : list Chunk) :
  tokens_between (pre ++ canonical_envelope ordPush contentType body ++ post)
    (length pre + 5) (length pre + (6 + length body))
  = map Data body.
Proof.
  unfold tokens_between, canonical_envelope.
  replace (length pre + 5 + 1) with (length pre + 6) by lia.
  rewrite drop_app_add' by done.
  replace (length pre + (6 + length body) - (length pre + 6))
    with (length (map Data body)) by (rewrite length_map; lia).
  change (drop 6 _) with ((map Data body ++ [Op OP_ENDIF]) ++ post).
  rewrite <- app_assoc. by rewrite take_app_length.
Qed.

Lemma pushes_map_Data (body : list Buffer) : pushes (map Data body) = body.
Proof.
  induction body as [|b body IH]; [done|].
  change (pushes (map Data (b :: body))) with (b :: pushes (map Data body)).
  by rewrite IH.
Qed.

Lemma stray_warnings_map_Data (body : list Buffer) (i : nat) :
  stray_warnings (map Data body) i = [].
Proof. revert i. induction body as [|b body IH]; intros i; simpl; auto. Qed.

Lemma parseDecompiled_canonical (pre post : list Chunk)
    (ordPush contentType : Buffer) (body : list Buffer) :
  Forall (fun c => c <> Op OP_IF) pre ->
  toString_utf8 rt ordPush = js "ord" ->
  toString_utf8 rt contentType <> [] ->
  parseDecompiled rt
    (pre ++ canonical_envelope ordPush contentType body ++ post)
  = (Some (Frame.make (length pre + 1) (length pre + (6 + length body))
             (length pre + 2) (length pre + 4)
             (toString_utf8 rt contentType) (length pre + 5) body
             (Buffer_concat body)),
     [(info, Successfully_extracted (toString_utf8 rt contentType)
               (length (Buffer_concat body)))]).
Proof.
  intros Hpre Hord Hct.
  set (d := pre ++ canonical_envelope ordPush contentType body ++ post).
  assert (forall k, d !! (length pre + k)
                    = (canonical_envelope ordPush contentType body ++ post)
                      !! k) as Hd
    by (intros k; apply lookup_after).
  assert (forall j y, j < length pre -> d !! j = Some y -> y <> Op OP_IF)
    as Hbefore.
  { intros j y Hj Hy. unfold d in Hy. rewrite lookup_app_l in Hy by done.
    rewrite Forall_lookup in Hpre. by apply (Hpre j). }
  assert (forall j y,
            length pre + 2 <= j < length pre + (6 + length body) ->
            d !! j = Some y -> y <> Op OP_ENDIF) as Hinside.
  { intros j y Hj Hy.
    replace j with (length pre + (j - length pre)) in Hy by lia.
    rewrite Hd in Hy.
    destruct (j - length pre) as [|[|[|[|[|[|k]]]]]] eqn:Hk; try lia;
      try (injection Hy as <-; discriminate).
    destruct (lookup_canonical_body ordPush contentType body post k)
      as [b Hb]; [lia|].
    change (S (S (S (S (S (S k)))))) with (6 + k) in Hy.
    rewrite Hb in Hy. by injection Hy as <-. }
  pose proof (parseDecompiled_complete rt d (length pre + 1)
                (length pre + (6 + length body)) (length pre + 2)
                (length pre + 4) (length pre + 5)
                (toString_utf8 rt contentType)) as Hc.
  assert (tokens_between d (length pre + 5)
            (length pre + (6 + length body)) = map Data body) as Htb
    by apply tokens_between_canonical.
  rewrite Htb in Hc.
  rewrite pushes_map_Data, stray_warnings_map_Data in Hc.
  rewrite pushed_bytes_concat, pushes_map_Data in Hc.
  apply Hc; clear Hc.
  - apply locateMarker_Some. split; [|split].
    + apply (findIndex_first _ d (length pre + 1) (Op OP_IF)).
      * by rewrite Hd.
      * done.
      * intros j y Hj Hy.
        destruct (decide (j < length pre)) as [Hlt|Hge].
        -- specialize (Hbefore j y Hlt Hy).
           destruct y as [n|b]; [|done]. simpl.
           apply N.eqb_neq. congruence.
        -- replace j with (length pre + 0) in Hy by lia.
           rewrite Hd in Hy. by injection Hy as <-.
    + lia.
    + replace (length pre + 1 - 1) with (length pre + 0) by lia.
      by rewrite Hd.
  - unfold locateEndif.
    apply (findIndex_first _ d (length pre + (6 + length body))
             (Op OP_ENDIF)).
    + rewrite Hd. apply lookup_canonical_endif.
    + cbv beta. apply andb_true_iff. split; [apply Nat.ltb_lt; lia|done].
    + intros j y Hj Hy. cbv beta.
      destruct (decide (j <= length pre + 1)) as [Hle|Hgt].
      * apply andb_false_iff. left. apply Nat.ltb_ge. lia.
      * apply andb_false_iff. right.
        assert (y <> Op OP_ENDIF) as Hne by (apply (Hinside j); [lia|done]).
        destruct y as [n|b]; [|done]. simpl. apply N.eqb_neq. congruence.
  - unfold locateOrdPush.
    apply (findIndex_first _ d (length pre + 2) (Data ordPush)).
    + by rewrite Hd.
    + cbv beta. rewrite Hord.
      repeat (apply andb_true_iff; split); try (apply Nat.ltb_lt; lia).
      by apply bool_decide_eq_true.
    + intros j y Hj Hy. cbv beta.
      replace (Nat.ltb (length pre + 1) j) with false; [done|].
      symmetry. apply Nat.ltb_ge. lia.
  - unfold readContentType.
    replace (length pre + 2 + 1) with (length pre + 3) by lia.
    replace (length pre + 2 + 2) with (length pre + 4) by lia.
    replace (Nat.ltb (length pre + 3) (length pre + (6 + length body)))
      with true by (symmetry; apply Nat.ltb_lt; lia).
    replace (Nat.ltb (length pre + 4) (length pre + (6 + length body)))
      with true by (symmetry; apply Nat.ltb_lt; lia).
    rewrite !Hd. simpl. by rewrite bool_decide_eq_false_2.
  - unfold locateSeparator.
    replace (length pre + 4 + 1) with (length pre + 5) by lia.
    replace (Nat.ltb (length pre + 5) (length pre + (6 + length body)))
      with true by (symmetry; apply Nat.ltb_lt; lia).
    by rewrite Hd.
Qed.

End ParserAccepts.

(** X23: the parser accepts every inscription written the canonical way.
    A script whose tokens are any tokens without an [OP_IF], then
    [OP_FALSE OP_IF], a push that decodes to "ord", [OP_1], a push whose
    text is not empty, [OP_0], any number of data pushes and [OP_ENDIF],
    then anything, is parsed to the text of the content-type push and the
    concatenation of the data pushes, with no warning. *)
Theorem X23_canonical_envelope_is_accepted (rt : Runtime)
    (pre post : list Chunk) (ordPush contentType : Buffer)
    (body : list Buffer) :
  Forall (fun c => c <> Op OP_IF) pre ->
  toString_utf8 rt ordPush = js "ord" ->
  toString_utf8 rt contentType <> [] ->
  (exists f,
     parseDecompiled rt
       (pre ++ canonical_envelope ordPush contentType body ++ post)
     = (Some f,
        [(info, Successfully_extracted (toString_utf8 rt contentType)
                  (length (Buffer_concat body)))])
     /\ Frame.ifIndex f = S (length pre)
     /\ Frame.contentType f = toString_utf8 rt contentType
     /\ Frame.fullContent f = Buffer_concat body)
  /\ (forall scriptBuffer,
        script_decompile rt scriptBuffer
        = Returned
            (Some (pre ++ canonical_envelope ordPush contentType body
                   ++ post)) ->
        extractOrdinalContent rt scriptBuffer
        = (Returned
             (Some (Extracted.make (toString_utf8 rt contentType)
                      (Buffer_concat body))),
           [(info, Successfully_extracted (toString_utf8 rt contentType)
                     (length (Buffer_concat body)))])).
Proof.
  intros Hpre Hord Hct.
  pose proof (parseDecompiled_canonical rt pre post ordPush contentType body
                Hpre Hord Hct) as Hp.
  split.
  - eexists. split; [exact Hp|]. simpl. split; [lia|done].
  - intros scriptBuffer Hd.
    rewrite (extractOrdinalContent_decompiled rt _ _ Hd). by rewrite Hp.
Qed.

Lemma X23_witness :
  (extractOrdinalContent Examples.rt
     (Reference.from_hex
        (js "01aaac0063036f7264510a746578742f706c61696e000568656c6c6f0620776f726c64687551"))).1
  = Returned
      (Some (Extracted.make (js "text/plain")
               (Reference.from_hex (js "68656c6c6f20776f726c64")))).
Proof.
  destruct (X23_canonical_envelope_is_accepted Examples.rt
              [Data (Reference.from_hex (js "aa")); Op 172] [Op 117; Op 81]
              (Reference.from_hex (js "6f7264"))
              (Reference.from_hex (js "746578742f706c61696e"))
              [Reference.from_hex (js "68656c6c6f");
               Reference.from_hex (js "20776f726c64")])
    as [_ H].
  - by repeat constructor.
  - by vm_compute.
  - by vm_compute.
  - rewrite H by (by vm_compute). by vm_compute.
Defined.
